(** * RCM Analyzer client: the calculator, its validators and its stepper

    A shallow embedding of
    - [src/app/features/calculator/services/calculator.service.ts]
      (module [Service]) and
    - the calculator component (module [Component]),
    over a small model of the JavaScript values and built-ins the two files
    use (module [JS]), of the regular expressions of the ZIP/PIN check
    (module [RegExp]), of the result record (module [Result]) and of the
    reactive-forms controls the component reads (module [Forms]).  The
    modules [Spec], [ZipSpec] and [Stepper] hold what the specification
    says, to compare the code with.

    Modelling conventions.
    - A JavaScript number is an exact rational, or NaN, or one of the two
      infinities.  Binary64 rounding, overflow and the sign of zero are not
      modelled: [0.85] is the rational 85/100.
    - An object literal used as a dictionary is the finite map of its own
      properties; a lookup in the denial-rate table and in [formErrors]
      also answers the properties inherited from [Object.prototype]
      ([lookup_literal]).
    - The values of form controls are primitive values.  The properties of
      an argument typed [any] can in addition be Symbols, whose conversion
      to a string throws.
    - [Math.random] and the order in which [Array.prototype.sort] leaves an
      array under a random comparator are inputs of the functions that use
      them. *)

From Stdlib Require Import QArith Qcanon Qround ZArith Ascii String List.
From Stdlib Require Import DecimalString Lqa Btauto.
From stdpp Require Import base decidable option numbers strings list gmap fin_maps.

Local Open Scope string_scope.

(* ===================================================================== *)
(** * JavaScript numbers, values and built-ins *)
(* ===================================================================== *)

Module JS.

(** ** Numbers *)

Inductive number : Type :=
| NaN
| Infinity
| NegInfinity
| Finite (q : Qc).

#[global] Instance number_eq_dec : EqDecision number.
Proof. solve_decision. Defined.

(** A decimal literal of the source, e.g. [num 7.2]. *)
Definition num (q : Q) : number := Finite (Q2Qc q).

Definition of_Z (z : Z) : number := Finite (Qc_of_Z z).

Definition is_finite (x : number) : bool :=
  match x with Finite _ => true | _ => false end.

(** Sign of a number that is not NaN. *)
Definition sign (x : number) : comparison :=
  match x with
  | NaN => Eq
  | Infinity => Gt
  | NegInfinity => Lt
  | Finite q => (q ?= 0)%Qc
  end.

Definition infinity_of (s : comparison) : number :=
  match s with Gt => Infinity | Lt => NegInfinity | Eq => NaN end.

Definition sign_mul (s t : comparison) : comparison :=
  match s, t with
  | Eq, _ | _, Eq => Eq
  | Gt, Gt | Lt, Lt => Gt
  | _, _ => Lt
  end.

Definition neg (x : number) : number :=
  match x with
  | NaN => NaN
  | Infinity => NegInfinity
  | NegInfinity => Infinity
  | Finite q => Finite (- q)%Qc
  end.

(** [x + y] *)
Definition add (x y : number) : number :=
  match x, y with
  | NaN, _ | _, NaN => NaN
  | Finite a, Finite b => Finite (a + b)%Qc
  | Infinity, NegInfinity | NegInfinity, Infinity => NaN
  | Infinity, _ | _, Infinity => Infinity
  | NegInfinity, _ | _, NegInfinity => NegInfinity
  end.

(** [x - y] *)
Definition sub (x y : number) : number := add x (neg y).

(** [x * y]: an infinity times zero is NaN. *)
Definition mul (x y : number) : number :=
  match x, y with
  | NaN, _ | _, NaN => NaN
  | Finite a, Finite b => Finite (a * b)%Qc
  | _, _ => infinity_of (sign_mul (sign x) (sign y))
  end.

(** [x / y]: a finite number over zero is an infinity of its sign, [0 / 0]
    and the quotient of two infinities are NaN. *)
Definition div (x y : number) : number :=
  match x, y with
  | NaN, _ | _, NaN => NaN
  | Finite a, Finite b =>
      if decide (b = 0%Qc) then infinity_of (sign x) else Finite (a / b)%Qc
  | Finite _, _ => Finite 0%Qc
  | _, Finite b => if decide (b = 0%Qc) then x else infinity_of (sign_mul (sign x) (sign y))
  | _, _ => NaN
  end.

(** [x <= y] as a proposition and as a test; false when either side is NaN. *)
Definition le (x y : number) : Prop :=
  match x, y with
  | NaN, _ | _, NaN => False
  | NegInfinity, _ | _, Infinity => True
  | Finite a, Finite b => (a <= b)%Qc
  | _, _ => False
  end.

Definition leb (x y : number) : bool :=
  match x, y with
  | NaN, _ | _, NaN => false
  | NegInfinity, _ | _, Infinity => true
  | Finite a, Finite b => bool_decide (a <= b)%Qc
  | _, _ => false
  end.

Definition lt (x y : number) : Prop :=
  match x, y with
  | NaN, _ | _, NaN => False
  | Finite a, Finite b => (a < b)%Qc
  | Infinity, _ | _, NegInfinity => False
  | _, _ => True
  end.

#[global] Instance le_dec : RelDecision le.
Proof. intros x y. destruct x, y; simpl; apply _. Defined.
#[global] Instance lt_dec : RelDecision lt.
Proof. intros x y. destruct x, y; simpl; apply _. Defined.

Definition ltb (x y : number) : bool :=
  match x, y with
  | NaN, _ | _, NaN => false
  | Finite a, Finite b => bool_decide (a < b)%Qc
  | Infinity, _ | _, NegInfinity => false
  | _, _ => true
  end.

Definition isNaN (x : number) : bool :=
  match x with NaN => true | _ => false end.

(** [Math.max(x, y)] and [Math.min(x, y)]: NaN as soon as one argument is. *)
Definition Math_max (x y : number) : number :=
  match x, y with
  | NaN, _ | _, NaN => NaN
  | _, _ => if leb x y then y else x
  end.

Definition Math_min (x y : number) : number :=
  match x, y with
  | NaN, _ | _, NaN => NaN
  | _, _ => if leb x y then x else y
  end.

(** [Math.round(x)]: the integer nearest to [x], halves going up. *)
Definition Math_round (x : number) : number :=
  match x with
  | Finite q => of_Z (Qfloor (q + Q2Qc (1 # 2))%Qc)
  | _ => x
  end.

(** ** Primitive values

    The values a form control can hold. *)

Inductive primitive : Type :=
| undefined
| null
| VBool (b : bool)
| VNumber (n : number)
| VString (s : string).

#[global] Instance primitive_eq_dec : EqDecision primitive.
Proof. solve_decision. Defined.

(** ToBoolean on numbers: NaN and zero are falsy. *)
Definition truthy_number (x : number) : bool :=
  match x with
  | NaN => false
  | Finite q => negb (bool_decide (q = 0%Qc))
  | _ => true
  end.

(** ToBoolean. *)
Definition truthy (v : primitive) : bool :=
  match v with
  | undefined | null => false
  | VBool b => b
  | VNumber n => truthy_number n
  | VString s => negb (bool_decide (s = ""))
  end.

(** [x || d] between numbers. *)
Definition or_number (x d : number) : number :=
  if truthy_number x then x else d.

(** ** Property lookup in an object literal

    [table[key]] answers the own properties of the literal and, for any
    other key, what every object inherits from [Object.prototype]:
    functions, and under [__proto__] the prototype itself.  All of these
    are objects: truthy, and NaN once converted to a number. *)
Definition Object_prototype : list string :=
  [ "constructor"; "__defineGetter__"; "__defineSetter__"; "hasOwnProperty";
    "__lookupGetter__"; "__lookupSetter__"; "isPrototypeOf";
    "propertyIsEnumerable"; "toString"; "valueOf"; "__proto__";
    "toLocaleString" ].

Inductive looked_up (A : Type) : Type :=
| Own (a : A)
| Inherited (key : string)
| Absent.
Arguments Own {A} a.
Arguments Inherited {A} key.
Arguments Absent {A}.

#[global] Instance looked_up_eq_dec `{EqDecision A} : EqDecision (looked_up A).
Proof. solve_decision. Defined.

Definition lookup_literal {A : Type} (table : gmap string A) (key : string)
  : looked_up A :=
  match table !! key with
  | Some a => Own a
  | None => if bool_decide (key ∈ Object_prototype) then Inherited key else Absent
  end.

(** [table[key] || d] for a table of numbers: the own number when it is
    truthy, the inherited object, and [d] otherwise.  [Absent] does not
    occur in the result. *)
Definition or_default (x : looked_up number) (d : number) : looked_up number :=
  match x with
  | Own r => Own (or_number r d)
  | Inherited key => Inherited key
  | Absent => Own d
  end.

(** ToNumber of what such a lookup gives, as the operators [-] and [*]
    apply it to their operands. *)
Definition ToNumber (x : looked_up number) : number :=
  match x with
  | Own r => r
  | Inherited _ | Absent => NaN
  end.

(** [v === 'literal'] *)
Definition strict_eq_string (v : primitive) (lit : string) : bool :=
  match v with VString s => bool_decide (s = lit) | _ => false end.

(** ** Number::toString

    The digits of the exact value, at most 17 significant ones once the
    integer part is written, laid out by the rules of Number::toString:
    positional for magnitudes in [1e-6, 1e21), exponent notation beyond. *)

Definition digit_char (d : Z) : ascii := ascii_of_nat (Z.to_nat (48 + d)).

Definition decimal_of_Z (z : Z) : string :=
  NilZero.string_of_uint (N.to_uint (Z.to_N z)).

Fixpoint frac_digits (n : nat) (r : Q) : string :=
  match n with
  | O => ""
  | S n' =>
      if Qeq_bool r 0 then ""
      else let r10 := Qred (r * 10) in
           let d := Qfloor r10 in
           String (digit_char d) (frac_digits n' (r10 - inject_Z d))
  end.

(** Zeros between the point and the first digit of [0 < r < 1], with [r]
    scaled into [1/10, 1). *)
Fixpoint leading_zeros (fuel : nat) (r : Q) : nat * Q :=
  match fuel with
  | O => (O, r)
  | S f =>
      if Qle_bool (1 # 10) r then (O, r)
      else let '(z, r') := leading_zeros f (Qred (r * 10)) in (S z, r')
  end.

Fixpoint strip_zeros (s : string) : string :=
  match s with
  | "" => ""
  | String c t =>
      let t' := strip_zeros t in
      if bool_decide (c = "0"%char) && bool_decide (t' = "") then "" else String c t'
  end.

Fixpoint zeros (n : nat) : string :=
  match n with O => "" | S n' => String "0" (zeros n') end.

(** The significant digits of [q > 0] and the exponent [n] with
    [q = 0.d1d2...dk * 10^n]. *)
Definition digits_of (q : Q) : string * Z :=
  let ip := Qfloor q in
  if (0 <? ip)%Z then
    let ds := decimal_of_Z ip in
    let n := String.length ds in
    (strip_zeros (ds +:+ frac_digits (17 - n) (q - inject_Z ip)), Z.of_nat n)
  else
    let '(z, r) := leading_zeros (S (Z.to_nat (Z.log2 (Zpos (Qden q))))) q in
    (strip_zeros (frac_digits 17 r), (- Z.of_nat z)%Z).

Definition layout (ds : string) (n : Z) : string :=
  let k := Z.of_nat (String.length ds) in
  if ((k <=? n) && (n <=? 21))%Z then ds +:+ zeros (Z.to_nat (n - k))
  else if ((0 <? n) && (n <=? 21))%Z then
    String.substring 0 (Z.to_nat n) ds +:+ "." +:+
    String.substring (Z.to_nat n) (Z.to_nat (k - n)) ds
  else if ((-6 <? n) && (n <=? 0))%Z then "0." +:+ zeros (Z.to_nat (- n)) +:+ ds
  else
    let e := (n - 1)%Z in
    let es := (if (e <? 0)%Z then "-" else "+") +:+ decimal_of_Z (Z.abs e) in
    match ds with
    | String d "" => String d ("e" +:+ es)
    | String d rest => String d ("." +:+ rest +:+ "e" +:+ es)
    | "" => ""
    end.

Definition number_to_string (x : number) : string :=
  match x with
  | NaN => "NaN"
  | Infinity => "Infinity"
  | NegInfinity => "-Infinity"
  | Finite q =>
      match (q ?= 0)%Qc with
      | Eq => "0"
      | Gt => let '(ds, n) := digits_of q in layout ds n
      | Lt => let '(ds, n) := digits_of (- q)%Qc in "-" +:+ layout ds n
      end
  end.

(** ToString. *)
Definition to_string (v : primitive) : string :=
  match v with
  | undefined => "undefined"
  | null => "null"
  | VBool true => "true"
  | VBool false => "false"
  | VNumber n => number_to_string n
  | VString s => s
  end.

(** ** parseInt and parseFloat

    Both work on ToString of their argument and skip leading white space
    (the ASCII white space characters; the non-ASCII ones are not
    modelled). *)

Definition is_space (c : ascii) : bool :=
  let n := nat_of_ascii c in
  (n =? 32)%nat || ((9 <=? n)%nat && (n <=? 13)%nat).

Fixpoint trim_start (s : string) : string :=
  match s with
  | String c t => if is_space c then trim_start t else s
  | "" => ""
  end.

(** An optional sign: whether it is a minus, and the rest. *)
Definition read_sign (s : string) : bool * string :=
  match s with
  | String "-" t => (true, t)
  | String "+" t => (false, t)
  | _ => (false, s)
  end.

Definition digit_value (radix : Z) (c : ascii) : option Z :=
  let n := Z.of_nat (nat_of_ascii c) in
  let d := if ((48 <=? n) && (n <=? 57))%Z then Some (n - 48)%Z
           else if ((97 <=? n) && (n <=? 122))%Z then Some (n - 87)%Z
           else if ((65 <=? n) && (n <=? 90))%Z then Some (n - 55)%Z
           else None in
  match d with
  | Some v => if (v <? radix)%Z then Some v else None
  | None => None
  end.

(** The longest prefix of digits: its value on top of [acc], how many
    digits were read on top of [count], and the rest of the string. *)
Fixpoint read_digits (radix : Z) (s : string) (acc : Z) (count : nat)
  : Z * nat * string :=
  match s with
  | String c t =>
      match digit_value radix c with
      | Some d => read_digits radix t (acc * radix + d)%Z (S count)
      | None => (acc, count, s)
      end
  | "" => (acc, count, s)
  end.

(** Without a radix argument a prefix [0x] or [0X] selects radix 16. *)
Definition strip_prefix (s : string) : Z * string :=
  match s with
  | String "0" (String "x" t) | String "0" (String "X" t) => (16%Z, t)
  | _ => (10%Z, s)
  end.

Definition parseInt_string (s : string) : number :=
  let '(negative, s1) := read_sign (trim_start s) in
  let '(radix, s2) := strip_prefix s1 in
  let '(v, n, _) := read_digits radix s2 0 0 in
  match n with
  | O => NaN
  | _ => of_Z (if negative then (- v)%Z else v)
  end.

Definition parseInt (v : primitive) : number := parseInt_string (to_string v).

(** [m * 10^e] *)
Definition scale10 (m e : Z) : number :=
  if (0 <=? e)%Z then of_Z (m * 10 ^ e)
  else Finite (Q2Qc (m # Z.to_pos (10 ^ (- e)))).

Definition read_exponent (s : string) : Z :=
  match s with
  | String "e" t | String "E" t =>
      let '(negative, t') := read_sign t in
      let '(v, n, _) := read_digits 10 t' 0 0 in
      match n with
      | O => 0%Z
      | _ => if negative then (- v)%Z else v
      end
  | _ => 0%Z
  end.

Definition parseFloat_string (s : string) : number :=
  let '(negative, s1) := read_sign (trim_start s) in
  if String.prefix "Infinity" s1 then (if negative then NegInfinity else Infinity)
  else
    let '(i, ni, s2) := read_digits 10 s1 0 0 in
    let '(m, nf, s3) :=
      match s2 with
      | String "." t => read_digits 10 t i 0
      | _ => (i, O, s2)
      end in
    match (ni + nf)%nat with
    | O => NaN
    | _ =>
        scale10 (if negative then (- m)%Z else m)
                (read_exponent s3 - Z.of_nat nf)
    end.

Definition parseFloat (v : primitive) : number := parseFloat_string (to_string v).

(** ** Objects, exceptions and promises *)

(** [o.k] and [o[k]] on a form value: [undefined] when [k] is not a
    property.  None of the keys that the calculation reads there is the
    name of a member of [Object.prototype]; the one computed key ends in
    'Value'. *)
Definition get (o : gmap string primitive) (k : string) : primitive :=
  default undefined (o !! k).

(** A property of an argument typed [any]: one of the primitive values
    above, or a Symbol.  ToString and ToNumber of a Symbol throw a
    TypeError; a Symbol is [===] to no string and, as a property key, it
    names none of the properties of the tables of this program. *)
Inductive value : Type :=
| Plain (v : primitive)
| Symbol.

#[global] Instance value_eq_dec : EqDecision value.
Proof. solve_decision. Defined.

(** An argument typed [any]: a primitive value, an object whose properties
    hold primitive values (a form value), or an object whose properties
    hold values in general. *)
Inductive any : Type :=
| Prim (v : primitive)
| Object (o : gmap string primitive)
| ObjectOfValues (o : gmap string value).

(** How the evaluation of a function body ends. *)
Inductive completion (A : Type) : Type :=
| Return (a : A)
| Throw (error : string).
Arguments Return {A} a.
Arguments Throw {A} error.

(** A settled promise. *)
Inductive promise (A : Type) : Type :=
| Resolved (a : A)
| Rejected (error : string).
Arguments Resolved {A} a.
Arguments Rejected {A} error.

#[global] Instance completion_ret : MRet completion := @Return.
#[global] Instance completion_bind : MBind completion :=
  fun A B f c =>
    match c with
    | Return a => f a
    | Throw error => Throw error
    end.

(** The properties a body can read from its argument: reading a property
    of [undefined] or [null] throws a TypeError, and the other primitives
    have none of the properties the calculator reads. *)
Definition properties (x : any) : completion (gmap string value) :=
  match x with
  | Object o => Return (Plain <$> o)
  | ObjectOfValues o => Return o
  | Prim undefined | Prim null => Throw "TypeError"
  | Prim _ => Return ∅
  end.

(** [o.k] and [o[k]] on such properties. *)
Definition get_value (o : gmap string value) (k : string) : value :=
  default (Plain undefined) (o !! k).

(** A built-in that converts its argument to a string first. *)
Definition converting {A : Type} (f : primitive -> A) (v : value) : completion A :=
  match v with
  | Plain p => Return (f p)
  | Symbol => Throw "TypeError"
  end.

(** [parseInt(v)], [parseFloat(v)] and [v + 'literal'] *)
Definition parseInt_value : value -> completion number := converting parseInt.
Definition parseFloat_value : value -> completion number := converting parseFloat.
Definition concat_value (v : value) (lit : string) : completion string :=
  converting (fun p => to_string p +:+ lit) v.

(** [v === 'literal'] *)
Definition strict_eq_string_value (v : value) (lit : string) : bool :=
  match v with
  | Plain p => strict_eq_string p lit
  | Symbol => false
  end.


(** A value as the key of a lookup in a table of this program.  No table
    has a property under a Symbol, nor one named 'undefined', nor does
    [Object.prototype]: a lookup under a Symbol reads what a lookup under
    [undefined] reads. *)
Definition as_key (v : value) : primitive :=
  match v with
  | Plain p => p
  | Symbol => undefined
  end.

End JS.

Import JS.

(* ===================================================================== *)
(** * Regular expressions of the ZIP/PIN check *)
(* ===================================================================== *)

Module RegExp.

Inductive regex : Type :=
| Bol                             (* ^ *)
| Eol                             (* $ *)
| Digit                           (* \d *)
| Char (c : ascii)
| Seq (r1 r2 : regex)
| Opt (r : regex)                 (* r? *)
| Repeat (n : nat) (r : regex).   (* r{n} *)

(** [\d]: the ten ASCII digits. *)
Definition is_digit (c : ascii) : bool :=
  let n := nat_of_ascii c in (48 <=? n)%nat && (n <=? 57)%nat.

(** Backtracking matcher: [matches r pos s k] matches [r] at offset [pos]
    of the input, [s] being what is left of the input there, and hands the
    offset and the rest after the match to [k].  Without flags [^] holds at
    offset 0 only and [$] at the end of the input only. *)
Fixpoint matches (r : regex) (pos : nat) (s : string)
    (k : nat -> string -> bool) : bool :=
  match r with
  | Bol => (pos =? 0)%nat && k pos s
  | Eol => match s with "" => k pos s | String _ _ => false end
  | Digit =>
      match s with
      | String c t => is_digit c && k (S pos) t
      | "" => false
      end
  | Char a =>
      match s with
      | String c t => Ascii.eqb c a && k (S pos) t
      | "" => false
      end
  | Seq r1 r2 => matches r1 pos s (fun p t => matches r2 p t k)
  | Opt r1 => matches r1 pos s k || k pos s
  | Repeat n r1 =>
      (fix times (n : nat) (pos : nat) (s : string) : bool :=
         match n with
         | O => k pos s
         | S n' => matches r1 pos s (fun p t => times n' p t)
         end) n pos s
  end.

(** A match starting at offset [pos] or later. *)
Fixpoint search (r : regex) (pos : nat) (s : string) : bool :=
  matches r pos s (fun _ _ => true) ||
  match s with
  | String _ t => search r (S pos) t
  | "" => false
  end.

(** [r.test(s)] *)
Definition test (r : regex) (s : string) : bool := search r 0 s.

End RegExp.

(* ===================================================================== *)
(** * The calculation result *)
(* ===================================================================== *)

(** [interface CalculationResult], declared alike in both files. *)
Module Result.

Record UserMetrics : Type := {
  averageClaimPercentage : number;
  claimDenialRate : number;
  costPerClaim : number;
  totalMonthlyClaims : number;
  monthlyRevenue : number;
  monthlyProcessingCost : number
}.

Record BenchmarkMetrics : Type := {
  berserkClaimPercentage : number;
  berserkCostPerClaim : number;
  industryAverage : number
}.

Record Provider : Type := {
  name : string;
  npiNumber : string;
  specialty : string;
  claimSuccessRatio : number;
  address : string
}.

Record CalculationResult : Type := {
  userMetrics : UserMetrics;
  benchmarkMetrics : BenchmarkMetrics;
  nearbyProviders : list Provider
}.

#[global] Instance UserMetrics_eq_dec : EqDecision UserMetrics.
Proof. solve_decision. Defined.
#[global] Instance BenchmarkMetrics_eq_dec : EqDecision BenchmarkMetrics.
Proof. solve_decision. Defined.
#[global] Instance Provider_eq_dec : EqDecision Provider.
Proof. solve_decision. Defined.
#[global] Instance CalculationResult_eq_dec : EqDecision CalculationResult.
Proof. solve_decision. Defined.

End Result.

(* ===================================================================== *)
(** * calculator.service.ts *)
(* ===================================================================== *)

Module Service.

(** [estimateDenialRate]: estimated denial rates by specialty.  The key of
    [denialRates[specialty]] is ToString of [specialty]; declared to return
    a number, the function returns the inherited object for the name of a
    member of [Object.prototype]. *)
Definition denialRates : gmap string number :=
  list_to_map
    [ ("family_medicine", num 7.2);
      ("internal_medicine", num 8.1);
      ("pediatrics", num 6.8);
      ("cardiology", num 9.3);
      ("dermatology", num 5.9);
      ("orthopedics", num 10.2);
      ("dentistry", num 4.5);
      ("ophthalmology", num 6.7);
      ("psychiatry", num 8.9);
      ("other", num 8.0) ].

Definition estimateDenialRate (specialty : primitive) : looked_up number :=
  or_default (lookup_literal denialRates (to_string specialty)) (num 8.0).

(** [formatSpecialty], on the keys that are not names of members of
    [Object.prototype]: for such a name the code returns the inherited
    object, which is no string and has no place in the provider record. *)
Definition specialtyMap : gmap string string :=
  list_to_map
    [ ("family_medicine", "Family Medicine");
      ("internal_medicine", "Internal Medicine");
      ("pediatrics", "Pediatrics");
      ("cardiology", "Cardiology");
      ("dermatology", "Dermatology");
      ("orthopedics", "Orthopedics");
      ("dentistry", "Dentistry");
      ("ophthalmology", "Ophthalmology");
      ("psychiatry", "Psychiatry");
      ("other", "General Practice") ].

Definition formatSpecialty (specialty : primitive) : string :=
  match specialtyMap !! to_string specialty with
  | Some s => if bool_decide (s = "") then "General Practice" else s
  | None => "General Practice"
  end.

(** [sorted] is the order in which [sort(() => Math.random() - 0.5)] leaves
    the array and [random i] the draw of [Math.random()] for the [i]-th
    provider that is kept. *)
Section Randomness.

Variable sorted : list Result.Provider -> list Result.Provider.
Variable random : nat -> number.

(** [generateNearbyProviders] *)
Definition generateNearbyProviders (specialty pincode : primitive)
  : list Result.Provider :=
  let providers :=
    [ {| Result.name := "Regional Medical Center";
         Result.npiNumber := "1234567890";
         Result.specialty := formatSpecialty specialty;
         Result.claimSuccessRatio := num 94.2;
         Result.address := "Downtown Medical District" |};
      {| Result.name := "Community Health Partners";
         Result.npiNumber := "2345678901";
         Result.specialty := formatSpecialty specialty;
         Result.claimSuccessRatio := num 91.8;
         Result.address := "Suburban Healthcare Plaza" |};
      {| Result.name := "Advanced Care Clinic";
         Result.npiNumber := "3456789012";
         Result.specialty := formatSpecialty specialty;
         Result.claimSuccessRatio := num 89.5;
         Result.address := "Medical Arts Building" |};
      {| Result.name := "Premier Healthcare Group";
         Result.npiNumber := "4567890123";
         Result.specialty := formatSpecialty specialty;
         Result.claimSuccessRatio := num 96.1;
         Result.address := "University Medical Campus" |};
      {| Result.name := "Integrated Health Solutions";
         Result.npiNumber := "5678901234";
         Result.specialty := formatSpecialty specialty;
         Result.claimSuccessRatio := num 88.7;
         Result.address := "Central Business District" |} ] in
  imap
    (fun i provider =>
       {| Result.name := Result.name provider;
          Result.npiNumber := Result.npiNumber provider;
          Result.specialty := Result.specialty provider;
          Result.claimSuccessRatio :=
            div (Math_round
                   (mul (add (Result.claimSuccessRatio provider)
                             (mul (sub (random i) (num 0.5)) (num 4)))
                        (num 10)))
                (num 10);
          Result.address := Result.address provider |})
    (take 4 (sorted providers)).

(** [generateMockCalculation]: the constants of its body, in the order of
    the source, for a form value [formData]. *)
Section GenerateMockCalculation.

Variable formData : gmap string primitive.

Definition patientVolume : number :=
  or_number (parseInt (get formData "patientVolume")) (num 100).
Definition billingAverage : number :=
  or_number (parseFloat (get formData "billingAverage")) (num 150).
Definition collectionRate : number :=
  or_number (parseFloat (get formData "collectionRate")) (num 85).
Definition paymentTime : number :=
  or_number (parseInt (get formData "paymentTime")) (num 30).
(** [denialRate] is read twice, as an operand of [-] and of [*], which
    both convert it to a number: the constant is the converted value. *)
Definition denialRate : number :=
  if strict_eq_string (get formData "knowDenialRate") "yes"
  then or_number (parseFloat (get formData "denialRate")) (num 8)
  else ToNumber (estimateDenialRate (get formData "specialty")).

Definition monthlyPatients : number :=
  if strict_eq_string (get formData "volumePeriod") "daily"
  then mul patientVolume (num 30)
  else if strict_eq_string (get formData "volumePeriod") "weekly"
  then mul patientVolume (num 4)
  else patientVolume.

Definition monthlyRevenue : number :=
  mul (mul monthlyPatients billingAverage) (div collectionRate (num 100)).
Definition totalMonthlyClaims : number := monthlyPatients.

Definition staffWages : number :=
  or_number (parseFloat (get formData "staffWages")) (num 4000).
Definition staffCount : number :=
  or_number (parseInt (get formData "staffCount")) (num 2).
Definition pricingType : primitive := get formData "outsourcePricing".
Definition pricingValue : number :=
  or_number
    (parseFloat (get formData (to_string pricingType +:+ "Value")))
    (num 0).

Definition monthlyProcessingCost : number :=
  if strict_eq_string (get formData "processingType") "inhouse" then
    if strict_eq_string (get formData "wageType") "hourly"
    then mul (mul staffWages (num 160)) staffCount
    else mul staffWages staffCount
  else if strict_eq_string (get formData "processingType") "outsource" then
    if strict_eq_string pricingType "percentage"
    then mul monthlyRevenue (div pricingValue (num 100))
    else if strict_eq_string pricingType "perClaim"
    then mul totalMonthlyClaims pricingValue
    else if strict_eq_string pricingType "monthly"
    then pricingValue
    else if strict_eq_string pricingType "hourly"
    then mul pricingValue (num 160)
    else num 0
  else num 0.

Definition costPerClaim : number :=
  div monthlyProcessingCost totalMonthlyClaims.
Definition averageClaimPercentage : number :=
  Math_max (num 60) (Math_min (num 98) (sub (num 100) denialRate)).

Definition benchmarkMetrics : Result.BenchmarkMetrics :=
  {| Result.berserkClaimPercentage := num 96.5;
     Result.berserkCostPerClaim := num 12.50;
     Result.industryAverage := num 92.0 |}.

Definition nearbyProviders : list Result.Provider :=
  generateNearbyProviders (get formData "specialty") (get formData "pincode").

Definition generateMockCalculation : Result.CalculationResult :=
  {| Result.userMetrics :=
       {| Result.averageClaimPercentage :=
            div (Math_round (mul averageClaimPercentage (num 10))) (num 10);
          Result.claimDenialRate :=
            div (Math_round (mul denialRate (num 10))) (num 10);
          Result.costPerClaim :=
            div (Math_round (mul costPerClaim (num 100))) (num 100);
          Result.totalMonthlyClaims := Math_round totalMonthlyClaims;
          Result.monthlyRevenue := Math_round monthlyRevenue;
          Result.monthlyProcessingCost := Math_round monthlyProcessingCost |};
     Result.benchmarkMetrics := benchmarkMetrics;
     Result.nearbyProviders := nearbyProviders |}.

End GenerateMockCalculation.

(** [generateMockCalculation] on an argument typed [any]: the statements
    of the body in their order, each conversion of a property to a string
    with the exception it can raise.  On a form value nothing throws and
    the result is the record above ([generateMockCalculation_any_plain]). *)
Definition generateMockCalculation_any (formData : any)
  : completion Result.CalculationResult :=
  formData ← properties formData;
  patientVolume ← parseInt_value (get_value formData "patientVolume");
  let patientVolume := or_number patientVolume (num 100) in
  billingAverage ← parseFloat_value (get_value formData "billingAverage");
  let billingAverage := or_number billingAverage (num 150) in
  collectionRate ← parseFloat_value (get_value formData "collectionRate");
  let collectionRate := or_number collectionRate (num 85) in
  paymentTime ← parseInt_value (get_value formData "paymentTime");
  let paymentTime := or_number paymentTime (num 30) in
  denialRate ←
    (if strict_eq_string_value (get_value formData "knowDenialRate") "yes"
     then denialRate ← parseFloat_value (get_value formData "denialRate");
          mret (or_number denialRate (num 8))
     else mret (ToNumber (estimateDenialRate
                            (as_key (get_value formData "specialty")))));
  let monthlyPatients :=
    if strict_eq_string_value (get_value formData "volumePeriod") "daily"
    then mul patientVolume (num 30)
    else if strict_eq_string_value (get_value formData "volumePeriod") "weekly"
    then mul patientVolume (num 4)
    else patientVolume in
  let monthlyRevenue :=
    mul (mul monthlyPatients billingAverage) (div collectionRate (num 100)) in
  let totalMonthlyClaims := monthlyPatients in
  monthlyProcessingCost ←
    (if strict_eq_string_value (get_value formData "processingType") "inhouse" then
       staffWages ← parseFloat_value (get_value formData "staffWages");
       let staffWages := or_number staffWages (num 4000) in
       staffCount ← parseInt_value (get_value formData "staffCount");
       let staffCount := or_number staffCount (num 2) in
       mret (if strict_eq_string_value (get_value formData "wageType") "hourly"
             then mul (mul staffWages (num 160)) staffCount
             else mul staffWages staffCount)
     else if strict_eq_string_value (get_value formData "processingType") "outsource"
     then
       let pricingType := get_value formData "outsourcePricing" in
       key ← concat_value pricingType "Value";
       pricingValue ← parseFloat_value (get_value formData key);
       let pricingValue := or_number pricingValue (num 0) in
       mret (if strict_eq_string_value pricingType "percentage"
             then mul monthlyRevenue (div pricingValue (num 100))
             else if strict_eq_string_value pricingType "perClaim"
             then mul totalMonthlyClaims pricingValue
             else if strict_eq_string_value pricingType "monthly"
             then pricingValue
             else if strict_eq_string_value pricingType "hourly"
             then mul pricingValue (num 160)
             else num 0)
     else mret (num 0));
  let costPerClaim := div monthlyProcessingCost totalMonthlyClaims in
  let averageClaimPercentage :=
    Math_max (num 60) (Math_min (num 98) (sub (num 100) denialRate)) in
  let benchmarkMetrics :=
    {| Result.berserkClaimPercentage := num 96.5;
       Result.berserkCostPerClaim := num 12.50;
       Result.industryAverage := num 92.0 |} in
  let nearbyProviders :=
    generateNearbyProviders (as_key (get_value formData "specialty"))
                            (as_key (get_value formData "pincode")) in
  mret
    {| Result.userMetrics :=
         {| Result.averageClaimPercentage :=
              div (Math_round (mul averageClaimPercentage (num 10))) (num 10);
            Result.claimDenialRate :=
              div (Math_round (mul denialRate (num 10))) (num 10);
            Result.costPerClaim :=
              div (Math_round (mul costPerClaim (num 100))) (num 100);
            Result.totalMonthlyClaims := Math_round totalMonthlyClaims;
            Result.monthlyRevenue := Math_round monthlyRevenue;
            Result.monthlyProcessingCost := Math_round monthlyProcessingCost |};
       Result.benchmarkMetrics := benchmarkMetrics;
       Result.nearbyProviders := nearbyProviders |}.

(** [calculateMetrics]: the body of [generateMockCalculation] runs inside
    [try]; whatever it throws is logged and replaced by a new error. *)
Definition calculateMetrics (formData : any)
  : promise Result.CalculationResult :=
  match generateMockCalculation_any formData with
  | Return result => Resolved result
  | Throw error => Rejected "Failed to calculate metrics"
  end.

End Randomness.

(** [validateLocation] *)
Definition validateLocation (pincode : string) : promise bool :=
  let usZipPattern :=
    RegExp.Seq RegExp.Bol
      (RegExp.Seq (RegExp.Repeat 5 RegExp.Digit)
         (RegExp.Seq
            (RegExp.Opt (RegExp.Seq (RegExp.Char "-") (RegExp.Repeat 4 RegExp.Digit)))
            RegExp.Eol)) in
  let indianPinPattern :=
    RegExp.Seq RegExp.Bol (RegExp.Seq (RegExp.Repeat 6 RegExp.Digit) RegExp.Eol) in
  Resolved (RegExp.test usZipPattern pincode || RegExp.test indianPinPattern pincode).

(** [getProvidersByLocation]: [specialty] is optional. *)
Definition getProvidersByLocation
    (sorted : list Result.Provider -> list Result.Provider)
    (random : nat -> number) (pincode specialty : primitive)
  : promise (list Result.Provider) :=
  Resolved
    (generateNearbyProviders sorted random
       (if truthy specialty then specialty else VString "other") pincode).

End Service.

(* ===================================================================== *)
(** * Reactive-forms controls *)
(* ===================================================================== *)

(** The part of the forms library the component uses.  A validator reads
    the value of its control only, so it is a function of that value; the
    result [None] is [null], and an errors object is the list of its keys. *)
Module Forms.

Definition ValidationErrors : Type := list string.
Definition ValidatorFn : Type := primitive -> option ValidationErrors.

Record FormControl : Type := {
  value : primitive;
  validators : list ValidatorFn;
  touched : bool
}.

(** [control.errors]: the errors of all validators together, [null] when
    none reports. *)
Definition errors (control : FormControl) : option ValidationErrors :=
  match flat_map (fun f => default [] (f (value control))) (validators control) with
  | [] => None
  | es => Some es
  end.

(** [control.valid] *)
Definition valid (control : FormControl) : bool :=
  match errors control with None => true | Some _ => false end.

Definition markAsTouched (control : FormControl) : FormControl :=
  {| value := value control; validators := validators control; touched := true |}.

Definition setValidators (vs : list ValidatorFn) (control : FormControl) : FormControl :=
  {| value := value control; validators := vs; touched := touched control |}.

Definition clearValidators : FormControl -> FormControl := setValidators [].

Definition setControlValue (v : primitive) (control : FormControl) : FormControl :=
  {| value := v; validators := validators control; touched := touched control |}.

Definition resetControl (control : FormControl) : FormControl :=
  {| value := null; validators := validators control; touched := false |}.

(** [Validators] *)
Module Validators.

Definition isEmptyInputValue (v : primitive) : bool :=
  match v with
  | undefined | null => true
  | VString s => bool_decide (s = "")
  | _ => false
  end.

Definition required : ValidatorFn := fun v =>
  if isEmptyInputValue v then Some ["required"] else None.

Definition min (m : number) : ValidatorFn := fun v =>
  if isEmptyInputValue v then None
  else let x := parseFloat v in
       if negb (isNaN x) && ltb x m then Some ["min"] else None.

Definition max (m : number) : ValidatorFn := fun v =>
  if isEmptyInputValue v then None
  else let x := parseFloat v in
       if negb (isNaN x) && ltb m x then Some ["max"] else None.

(** Only a string has a length among the primitive values. *)
Definition minLength (n : nat) : ValidatorFn := fun v =>
  match v with
  | VString s =>
      if isEmptyInputValue v then None
      else if (String.length s <? n)%nat then Some ["minlength"] else None
  | _ => None
  end.

End Validators.

(** A form group is the finite map of its controls by name. *)

(** [form.value] *)
Definition group_value (form : gmap string FormControl) : gmap string primitive :=
  value <$> form.

(** [form.valid] *)
Definition group_valid (form : gmap string FormControl) : bool :=
  forallb (fun kc => valid kc.2) (map_to_list form).

End Forms.

(* ===================================================================== *)
(** * The calculator component *)
(* ===================================================================== *)

(** The state is the form, the result on display, the loading flag, the
    current step and the number of error notifications appended to the
    page.  [formErrors], the animated counters, scrolling and style classes
    do not influence those and are left out; the simulated delay of
    [onSubmit] is not modelled, a submission is one step. *)
Module Component.

Import Forms RegExp.

(** US ZIP code pattern (5 digits or 5+4 format): [/^\d{5}(-\d{4})?$/] *)
Definition usZipPattern : regex :=
  Seq Bol (Seq (Repeat 5 Digit)
          (Seq (Opt (Seq (Char "-") (Repeat 4 Digit))) Eol)).

(** Indian PIN code pattern (6 digits): [/^\d{6}$/] *)
Definition indianPinPattern : regex :=
  Seq Bol (Seq (Repeat 6 Digit) Eol).

(** [zipCodeValidator], on the value of its control. *)
Definition zipCodeValidator : ValidatorFn := fun control_value =>
  if negb (truthy control_value) then None
  else if test usZipPattern (to_string control_value)
          || test indianPinPattern (to_string control_value)
  then None
  else Some ["pattern"].

Definition control (v : primitive) (vs : list ValidatorFn) : FormControl :=
  {| value := v; validators := vs; touched := false |}.

(** [createForm] *)
Definition createForm : gmap string FormControl :=
  list_to_map
    [ (* Step 1: Practice Information *)
      ("address", control (VString "") [Validators.required; Validators.minLength 10]);
      ("pincode", control (VString "") [Validators.required; zipCodeValidator]);
      ("specialty", control (VString "") [Validators.required]);
      (* Step 2: Financial & Volume Data *)
      ("patientVolume", control (VNumber (num 100)) [Validators.required; Validators.min (num 1)]);
      ("volumePeriod", control (VString "monthly") []);
      ("billingAverage", control (VString "") [Validators.required; Validators.min (num 0.01)]);
      ("collectionRate", control (VNumber (num 85))
         [Validators.required; Validators.min (num 1); Validators.max (num 100)]);
      ("paymentTime", control (VNumber (num 30)) [Validators.required; Validators.min (num 1)]);
      ("knowDenialRate", control (VString "") []);
      ("denialRate", control (VNumber (num 8)) []);
      (* Step 3: Processing Model *)
      ("processingType", control (VString "") [Validators.required]);
      (* In-house processing *)
      ("staffWages", control (VString "") []);
      ("wageType", control (VString "monthly") []);
      ("staffCount", control (VString "") []);
      (* Outsource processing *)
      ("outsourcePricing", control (VString "") []);
      ("percentageValue", control (VString "") []);
      ("perClaimValue", control (VString "") []);
      ("monthlyValue", control (VString "") []);
      ("hourlyValue", control (VString "") []) ].

(** [updateProcessingValidators] *)
Definition updateProcessingValidators (processingType : primitive)
    (form : gmap string FormControl) : gmap string FormControl :=
  if strict_eq_string processingType "inhouse" then
    alter (setValidators [Validators.required; Validators.min (num 1)]) "staffCount"
      (alter (setValidators [Validators.required; Validators.min (num 0.01)]) "staffWages" form)
  else
    alter clearValidators "staffCount" (alter clearValidators "staffWages" form).

(** [updateOutsourcePricingValidators] *)
Definition updateOutsourcePricingValidators (pricingType : primitive)
    (form : gmap string FormControl) : gmap string FormControl :=
  let form :=
    foldl (fun form field => alter clearValidators field form) form
      ["percentageValue"; "perClaimValue"; "monthlyValue"; "hourlyValue"] in
  if truthy pricingType then
    alter
      (setValidators
         ([Validators.required; Validators.min (num 0.01)] ++
          if strict_eq_string pricingType "percentage"
          then [Validators.max (num 100)] else []))
      (to_string pricingType +:+ "Value") form
  else form.

(** The validators of [denialRate], which follow [knowDenialRate]. *)
Definition denialRateValidators (knowDenialRate : primitive)
    (form : gmap string FormControl) : gmap string FormControl :=
  if strict_eq_string knowDenialRate "yes" then
    alter
      (setValidators
         [Validators.required; Validators.min (num 0); Validators.max (num 100)])
      "denialRate" form
  else alter clearValidators "denialRate" form.

(** A control of the form takes a value, and the subscriptions of
    [setupFormValidation] run. *)
Definition setValue (name : string) (v : primitive)
    (form : gmap string FormControl) : gmap string FormControl :=
  match form !! name with
  | None => form
  | Some c =>
      let form := <[name := setControlValue v c]> form in
      if bool_decide (name = "processingType") then updateProcessingValidators v form
      else if bool_decide (name = "outsourcePricing") then updateOutsourcePricingValidators v form
      else if bool_decide (name = "knowDenialRate") then denialRateValidators v form
      else form
  end.

(** [form.reset()]: every control back to [null] and untouched. *)
Definition reset (form : gmap string FormControl) : gmap string FormControl :=
  foldr (fun name form => setValue name null form) (resetControl <$> form)
        (map_to_list form).*1.

(** [form.patchValue({...})] *)
Definition patchValue (values : list (string * primitive))
    (form : gmap string FormControl) : gmap string FormControl :=
  foldl (fun form kv => setValue kv.1 kv.2 form) form values.

Record state : Type := {
  calculatorForm : gmap string FormControl;
  calculationResult : option Result.CalculationResult;
  isLoading : bool;
  currentStep : Z;
  errorNotifications : nat
}.

(** The component once constructed. *)
Definition initial : state :=
  {| calculatorForm := createForm;
     calculationResult := None;
     isLoading := false;
     currentStep := 1;
     errorNotifications := 0 |}.

Definition with_form (form : gmap string FormControl) (c : state) : state :=
  {| calculatorForm := form;
     calculationResult := calculationResult c;
     isLoading := isLoading c;
     currentStep := currentStep c;
     errorNotifications := errorNotifications c |}.

Definition with_step (step : Z) (c : state) : state :=
  {| calculatorForm := calculatorForm c;
     calculationResult := calculationResult c;
     isLoading := isLoading c;
     currentStep := step;
     errorNotifications := errorNotifications c |}.

(** [getStepFields] *)
Definition getStepFields (step : Z) : list string :=
  match step with
  | 1%Z => ["address"; "pincode"; "specialty"]
  | 2%Z => ["patientVolume"; "billingAverage"; "collectionRate"; "paymentTime"]
  | 3%Z => ["processingType"]
  | _ => []
  end.

(** [validateCurrentStep]: the verdict and the form with the fields of the
    step marked as touched. *)
Definition validateCurrentStep (c : state) : bool * gmap string FormControl :=
  foldl
    (fun '(isValid, form) fieldName =>
       match form !! fieldName with
       | Some control =>
           (if valid control then isValid else false,
            <[fieldName := markAsTouched control]> form)
       | None => (isValid, form)
       end)
    (true, calculatorForm c)
    (getStepFields (currentStep c)).

(** [nextStep] *)
Definition nextStep (c : state) : state :=
  let '(isValid, form) := validateCurrentStep c in
  if isValid then with_step (currentStep c + 1) (with_form form c)
  else with_form form c.

(** [previousStep] *)
Definition previousStep (c : state) : state :=
  if (1 <? currentStep c)%Z then with_step (currentStep c - 1) c else c.

(** [resetCalculator] *)
Definition resetCalculator (c : state) : state :=
  {| calculatorForm :=
       patchValue [("volumePeriod", VString "monthly"); ("wageType", VString "monthly")]
                  (reset (calculatorForm c));
     calculationResult := None;
     isLoading := isLoading c;
     currentStep := 1;
     errorNotifications := errorNotifications c |}.

(** [markAllFieldsAsTouched] *)
Definition markAllFieldsAsTouched (c : state) : state :=
  with_form (markAsTouched <$> calculatorForm c) c.

(** [handleCalculationError]: one more notification on the page. *)
Definition handleCalculationError (c : state) : state :=
  {| calculatorForm := calculatorForm c;
     calculationResult := calculationResult c;
     isLoading := isLoading c;
     currentStep := currentStep c;
     errorNotifications := S (errorNotifications c) |}.

(** [estimateDenialRate]: estimated denial rates by specialty; like the
    copy of the service, it returns the inherited object for the name of a
    member of [Object.prototype]. *)
Definition denialRates : gmap string number :=
  list_to_map
    [ ("family_medicine", num 7.2);
      ("internal_medicine", num 8.1);
      ("pediatrics", num 6.8);
      ("cardiology", num 9.3);
      ("dermatology", num 5.9);
      ("orthopedics", num 10.2);
      ("dentistry", num 4.5);
      ("ophthalmology", num 6.7);
      ("psychiatry", num 8.9);
      ("other", num 8.0) ].

Definition estimateDenialRate (specialty : primitive) : looked_up number :=
  or_default (lookup_literal denialRates (to_string specialty)) (num 8.0).

(** [formatSpecialty], on the keys that are not names of members of
    [Object.prototype], as in the service. *)
Definition specialtyMap : gmap string string :=
  list_to_map
    [ ("family_medicine", "Family Medicine");
      ("internal_medicine", "Internal Medicine");
      ("pediatrics", "Pediatrics");
      ("cardiology", "Cardiology");
      ("dermatology", "Dermatology");
      ("orthopedics", "Orthopedics");
      ("dentistry", "Dentistry");
      ("ophthalmology", "Ophthalmology");
      ("psychiatry", "Psychiatry");
      ("other", "Other Specialty") ].

Definition formatSpecialty (specialty : primitive) : string :=
  match specialtyMap !! to_string specialty with
  | Some s => if bool_decide (s = "") then "General Practice" else s
  | None => "General Practice"
  end.

(** [generateMockCalculation]: the constants of its body, in the order of
    the source, for a form value [formData]. *)
Section GenerateMockCalculation.

Variable formData : gmap string primitive.

Definition patientVolume : number :=
  or_number (parseInt (get formData "patientVolume")) (num 100).
Definition billingAverage : number :=
  or_number (parseFloat (get formData "billingAverage")) (num 150).
Definition collectionRate : number :=
  or_number (parseFloat (get formData "collectionRate")) (num 85).
Definition paymentTime : number :=
  or_number (parseInt (get formData "paymentTime")) (num 30).
(** [denialRate] is read twice, as an operand of [-] and of [*], which
    both convert it to a number: the constant is the converted value. *)
Definition denialRate : number :=
  if strict_eq_string (get formData "knowDenialRate") "yes"
  then or_number (parseFloat (get formData "denialRate")) (num 8)
  else ToNumber (estimateDenialRate (get formData "specialty")).

Definition monthlyPatients : number :=
  if strict_eq_string (get formData "volumePeriod") "daily"
  then mul patientVolume (num 30)
  else if strict_eq_string (get formData "volumePeriod") "weekly"
  then mul patientVolume (num 4)
  else patientVolume.

Definition monthlyRevenue : number :=
  mul (mul monthlyPatients billingAverage) (div collectionRate (num 100)).
Definition totalMonthlyClaims : number := monthlyPatients.

Definition staffWages : number :=
  or_number (parseFloat (get formData "staffWages")) (num 4000).
Definition staffCount : number :=
  or_number (parseInt (get formData "staffCount")) (num 2).
Definition pricingType : primitive := get formData "outsourcePricing".
Definition pricingValue : number :=
  or_number
    (parseFloat (get formData (to_string pricingType +:+ "Value")))
    (num 0).

Definition monthlyProcessingCost : number :=
  if strict_eq_string (get formData "processingType") "inhouse" then
    if strict_eq_string (get formData "wageType") "hourly"
    then mul (mul staffWages (num 160)) staffCount
    else mul staffWages staffCount
  else if strict_eq_string (get formData "processingType") "outsource" then
    if strict_eq_string pricingType "percentage"
    then mul monthlyRevenue (div pricingValue (num 100))
    else if strict_eq_string pricingType "perClaim"
    then mul totalMonthlyClaims pricingValue
    else if strict_eq_string pricingType "monthly"
    then pricingValue
    else if strict_eq_string pricingType "hourly"
    then mul pricingValue (num 160)
    else num 0
  else num 0.

Definition costPerClaim : number :=
  div monthlyProcessingCost totalMonthlyClaims.
Definition averageClaimPercentage : number :=
  Math_max (num 60) (Math_min (num 98) (sub (num 100) denialRate)).

(** Mock nearby providers. *)
Definition nearbyProviders : list Result.Provider :=
  [ {| Result.name := "Regional Medical Center";
       Result.npiNumber := "1234567890";
       Result.specialty := formatSpecialty (get formData "specialty");
       Result.claimSuccessRatio := num 94.2;
       Result.address := "Downtown Medical District" |};
    {| Result.name := "Community Health Partners";
       Result.npiNumber := "2345678901";
       Result.specialty := formatSpecialty (get formData "specialty");
       Result.claimSuccessRatio := num 91.8;
       Result.address := "Suburban Healthcare Plaza" |};
    {| Result.name := "Advanced Care Clinic";
       Result.npiNumber := "3456789012";
       Result.specialty := formatSpecialty (get formData "specialty");
       Result.claimSuccessRatio := num 89.5;
       Result.address := "Medical Arts Building" |};
    {| Result.name := "Premier Healthcare Group";
       Result.npiNumber := "4567890123";
       Result.specialty := formatSpecialty (get formData "specialty");
       Result.claimSuccessRatio := num 96.1;
       Result.address := "University Medical Campus" |} ].

Definition mockCalculation : Result.CalculationResult :=
  {| Result.userMetrics :=
       {| Result.averageClaimPercentage :=
            div (Math_round (mul averageClaimPercentage (num 10))) (num 10);
          Result.claimDenialRate :=
            div (Math_round (mul denialRate (num 10))) (num 10);
          Result.costPerClaim :=
            div (Math_round (mul costPerClaim (num 100))) (num 100);
          Result.totalMonthlyClaims := Math_round totalMonthlyClaims;
          Result.monthlyRevenue := Math_round monthlyRevenue;
          Result.monthlyProcessingCost := Math_round monthlyProcessingCost |};
     Result.benchmarkMetrics :=
       {| Result.berserkClaimPercentage := num 96.5;
          Result.berserkCostPerClaim := num 12.50;
          Result.industryAverage := num 92.0 |};
     Result.nearbyProviders := nearbyProviders |}.

End GenerateMockCalculation.

(** The body of [generateMockCalculation] on an argument typed [any]: its
    statements in their order, each conversion of a property to a string
    with the exception it can raise.  On a form value nothing throws and
    the result is the record above ([mockCalculation_any_plain]). *)
Definition mockCalculation_any (formData : any)
  : completion Result.CalculationResult :=
  formData ← properties formData;
  patientVolume ← parseInt_value (get_value formData "patientVolume");
  let patientVolume := or_number patientVolume (num 100) in
  billingAverage ← parseFloat_value (get_value formData "billingAverage");
  let billingAverage := or_number billingAverage (num 150) in
  collectionRate ← parseFloat_value (get_value formData "collectionRate");
  let collectionRate := or_number collectionRate (num 85) in
  paymentTime ← parseInt_value (get_value formData "paymentTime");
  let paymentTime := or_number paymentTime (num 30) in
  denialRate ←
    (if strict_eq_string_value (get_value formData "knowDenialRate") "yes"
     then denialRate ← parseFloat_value (get_value formData "denialRate");
          mret (or_number denialRate (num 8))
     else mret (ToNumber (estimateDenialRate
                            (as_key (get_value formData "specialty")))));
  let monthlyPatients :=
    if strict_eq_string_value (get_value formData "volumePeriod") "daily"
    then mul patientVolume (num 30)
    else if strict_eq_string_value (get_value formData "volumePeriod") "weekly"
    then mul patientVolume (num 4)
    else patientVolume in
  let monthlyRevenue :=
    mul (mul monthlyPatients billingAverage) (div collectionRate (num 100)) in
  let totalMonthlyClaims := monthlyPatients in
  monthlyProcessingCost ←
    (if strict_eq_string_value (get_value formData "processingType") "inhouse" then
       staffWages ← parseFloat_value (get_value formData "staffWages");
       let staffWages := or_number staffWages (num 4000) in
       staffCount ← parseInt_value (get_value formData "staffCount");
       let staffCount := or_number staffCount (num 2) in
       mret (if strict_eq_string_value (get_value formData "wageType") "hourly"
             then mul (mul staffWages (num 160)) staffCount
             else mul staffWages staffCount)
     else if strict_eq_string_value (get_value formData "processingType") "outsource"
     then
       let pricingType := get_value formData "outsourcePricing" in
       key ← concat_value pricingType "Value";
       pricingValue ← parseFloat_value (get_value formData key);
       let pricingValue := or_number pricingValue (num 0) in
       mret (if strict_eq_string_value pricingType "percentage"
             then mul monthlyRevenue (div pricingValue (num 100))
             else if strict_eq_string_value pricingType "perClaim"
             then mul totalMonthlyClaims pricingValue
             else if strict_eq_string_value pricingType "monthly"
             then pricingValue
             else if strict_eq_string_value pricingType "hourly"
             then mul pricingValue (num 160)
             else num 0)
     else mret (num 0));
  let costPerClaim := div monthlyProcessingCost totalMonthlyClaims in
  let averageClaimPercentage :=
    Math_max (num 60) (Math_min (num 98) (sub (num 100) denialRate)) in
  let specialty := formatSpecialty (as_key (get_value formData "specialty")) in
  let nearbyProviders :=
    [ {| Result.name := "Regional Medical Center";
         Result.npiNumber := "1234567890";
         Result.specialty := specialty;
         Result.claimSuccessRatio := num 94.2;
         Result.address := "Downtown Medical District" |};
      {| Result.name := "Community Health Partners";
         Result.npiNumber := "2345678901";
         Result.specialty := specialty;
         Result.claimSuccessRatio := num 91.8;
         Result.address := "Suburban Healthcare Plaza" |};
      {| Result.name := "Advanced Care Clinic";
         Result.npiNumber := "3456789012";
         Result.specialty := specialty;
         Result.claimSuccessRatio := num 89.5;
         Result.address := "Medical Arts Building" |};
      {| Result.name := "Premier Healthcare Group";
         Result.npiNumber := "4567890123";
         Result.specialty := specialty;
         Result.claimSuccessRatio := num 96.1;
         Result.address := "University Medical Campus" |} ] in
  mret
    {| Result.userMetrics :=
         {| Result.averageClaimPercentage :=
              div (Math_round (mul averageClaimPercentage (num 10))) (num 10);
            Result.claimDenialRate :=
              div (Math_round (mul denialRate (num 10))) (num 10);
            Result.costPerClaim :=
              div (Math_round (mul costPerClaim (num 100))) (num 100);
            Result.totalMonthlyClaims := Math_round totalMonthlyClaims;
            Result.monthlyRevenue := Math_round monthlyRevenue;
            Result.monthlyProcessingCost := Math_round monthlyProcessingCost |};
       Result.benchmarkMetrics :=
         {| Result.berserkClaimPercentage := num 96.5;
            Result.berserkCostPerClaim := num 12.50;
            Result.industryAverage := num 92.0 |};
       Result.nearbyProviders := nearbyProviders |}.

(** [generateMockCalculation] is [async]: what its body throws rejects the
    promise it returns. *)
Definition generateMockCalculation (formData : any)
  : promise Result.CalculationResult :=
  match mockCalculation_any formData with
  | Return result => Resolved result
  | Throw error => Rejected error
  end.

(** [onSubmit] *)
Definition onSubmit (c : state) : state :=
  if negb (group_valid (calculatorForm c)) then markAllFieldsAsTouched c
  else
    let formData := Object (group_value (calculatorForm c)) in
    match generateMockCalculation formData with
    | Resolved result =>
        {| calculatorForm := calculatorForm c;
           calculationResult := Some result;
           isLoading := false;
           currentStep := currentStep c;
           errorNotifications := errorNotifications c |}
    | Rejected error =>
        let c := handleCalculationError c in
        {| calculatorForm := calculatorForm c;
           calculationResult := calculationResult c;
           isLoading := false;
           currentStep := currentStep c;
           errorNotifications := errorNotifications c |}
    end.

(** What happens to the component: the buttons of the stepper, an edit of
    a field, a submission. *)
Inductive event : Type :=
| NextStep
| PreviousStep
| ResetCalculator
| SetValue (name : string) (v : primitive)
| Submit.

Definition handle (c : state) (e : event) : state :=
  match e with
  | NextStep => nextStep c
  | PreviousStep => previousStep c
  | ResetCalculator => resetCalculator c
  | SetValue name v => with_form (setValue name v (calculatorForm c)) c
  | Submit => onSubmit c
  end.

(** The component after a sequence of events. *)
Definition run (es : list event) : state := foldl handle initial es.

(** [setProcessingType] and [setOutsourcePricing] *)
Definition setProcessingType (type : string) (c : state) : state :=
  with_form (setValue "processingType" (VString type) (calculatorForm c)) c.

Definition setOutsourcePricing (type : string) (c : state) : state :=
  with_form (setValue "outsourcePricing" (VString type) (calculatorForm c)) c.

(** [form.get(name)?.valid], taken as a condition: a control that the form
    does not have counts as not valid. *)
Definition valid_or_false (form : gmap string FormControl) (name : string) : bool :=
  match form !! name with
  | Some control => valid control
  | None => false
  end.

(** [form.get(name)?.value] *)
Definition value_of (form : gmap string FormControl) (name : string) : primitive :=
  match form !! name with
  | Some control => value control
  | None => undefined
  end.

(** [isStep1Valid] *)
Definition isStep1Valid (c : state) : bool :=
  let addressValid := valid_or_false (calculatorForm c) "address" in
  let pincodeValid := valid_or_false (calculatorForm c) "pincode" in
  let specialtyValid := valid_or_false (calculatorForm c) "specialty" in
  addressValid && pincodeValid && specialtyValid.

(** [isStep2Valid] *)
Definition isStep2Valid (c : state) : bool :=
  let requiredFields :=
    ["patientVolume"; "volumePeriod"; "billingAverage"; "collectionRate";
     "paymentTime"; "knowDenialRate"] in
  let baseValid := forallb (valid_or_false (calculatorForm c)) requiredFields in
  if strict_eq_string (value_of (calculatorForm c) "knowDenialRate") "yes"
  then baseValid && valid_or_false (calculatorForm c) "denialRate"
  else baseValid.

(** [isStep3Valid] *)
Definition isStep3Valid (c : state) : bool :=
  let processingTypeValid := valid_or_false (calculatorForm c) "processingType" in
  if strict_eq_string (value_of (calculatorForm c) "processingType") "inhouse" then
    let inhouseValid :=
      valid_or_false (calculatorForm c) "staffWages"
      && valid_or_false (calculatorForm c) "wageType"
      && valid_or_false (calculatorForm c) "staffCount" in
    processingTypeValid && inhouseValid
  else if strict_eq_string (value_of (calculatorForm c) "processingType") "outsource" then
    let outsourcePricingValid := valid_or_false (calculatorForm c) "outsourcePricing" in
    processingTypeValid && outsourcePricingValid
  else processingTypeValid.

(** [validationMessages] *)
Definition validationMessages : gmap string (gmap string string) :=
  list_to_map
    [ ("address",
       list_to_map
         [ ("required", "Practice address is required for accurate analysis");
           ("minlength", "Please provide a complete address") ]);
      ("pincode",
       list_to_map
         [ ("required", "ZIP/PIN code is required for regional benchmarking");
           ("pattern", "Please enter a valid ZIP/PIN code") ]);
      ("specialty",
       list_to_map
         [ ("required", "Medical specialty helps us provide targeted insights") ]);
      ("patientVolume",
       list_to_map
         [ ("required", "Patient volume is essential for accurate calculations");
           ("min", "Patient volume must be greater than 0") ]);
      ("billingAverage",
       list_to_map
         [ ("required", "Average revenue per patient is required");
           ("min", "Revenue must be greater than 0") ]);
      ("collectionRate",
       list_to_map
         [ ("required", "Collection rate is required for analysis");
           ("min", "Collection rate must be greater than 0");
           ("max", "Collection rate cannot exceed 100%") ]);
      ("paymentTime",
       list_to_map
         [ ("required", "Average payment time is required");
           ("min", "Payment time must be greater than 0") ]);
      ("processingType",
       list_to_map
         [ ("required", "Please select your processing model") ]) ].

(** The loop over [control.errors]: the message of the first error key
    that has one. *)
Fixpoint first_message (messages : gmap string string) (errorKeys : list string)
  : option string :=
  match errorKeys with
  | [] => None
  | errorKey :: rest =>
      match messages !! errorKey with
      | Some message =>
          if bool_decide (message = "") then first_message messages rest
          else Some message
      | None => first_message messages rest
      end
  end.

(** [updateFormErrors]: the new [formErrors], for a form whose controls
    and error keys are not named like members of [Object.prototype], as is
    the case of the form of [createForm] with its validators. *)
Definition updateFormErrors (form : gmap string FormControl) : gmap string string :=
  map_imap
    (fun key control =>
       if negb (valid control) && touched control then
         match validationMessages !! key with
         | Some messages => first_message messages (default [] (errors control))
         | None => None
         end
       else None)
    form.

(** [getFieldError], for the current [formErrors]:
    [this.formErrors[fieldName] || null].  [formErrors] is an object
    literal, so the lookup also answers the members of [Object.prototype].
    In the result [Absent] is [null]. *)
Definition getFieldError (formErrors : gmap string string) (fieldName : string)
  : looked_up string :=
  match lookup_literal formErrors fieldName with
  | Own message => if bool_decide (message = "") then Absent else Own message
  | Inherited key => Inherited key
  | Absent => Absent
  end.

(** [isFieldValid] and [isFieldInvalid] *)
Definition isFieldValid (c : state) (fieldName : string) : bool :=
  match calculatorForm c !! fieldName with
  | Some control => valid control && touched control
  | None => false
  end.

Definition isFieldInvalid (c : state) (fieldName : string) : bool :=
  match calculatorForm c !! fieldName with
  | Some control => negb (valid control) && touched control
  | None => false
  end.

(** [getAriaLabel] *)
Definition getAriaLabel (c : state) (fieldName : string) : string :=
  match calculatorForm c !! fieldName with
  | None => ""
  | Some control =>
      if negb (valid control) && touched control then fieldName +:+ " field has errors"
      else if valid control && touched control then fieldName +:+ " field is valid"
      else fieldName +:+ " field"
  end.

(** [getAriaDescribedBy] *)
Definition getAriaDescribedBy (c : state) (fieldName : string) : string :=
  let hasError := isFieldInvalid c fieldName in
  let hasSuccess := isFieldValid c fieldName in
  if hasError then fieldName +:+ "-error"
  else if hasSuccess then fieldName +:+ "-success"
  else "".

(** [getPerformanceClass] and [getPerformanceLabel] *)
Definition getPerformanceClass (percentage : number) : string :=
  if leb (num 90) percentage then "excellent"
  else if leb (num 80) percentage then "good"
  else if leb (num 70) percentage then "average"
  else "needs-improvement".

Definition getPerformanceLabel (percentage : number) : string :=
  if leb (num 90) percentage then "Excellent"
  else if leb (num 80) percentage then "Good"
  else if leb (num 70) percentage then "Average"
  else "Needs Improvement".

(** [onPincodeChange]: whether it goes on to the success feedback on the
    input element. *)
Definition onPincodeChange (c : state) : bool :=
  let pincode := value_of (calculatorForm c) "pincode" in
  truthy pincode && bool_decide (zipCodeValidator pincode = None).

End Component.

(* ===================================================================== *)
(** * What the specification says, and example inputs *)
(* ===================================================================== *)

(** ** The decision table of the specification *)

Module Spec.

(** "Monthly patient count = volume x 30 if period is daily, x 4 if weekly,
    else unchanged." *)
Definition monthly_patient_count (volume : number) (period : primitive) : number :=
  if decide (period = VString "daily") then mul volume (num 30)
  else if decide (period = VString "weekly") then mul volume (num 4)
  else volume.

(** "Monthly revenue = monthly patients x billing average x (collection
    rate / 100)." *)
Definition monthly_revenue (patients billing rate : number) : number :=
  mul (mul patients billing) (div rate (num 100)).

(** "Processing cost: if in-house, staff wage x 160 hours x staff count (if
    hourly) or staff wage x staff count (if monthly); if outsourced, one of
    four pricing formulas selected by a pricing-type flag."  The table says
    nothing outside these rows. *)
Definition processing_cost (processingType wageType pricingType : primitive)
    (wage count revenue claims v : number) : option number :=
  if decide (processingType = VString "inhouse") then
    Some (if decide (wageType = VString "hourly")
          then mul (mul wage (num 160)) count
          else mul wage count)
  else if decide (processingType = VString "outsource") then
    if decide (pricingType = VString "percentage") then Some (mul revenue (div v (num 100)))
    else if decide (pricingType = VString "perClaim") then Some (mul claims v)
    else if decide (pricingType = VString "monthly") then Some v
    else if decide (pricingType = VString "hourly") then Some (mul v (num 160))
    else None
  else None.

(** The quantities of the table are fields of the form value.  The
    specification does not say how a field is read: the code reads the
    patient volume and the staff count with [parseInt] and the other
    quantities with [parseFloat], and a stated amount stands in for a field
    that is empty, not a number, or zero. *)
Definition read_whole (formData : gmap string primitive) (field : string)
    (stand_in : number) : number :=
  or_number (parseInt (get formData field)) stand_in.
Definition read_number (formData : gmap string primitive) (field : string)
    (stand_in : number) : number :=
  or_number (parseFloat (get formData field)) stand_in.

Definition patient_volume (formData : gmap string primitive) : number :=
  read_whole formData "patientVolume" (num 100).
Definition billing_average (formData : gmap string primitive) : number :=
  read_number formData "billingAverage" (num 150).
Definition collection_rate (formData : gmap string primitive) : number :=
  read_number formData "collectionRate" (num 85).
Definition staff_wage (formData : gmap string primitive) : number :=
  read_number formData "staffWages" (num 4000).
Definition staff_count (formData : gmap string primitive) : number :=
  read_whole formData "staffCount" (num 2).

(** The value of the pricing: the field named by the pricing type and
    'Value'. *)
Definition pricing_value (formData : gmap string primitive) : number :=
  read_number formData (to_string (get formData "outsourcePricing") +:+ "Value")
              (num 0).

(** The three rows of the table, for a form value. *)
Definition monthly_patients (formData : gmap string primitive) : number :=
  monthly_patient_count (patient_volume formData) (get formData "volumePeriod").

Definition revenue (formData : gmap string primitive) : number :=
  monthly_revenue (monthly_patients formData) (billing_average formData)
                  (collection_rate formData).

Definition cost (formData : gmap string primitive) : option number :=
  processing_cost
    (get formData "processingType") (get formData "wageType")
    (get formData "outsourcePricing")
    (staff_wage formData) (staff_count formData)
    (revenue formData) (monthly_patients formData) (pricing_value formData).


(** The documented denial rates. *)
Definition denial_rates : list (string * number) :=
  [ ("family_medicine", num 7.2); ("internal_medicine", num 8.1);
    ("pediatrics", num 6.8); ("cardiology", num 9.3);
    ("dermatology", num 5.9); ("orthopedics", num 10.2);
    ("dentistry", num 4.5); ("ophthalmology", num 6.7);
    ("psychiatry", num 8.9); ("other", num 8.0) ].

(** [clamp(x, lo, hi)] *)
Definition clamp (x lo hi : number) : number :=
  if ltb x lo then lo else if ltb hi x then hi else x.

(** Rounding to one and to two decimals, as the result record does. *)
Definition round1 (x : number) : number :=
  div (Math_round (mul x (num 10))) (num 10).
Definition round2 (x : number) : number :=
  div (Math_round (mul x (num 100))) (num 100).

End Spec.

(** ** The ZIP and PIN formats *)

Module ZipSpec.

(** One of the ten digits. *)
Definition digit (c : ascii) : Prop :=
  c ∈ list_ascii_of_string "0123456789".

Fixpoint all_digits (s : string) : Prop :=
  match s with
  | "" => True
  | String c t => digit c /\ all_digits t
  end.

(** A string of exactly [n] digits. *)
Definition digits (n : nat) (s : string) : Prop :=
  String.length s = n /\ all_digits s.

(** The US pattern: 5 digits, or 5 digits, a dash and 4 digits. *)
Definition us_zip (s : string) : Prop :=
  digits 5 s \/ exists a b : string, s = a +:+ "-" +:+ b /\ digits 5 a /\ digits 4 b.

(** The PIN pattern: 6 digits. *)
Definition pin (s : string) : Prop := digits 6 s.

Definition zip_or_pin (s : string) : Prop := us_zip s \/ pin s.

End ZipSpec.

(** ** The stepper *)

Module Stepper.

Import Forms Component.

(** A field of the step is valid: its control, if the form has one, is. *)
Definition field_valid (form : gmap string FormControl) (fieldName : string) : bool :=
  match form !! fieldName with
  | Some control => valid control
  | None => true
  end.

(** Every field of the current step is valid. *)
Definition step_fields_valid (c : state) : bool :=
  forallb (field_valid (calculatorForm c)) (getStepFields (currentStep c)).

(** What the component asks of whoever invokes it for the step to stay
    within the three steps of the form: along the events [es], handled from
    the state [c] on, [nextStep] is only invoked while the step is below 3. *)
Fixpoint nextStep_guarded_from (c : state) (es : list event) : bool :=
  match es with
  | [] => true
  | e :: es' =>
      match e with
      | NextStep => (currentStep c <? 3)%Z
      | _ => true
      end && nextStep_guarded_from (handle c e) es'
  end.

Definition nextStep_guarded (es : list event) : bool := nextStep_guarded_from initial es.

End Stepper.

(** ** Example inputs *)

(** A form value for the examples: a monthly volume of 100 patients billed
    150 on average and collected at 85%, processed in house by two
    employees paid 4000 a month. *)
Definition inhouse_example : gmap string primitive :=
  list_to_map
    [ ("specialty", VString "cardiology");
      ("patientVolume", VNumber (num 100));
      ("volumePeriod", VString "monthly");
      ("billingAverage", VNumber (num 150));
      ("collectionRate", VNumber (num 85));
      ("paymentTime", VNumber (num 30));
      ("knowDenialRate", VString "");
      ("denialRate", VNumber (num 8));
      ("processingType", VString "inhouse");
      ("staffWages", VNumber (num 4000));
      ("wageType", VString "monthly");
      ("staffCount", VNumber (num 2)) ].

(** The same practice with the processing outsourced at 5 per claim. *)
Definition outsource_example : gmap string primitive :=
  <["processingType" := VString "outsource"]>
    (<["outsourcePricing" := VString "perClaim"]>
       (<["perClaimValue" := VNumber (num 5)]> inhouse_example)).

(** A practice that counts 20 patients a day, and one that counts 7 a
    week. *)
Definition daily_example : gmap string primitive :=
  <["patientVolume" := VString "20"]>
    (<["volumePeriod" := VString "daily"]>
       (<["billingAverage" := VNumber (num 200)]>
          (<["collectionRate" := VNumber (num 90)]> inhouse_example))).




(** No shuffling, and every draw of [Math.random()] is one half. *)
Definition no_shuffle : list Result.Provider -> list Result.Provider := id.
Definition one_half : nat -> number := fun _ => num 0.5.

(** The example practice, whose user knows the denial rate to be zero. *)
Definition zero_denial_rate : gmap string primitive :=
  <["knowDenialRate" := VString "yes"]>
    (<["denialRate" := VNumber (num 0)]> inhouse_example).

(** Three steps forward with every field valid, from the initial state. *)
Definition past_the_last_step : list Component.event :=
  [ Component.SetValue "address" (VString "12 Main Street, Springfield");
    Component.SetValue "pincode" (VString "12345");
    Component.SetValue "specialty" (VString "cardiology");
    Component.NextStep;
    Component.SetValue "billingAverage" (VNumber (num 150));
    Component.NextStep;
    Component.SetValue "processingType" (VString "inhouse");
    Component.NextStep ].

(** The same session with the last step taken back instead. *)
Definition back_and_forth : list Component.event :=
  [ Component.SetValue "address" (VString "12 Main Street, Springfield");
    Component.SetValue "pincode" (VString "12345");
    Component.SetValue "specialty" (VString "cardiology");
    Component.NextStep;
    Component.SetValue "billingAverage" (VNumber (num 150));
    Component.NextStep;
    Component.PreviousStep ].

(** ** Tables read off the source, for the further properties *)

Module Tables.

(** The providers of [generateNearbyProviders], by identifier, each with
    the success ratio it starts from. *)
Definition base_ratio : list (string * number) :=
  [ ("1234567890", num 94.2); ("2345678901", num 91.8);
    ("3456789012", num 89.5); ("4567890123", num 96.1);
    ("5678901234", num 88.7) ].

(** The fields of the three steps, which are the fields that have
    validation messages. *)
Definition step_fields : list string :=
  [ "address"; "pincode"; "specialty"; "patientVolume"; "billingAverage";
    "collectionRate"; "paymentTime"; "processingType" ].

(** The controls whose validators no subscription of
    [setupFormValidation] replaces. *)
Definition static_fields : list string :=
  step_fields ++ [ "volumePeriod"; "knowDenialRate"; "wageType"; "outsourcePricing" ].

(** The controls that hold the price under each pricing type. *)
Definition pricing_values : list string :=
  [ "percentageValue"; "perClaimValue"; "monthlyValue"; "hourlyValue" ].

(** The nineteen controls of [createForm]. *)
Definition controls : list string :=
  [ "address"; "pincode"; "specialty"; "patientVolume"; "volumePeriod";
    "billingAverage"; "collectionRate"; "paymentTime"; "knowDenialRate";
    "denialRate"; "processingType"; "staffWages"; "wageType"; "staffCount";
    "outsourcePricing"; "percentageValue"; "perClaimValue"; "monthlyValue";
    "hourlyValue" ].

End Tables.

(** ** The conditional validators, for the further properties *)

Module Assigned.

Import Forms Component.

(** The validators that [updateProcessingValidators], called with [v],
    gives to the control [k]; [None] when it leaves that control alone. *)
Definition by_processingType (v : primitive) (k : string)
  : option (list ValidatorFn) :=
  if bool_decide (k = "staffCount") then
    Some (if strict_eq_string v "inhouse"
          then [Validators.required; Validators.min (num 1)] else [])
  else if bool_decide (k = "staffWages") then
    Some (if strict_eq_string v "inhouse"
          then [Validators.required; Validators.min (num 0.01)] else [])
  else None.

(** Likewise for [updateOutsourcePricingValidators]. *)
Definition by_outsourcePricing (v : primitive) (k : string)
  : option (list ValidatorFn) :=
  if truthy v && bool_decide (to_string v +:+ "Value" = k) then
    Some (app [Validators.required; Validators.min (num 0.01)]
              (if strict_eq_string v "percentage"
               then [Validators.max (num 100)] else []))
  else if bool_decide
            (k ∈ ["hourlyValue"; "monthlyValue"; "perClaimValue"; "percentageValue"])
  then Some []
  else None.

(** Likewise for the subscription to [knowDenialRate]. *)
Definition by_knowDenialRate (v : primitive) (k : string)
  : option (list ValidatorFn) :=
  if bool_decide (k = "denialRate") then
    Some (if strict_eq_string v "yes"
          then [Validators.required; Validators.min (num 0); Validators.max (num 100)]
          else [])
  else None.

(** The validators that the control [k] gets when the control [name]
    takes the value [v]. *)
Definition assigned (name : string) (v : primitive) (k : string)
  : option (list ValidatorFn) :=
  if bool_decide (name = "processingType") then by_processingType v k
  else if bool_decide (name = "outsourcePricing") then by_outsourcePricing v k
  else if bool_decide (name = "knowDenialRate") then by_knowDenialRate v k
  else None.

(** The validators of a control, if there is one, after an assignment. *)
Definition assign (o : option (list ValidatorFn)) (x : option FormControl)
  : option (list ValidatorFn) :=
  match o with
  | Some vs => (fun _ => vs) <$> x
  | None => validators <$> x
  end.

(** The control [name] and the validators that depend on it agree: every
    control has the validators that the present value of [name] assigns
    to it. *)
Definition in_step (name : string) (form : gmap string FormControl) : Prop :=
  forall k vs,
    assigned name (value_of form name) k = Some vs ->
    validators <$> (form !! k) = (fun _ => vs) <$> (form !! k).

End Assigned.

(** A session that fills in every step for an in-house practice. *)
Definition filled_in : list Component.event :=
  [ Component.SetValue "address" (VString "12 Main Street, Springfield");
    Component.SetValue "pincode" (VString "12345");
    Component.SetValue "specialty" (VString "cardiology");
    Component.NextStep;
    Component.SetValue "billingAverage" (VNumber (num 150));
    Component.NextStep;
    Component.SetValue "processingType" (VString "inhouse");
    Component.SetValue "staffWages" (VNumber (num 4000));
    Component.SetValue "staffCount" (VNumber (num 2)) ].

(* ===================================================================== *)
(** * Properties *)
(* ===================================================================== *)

(** Closed equations between numbers are decided by evaluation. *)
Ltac evaluate := apply (bool_decide_unpack _); vm_compute; exact I.

(** Order facts on the rationals under the numbers are proved on [Q]. *)
Ltac to_Q :=
  unfold Qcle, Qclt, Qcdiv, Qcinv in *;
  cbn [this Q2Qc Qc_of_Z Qcplus Qcmult Qcopp] in *;
  rewrite ?Qred_correct in *.

(** ** Facts about the built-ins *)

Lemma strict_eq_string_decide (v : primitive) (s : string) :
  strict_eq_string v s = bool_decide (v = VString s).
Proof.
  destruct v; unfold strict_eq_string;
    try (symmetry; apply bool_decide_eq_false_2; discriminate).
  apply bool_decide_ext. split; congruence.
Qed.

Lemma truthy_number_not_NaN (x : number) : truthy_number x = true -> x <> NaN.
Proof. destruct x; simpl; congruence. Qed.

Lemma or_number_not_NaN (x d : number) : d <> NaN -> or_number x d <> NaN.
Proof.
  unfold or_number. destruct (truthy_number x) eqn:E; auto.
  intros _. now apply truthy_number_not_NaN.
Qed.

(** ** C1 *)



(** How the patient volume is read: a field that is empty, not a number or
    zero counts as 100 patients, and a fraction is cut off. *)
Example patientVolume_defaults :
  Service.patientVolume (<["patientVolume" := VString ""]> inhouse_example) = num 100
  /\ Service.patientVolume (<["patientVolume" := VNumber (num 0)]> inhouse_example) = num 100
  /\ Service.patientVolume (<["patientVolume" := VString "250"]> inhouse_example) = num 250
  /\ Service.patientVolume (<["patientVolume" := VNumber (num 12.9)]> inhouse_example) = num 12.
Proof. repeat split; evaluate. Qed.

(** ** C2 *)

Lemma monthlyProcessingCost_table (formData : gmap string primitive) :
  Service.monthlyProcessingCost formData = default (num 0) (Spec.cost formData).
Proof.
  assert (Service.monthlyPatients formData = Spec.monthly_patients formData)
    as Hpatients.
  { unfold Service.monthlyPatients, Spec.monthly_patients,
      Spec.monthly_patient_count.
    rewrite !strict_eq_string_decide. unfold bool_decide.
    repeat (case_decide; try contradiction; try reflexivity). }
  assert (Service.monthlyRevenue formData = Spec.revenue formData) as Hrevenue.
  { unfold Service.monthlyRevenue, Spec.revenue. by rewrite Hpatients. }
  unfold Service.monthlyProcessingCost, Service.totalMonthlyClaims.
  rewrite Hpatients, Hrevenue.
  unfold Spec.cost, Spec.processing_cost, Service.pricingType.
  change (Service.staffWages formData) with (Spec.staff_wage formData).
  change (Service.staffCount formData) with (Spec.staff_count formData).
  change (Service.pricingValue formData) with (Spec.pricing_value formData).
  rewrite !strict_eq_string_decide. unfold bool_decide.
  repeat (case_decide; try contradiction; try reflexivity).
Qed.



(** Outside the rows of the table the cost stays at its initial 0. *)
Lemma processing_cost_outside_table (formData : gmap string primitive) :
  Spec.cost formData = None -> Service.monthlyProcessingCost formData = num 0.
Proof. intros H. by rewrite monthlyProcessingCost_table, H. Qed.

(** ** C3 *)

Lemma estimateDenialRate_copies (specialty : primitive) :
  Component.estimateDenialRate specialty = Service.estimateDenialRate specialty.
Proof. reflexivity. Qed.

(** The lookup, case by case. *)
Lemma estimateDenialRate_cases (key : string) :
  Service.estimateDenialRate (VString key)
  = match Service.denialRates !! key with
    | Some rate => Own (or_number rate (num 8.0))
    | None => if bool_decide (key ∈ Object_prototype)
              then Inherited key else Own (num 8.0)
    end.
Proof.
  unfold Service.estimateDenialRate, lookup_literal. cbn [to_string].
  destruct (Service.denialRates !! key); [reflexivity |].
  by case_bool_decide.
Qed.

(** C3. For each of the ten documented specialty keys the denial-rate
    lookup, in the service and in the component, returns the documented
    constant, and for every other key that is not the name of a member of
    [Object.prototype] it returns 8.0.  For such a name, 'constructor' for
    one, it does not return 8.0 nor any number: it returns the inherited
    object, and the result then reports NaN as the denial rate. *)
Theorem denial_rate_lookup :
  (forall (key : string) (rate : number),
     (key, rate) ∈ Spec.denial_rates ->
     Service.estimateDenialRate (VString key) = Own rate
     /\ Component.estimateDenialRate (VString key) = Own rate)
  /\ (forall key : string,
        key ∉ Spec.denial_rates.*1 ->
        key ∉ Object_prototype ->
        Service.estimateDenialRate (VString key) = Own (num 8.0)
        /\ Component.estimateDenialRate (VString key) = Own (num 8.0))
  /\ (forall key : string,
        key ∈ Object_prototype ->
        Service.estimateDenialRate (VString key) = Inherited key
        /\ Component.estimateDenialRate (VString key) = Inherited key)
  /\ Service.estimateDenialRate (VString "constructor") <> Own (num 8.0)
  /\ (forall (sorted : list Result.Provider -> list Result.Provider)
             (random : nat -> number),
        Result.claimDenialRate
          (Result.userMetrics
             (Service.generateMockCalculation sorted random
                (<["specialty" := VString "constructor"]> inhouse_example)))
        = NaN).
Proof.
  split; [| split; [| split; [| split]]].
  - assert (Forall (fun kr : string * number =>
                      Service.estimateDenialRate (VString kr.1) = Own kr.2
                      /\ Component.estimateDenialRate (VString kr.1) = Own kr.2)
                   Spec.denial_rates) as Hall
      by (repeat constructor; evaluate).
    intros key rate Hin.
    exact (proj1 (Forall_forall _ _) Hall (key, rate) Hin).
  - intros key Hout Hown.
    assert (Service.estimateDenialRate (VString key) = Own (num 8.0)) as Hkey.
    { rewrite estimateDenialRate_cases. unfold Service.denialRates.
      rewrite (not_elem_of_list_to_map_1 (M := gmap string)
                 Spec.denial_rates key Hout).
      by rewrite bool_decide_eq_false_2. }
    split; [exact Hkey | exact Hkey].
  - intros key Hin.
    assert (Service.estimateDenialRate (VString key) = Inherited key) as Hkey.
    { rewrite estimateDenialRate_cases.
      assert (Forall (fun k => Service.denialRates !! k = None) Object_prototype)
        as Hnone by (repeat constructor).
      rewrite (proj1 (Forall_forall _ _) Hnone key Hin).
      by rewrite bool_decide_eq_true_2. }
    split; [exact Hkey | exact Hkey].
  - discriminate.
  - intros sorted random. evaluate.
Qed.

Lemma denial_rate_lookup_witness :
  (Service.estimateDenialRate (VString "orthopedics") = Own (num 10.2)
   /\ Component.estimateDenialRate (VString "orthopedics") = Own (num 10.2))
  /\ (Service.estimateDenialRate (VString "radiology") = Own (num 8.0)
      /\ Component.estimateDenialRate (VString "radiology") = Own (num 8.0))
  /\ (Service.estimateDenialRate (VString "toString") = Inherited "toString"
      /\ Component.estimateDenialRate (VString "toString") = Inherited "toString").
Proof.
  split; [| split].
  - apply (proj1 denial_rate_lookup "orthopedics" (num 10.2)). evaluate.
  - apply (proj1 (proj2 denial_rate_lookup) "radiology"); evaluate.
  - apply (proj1 (proj2 (proj2 denial_rate_lookup)) "toString"). evaluate.
Defined.

(** ** C4 *)

(** With the flag at 'yes' a denial rate that parses to a number other than
    zero is the one the calculation uses. *)
Lemma known_denial_rate_used (formData : gmap string primitive) :
  get formData "knowDenialRate" = VString "yes" ->
  truthy_number (parseFloat (get formData "denialRate")) = true ->
  Service.denialRate formData = parseFloat (get formData "denialRate").
Proof.
  intros Hk Ht. unfold Service.denialRate, or_number. rewrite Hk, Ht. reflexivity.
Qed.

(** A denial rate that does not parse, or parses to zero, is replaced by 8. *)
Lemma known_denial_rate_replaced (formData : gmap string primitive) :
  get formData "knowDenialRate" = VString "yes" ->
  truthy_number (parseFloat (get formData "denialRate")) = false ->
  Service.denialRate formData = num 8.
Proof.
  intros Hk Ht. unfold Service.denialRate, or_number. rewrite Hk, Ht. reflexivity.
Qed.

(** C4 fails for a known denial rate of zero.  The validators that the
    component installs on [denialRate] when the flag is 'yes' accept the
    value 0, yet with the flag at 'yes' and a denialRate of 0 the
    calculation of the service and of the component uses 8 and reports a
    claimDenialRate of 8, not the 0 the user supplied. *)
Theorem known_denial_rate_of_zero_is_replaced :
  Forms.valid <$>
    (Component.setValue "denialRate" (VNumber (num 0))
       (Component.setValue "knowDenialRate" (VString "yes") Component.createForm)
     !! "denialRate") = Some true
  /\ get zero_denial_rate "knowDenialRate" = VString "yes"
  /\ get zero_denial_rate "denialRate" = VNumber (num 0)
  /\ Service.denialRate zero_denial_rate = num 8
  /\ Result.claimDenialRate
       (Result.userMetrics
          (Service.generateMockCalculation no_shuffle one_half zero_denial_rate))
     = num 8
  /\ Component.denialRate zero_denial_rate = num 8
  /\ Result.claimDenialRate
       (Result.userMetrics (Component.mockCalculation zero_denial_rate))
     = num 8
  /\ num 8 <> num 0.
Proof.
  repeat split; evaluate.
Qed.

(** ** C5 *)

Lemma div_finite (a b : Qc) :
  b <> 0%Qc -> div (Finite a) (Finite b) = Finite (a / b)%Qc.
Proof. intros Hb. unfold div. by rewrite decide_False. Qed.

Lemma round1_finite (q : Qc) :
  Spec.round1 (Finite q) =
  Finite (Qc_of_Z (Qfloor (q * Q2Qc 10 + Q2Qc (1 # 2))%Qc) / Q2Qc 10)%Qc.
Proof.
  unfold Spec.round1. cbn [mul num Math_round]. unfold of_Z, num.
  by rewrite div_finite.
Qed.

Lemma floor_tenths_bounds (q : Qc) :
  (Q2Qc 60 <= q)%Qc -> (q <= Q2Qc 98)%Qc ->
  (600 <= Qfloor (q * Q2Qc 10 + Q2Qc (1 # 2))%Qc <= 980)%Z.
Proof.
  intros Hlo Hhi. to_Q. split.
  - change 600%Z with (Qfloor (600 # 1)). apply Qfloor_resp_le. to_Q. lra.
  - change 980%Z with (Qfloor (1961 # 2)). apply Qfloor_resp_le. to_Q. lra.
Qed.

Lemma tenths_bounds (z : Z) :
  (600 <= z <= 980)%Z ->
  (Q2Qc 60 <= Qc_of_Z z / Q2Qc 10)%Qc /\ (Qc_of_Z z / Q2Qc 10 <= Q2Qc 98)%Qc.
Proof.
  intros [Hlo Hhi]. to_Q. rewrite Zle_Qle in Hlo, Hhi.
  change (inject_Z 600) with (600 # 1) in Hlo.
  change (inject_Z 980) with (980 # 1) in Hhi.
  change (/ 10)%Q with (1 # 10)%Q.
  generalize dependent (inject_Z z). intros x Hlo Hhi. split; lra.
Qed.

(** Rounding to one decimal keeps a number within [60, 98]. *)
Lemma round1_bounds (x : number) :
  le (num 60) x -> le x (num 98) ->
  le (num 60) (Spec.round1 x) /\ le (Spec.round1 x) (num 98).
Proof.
  destruct x as [| | |q]; cbn [le num]; try contradiction.
  intros Hlo Hhi. rewrite round1_finite. cbn [le].
  apply tenths_bounds, floor_tenths_bounds; assumption.
Qed.

(** [Math.max(60, Math.min(98, x))] is the clamp of [x] to [60, 98]. *)
Lemma max_min_is_clamp (x : number) :
  Math_max (num 60) (Math_min (num 98) x) = Spec.clamp x (num 60) (num 98).
Proof.
  destruct x as [| | |q]; try evaluate.
  unfold Spec.clamp, Math_min, Math_max, num, ltb, leb.
  repeat case_bool_decide; try reflexivity; cbn [leb];
    repeat case_bool_decide; try reflexivity.
  all: try (exfalso; to_Q; lra).
  all: try (f_equal; apply Qc_is_canon; to_Q; lra).
Qed.

Lemma clamp_bounds (x : number) :
  x <> NaN ->
  le (num 60) (Spec.clamp x (num 60) (num 98))
  /\ le (Spec.clamp x (num 60) (num 98)) (num 98).
Proof.
  destruct x as [| | |q]; [congruence | intros _ .. ].
  1, 2: split; evaluate.
  unfold Spec.clamp, num, ltb.
  repeat case_bool_decide; cbn [le]; split; to_Q; lra.
Qed.

Lemma sub_not_NaN (q : Qc) (x : number) : x <> NaN -> sub (Finite q) x <> NaN.
Proof. destruct x; simpl; congruence. Qed.

(** The denial rate of the calculation is NaN in one case only: the rate
    is estimated and the specialty is the name of a member of
    [Object.prototype]. *)
Lemma denialRate_NaN (formData : gmap string primitive) :
  Service.denialRate formData = NaN
  <-> strict_eq_string (get formData "knowDenialRate") "yes" = false
      /\ to_string (get formData "specialty") ∈ Object_prototype.
Proof.
  unfold Service.denialRate, Service.estimateDenialRate, lookup_literal.
  destruct (strict_eq_string _ _).
  - split; [| intros [[=] _]].
    intros H. by apply or_number_not_NaN in H.
  - destruct (Service.denialRates !! _) as [rate |] eqn:Hrate; cbn [or_default ToNumber].
    + split; [intros H; by apply or_number_not_NaN in H |].
      intros [_ Hin]. exfalso.
      assert (Forall (fun k => Service.denialRates !! k = None) Object_prototype)
        as Hnone by (repeat constructor).
      rewrite (proj1 (Forall_forall _ _) Hnone _ Hin) in Hrate. discriminate.
    + case_bool_decide; cbn [or_default ToNumber]; split; auto.
      * discriminate.
      * intros [_ ?]. contradiction.
Qed.

(** C5. For every form value the average claim percentage of the result is
    clamp(100 - denial rate, 60, 98) rounded to one decimal.  It lies within
    [60, 98] unless the denial rate is estimated for a specialty that is the
    name of a member of [Object.prototype] ('constructor' for one): the
    lookup then returns the inherited object, the denial rate is NaN, and
    the result of the service and that of the component report NaN as the
    percentage.  A known denial rate of 12.34 gives 87.7, one of 50 gives
    60 and one of 1 gives 98. *)
Theorem claim_percentage_clamped
    (sorted : list Result.Provider -> list Result.Provider)
    (random : nat -> number) (formData : gmap string primitive) :
  let percentage :=
    Result.averageClaimPercentage
      (Result.userMetrics (Service.generateMockCalculation sorted random formData)) in
  let inherited :=
    strict_eq_string (get formData "knowDenialRate") "yes" = false
    /\ to_string (get formData "specialty") ∈ Object_prototype in
  percentage =
    Spec.round1
      (Spec.clamp (sub (num 100) (Service.denialRate formData)) (num 60) (num 98))
  /\ (~ inherited -> le (num 60) percentage /\ le percentage (num 98))
  /\ (inherited -> percentage = NaN)
  /\ (get formData "knowDenialRate" = VString "yes" ->
      (get formData "denialRate" = VString "12.34" -> percentage = num 87.7)
      /\ (get formData "denialRate" = VNumber (num 50) -> percentage = num 60)
      /\ (get formData "denialRate" = VNumber (num 1) -> percentage = num 98))
  /\ Result.averageClaimPercentage
       (Result.userMetrics
          (Service.generateMockCalculation sorted random
             (<["specialty" := VString "constructor"]> inhouse_example)))
     = NaN
  /\ Result.averageClaimPercentage
       (Result.userMetrics
          (Component.mockCalculation
             (<["specialty" := VString "constructor"]> inhouse_example)))
     = NaN.
Proof.
  cbv zeta. unfold Service.generateMockCalculation.
  cbn [Result.averageClaimPercentage Result.userMetrics].
  unfold Service.averageClaimPercentage. rewrite max_min_is_clamp.
  split; [reflexivity |]. split; [| split; [| split; [| split]]].
  - intros Hown. apply round1_bounds; apply clamp_bounds, sub_not_NaN;
      intros HNaN; by apply Hown, denialRate_NaN.
  - intros Hinherited. apply denialRate_NaN in Hinherited.
    by rewrite Hinherited.
  - intros Hflag. unfold Service.denialRate. rewrite Hflag.
    change (strict_eq_string (VString "yes") "yes") with true. cbv iota.
    repeat apply conj; intros ->; evaluate.
  - evaluate.
  - evaluate.
Qed.

Lemma claim_percentage_clamped_witness :
  Result.averageClaimPercentage
    (Result.userMetrics
       (Service.generateMockCalculation no_shuffle one_half
          (<["denialRate" := VString "12.34"]> zero_denial_rate)))
  = num 87.7.
Proof.
  apply (claim_percentage_clamped no_shuffle one_half
           (<["denialRate" := VString "12.34"]> zero_denial_rate));
    evaluate.
Defined.

(** ** C6 *)

Lemma parseInt_string_cases (s : string) :
  parseInt_string s = NaN \/ exists z : Z, parseInt_string s = of_Z z.
Proof.
  unfold parseInt_string.
  destruct (read_sign (trim_start s)) as [negative s1].
  destruct (strip_prefix s1) as [radix s2].
  destruct (read_digits radix s2 0 0) as [[v n] rest].
  destruct n; eauto.
Qed.

(** The patient volume is a whole number other than zero: [|| 100] replaces
    both NaN and 0. *)
Lemma patientVolume_nonzero (formData : gmap string primitive) :
  exists q : Qc, Service.patientVolume formData = Finite q /\ q <> 0%Qc.
Proof.
  unfold Service.patientVolume, or_number, parseInt.
  destruct (parseInt_string_cases (to_string (get formData "patientVolume")))
    as [-> | [z ->]].
  - exists (Q2Qc 100). split; [reflexivity | evaluate].
  - unfold of_Z. cbn [truthy_number]. case_bool_decide as Hz; cbn [negb].
    + exists (Q2Qc 100). split; [reflexivity | evaluate].
    + exists (Qc_of_Z z). split; [reflexivity | assumption].
Qed.

Lemma mul_finite_nonzero (q k : Qc) :
  q <> 0%Qc -> k <> 0%Qc ->
  exists r : Qc, mul (Finite q) (Finite k) = Finite r /\ r <> 0%Qc.
Proof.
  intros Hq Hk. exists (q * k)%Qc. split; [reflexivity |].
  intros H. apply Qcmult_integral in H. tauto.
Qed.

(** So the claim count is never zero, whatever the form holds. *)
Lemma totalMonthlyClaims_nonzero (formData : gmap string primitive) :
  exists q : Qc, Service.totalMonthlyClaims formData = Finite q /\ q <> 0%Qc.
Proof.
  unfold Service.totalMonthlyClaims, Service.monthlyPatients.
  destruct (patientVolume_nonzero formData) as (q & -> & Hq).
  repeat destruct (strict_eq_string _ _).
  1, 2: apply mul_finite_nonzero; [assumption | evaluate].
  eauto.
Qed.

Lemma div_by_zero_not_finite (x : number) : is_finite (div x (num 0)) = false.
Proof.
  destruct x as [| | |q]; try reflexivity.
  unfold div, num. rewrite decide_True by evaluate.
  cbn [sign]. destruct (q ?= 0)%Qc; reflexivity.
Qed.

(** C6. For every form value with a positive monthly claim count the
    costPerClaim of the result is the monthly processing cost divided by
    the monthly claim count, rounded to two decimals.  The division has no
    guard: the cost per claim is that quotient whatever the count, and a
    quotient by a zero count is NaN or an infinity. *)
Theorem cost_per_claim_division
    (sorted : list Result.Provider -> list Result.Provider)
    (random : nat -> number) (formData : gmap string primitive) :
  (lt (num 0) (Service.totalMonthlyClaims formData) ->
   Result.costPerClaim
     (Result.userMetrics (Service.generateMockCalculation sorted random formData))
   = Spec.round2 (div (Service.monthlyProcessingCost formData)
                      (Service.totalMonthlyClaims formData)))
  /\ Service.costPerClaim formData =
       div (Service.monthlyProcessingCost formData)
           (Service.totalMonthlyClaims formData)
  /\ (forall cost : number, is_finite (div cost (num 0)) = false).
Proof.
  split; [intros _; reflexivity | split; [reflexivity |]].
  apply div_by_zero_not_finite.
Qed.

Lemma cost_per_claim_division_witness :
  Result.costPerClaim
    (Result.userMetrics
       (Service.generateMockCalculation no_shuffle one_half inhouse_example))
  = Spec.round2 (div (Service.monthlyProcessingCost inhouse_example)
                     (Service.totalMonthlyClaims inhouse_example)).
Proof.
  refine (proj1 (cost_per_claim_division no_shuffle one_half inhouse_example) _).
  evaluate.
Defined.

(** ** The bodies on a form value *)

Lemma get_value_plain (o : gmap string primitive) (k : string) :
  get_value (Plain <$> o) k = Plain (get o k).
Proof. unfold get_value, get. rewrite lookup_fmap. by destruct (o !! k). Qed.

Ltac run_body :=
  cbn [properties mbind completion_bind mret completion_ret];
  rewrite ?get_value_plain;
  unfold parseInt_value, parseFloat_value, concat_value, converting,
    strict_eq_string_value, as_key;
  cbn [mbind completion_bind mret completion_ret].


Lemma mockCalculation_any_plain (formData : gmap string primitive) :
  Component.mockCalculation_any (Object formData)
  = Return (Component.mockCalculation formData).
Proof.
  unfold Component.mockCalculation_any, Component.mockCalculation,
    Component.averageClaimPercentage, Component.costPerClaim,
    Component.monthlyProcessingCost, Component.totalMonthlyClaims,
    Component.monthlyRevenue, Component.monthlyPatients, Component.denialRate,
    Component.patientVolume, Component.billingAverage, Component.collectionRate,
    Component.staffWages, Component.staffCount, Component.pricingValue,
    Component.pricingType, Component.nearbyProviders.
  run_body.
  destruct (strict_eq_string (get formData "knowDenialRate") "yes"); run_body;
    (destruct (strict_eq_string (get formData "processingType") "inhouse");
     [| destruct (strict_eq_string (get formData "processingType") "outsource")]);
    run_body; reflexivity.
Qed.

Lemma generateMockCalculation_resolves (formData : gmap string primitive) :
  Component.generateMockCalculation (Object formData)
  = Resolved (Component.mockCalculation formData).
Proof.
  unfold Component.generateMockCalculation. by rewrite mockCalculation_any_plain.
Qed.

(** ** C7 *)

(** C7. The calculation helper of the service and its duplicate in the
    component compute the same user metrics for every form value. *)
Theorem duplicated_helpers_agree
    (sorted : list Result.Provider -> list Result.Provider)
    (random : nat -> number) (formData : gmap string primitive) :
  Result.userMetrics (Service.generateMockCalculation sorted random formData)
  = Result.userMetrics (Component.mockCalculation formData)
  /\ exists result : Result.CalculationResult,
       Component.generateMockCalculation (Object formData) = Resolved result
       /\ Result.userMetrics result
          = Result.userMetrics
              (Service.generateMockCalculation sorted random formData).
Proof.
  split; [reflexivity |].
  exists (Component.mockCalculation formData).
  split; [apply generateMockCalculation_resolves | reflexivity].
Qed.

(** ** C8 *)

(** An argument that is not a record makes the body throw, and
    [calculateMetrics] then rejects with its own error. *)
Lemma calculateMetrics_of_null
    (sorted : list Result.Provider -> list Result.Provider)
    (random : nat -> number) :
  Service.calculateMetrics sorted random (Prim null)
  = Rejected "Failed to calculate metrics".
Proof. reflexivity. Qed.





(** ** C9 *)

Lemma is_digit_decide (c : ascii) :
  RegExp.is_digit c = bool_decide (ZipSpec.digit c).
Proof. destruct c as [[] [] [] [] [] [] [] []]; vm_compute; reflexivity. Qed.

Lemma is_digit_spec (c : ascii) : RegExp.is_digit c = true <-> ZipSpec.digit c.
Proof. rewrite is_digit_decide. apply bool_decide_eq_true. Qed.

Lemma append_empty_r (s : string) : s +:+ "" = s.
Proof.
  induction s as [|c s IH]; [reflexivity |].
  change (String c (s +:+ "") = String c s). by rewrite IH.
Qed.

Section Matching.

Import RegExp.

(** [\d{n}] reads exactly [n] digits. *)
Lemma matches_repeat_digit (n pos : nat) (s : string) (k : nat -> string -> bool) :
  matches (Repeat n Digit) pos s k = true <->
  exists d t : string,
    s = d +:+ t /\ ZipSpec.digits n d /\ k (pos + n)%nat t = true.
Proof.
  revert pos s. induction n as [|n IH]; intros pos s.
  - cbn. rewrite Nat.add_0_r. split.
    + intros H. exists "", s. repeat split; done.
    + intros (d & t & -> & [Hl _] & Hk). destruct d; [done | discriminate].
  - destruct s as [|c s].
    + cbn. split; [discriminate |].
      intros (d & t & Hs & [Hl _] & _). destruct d; discriminate.
    + change (matches (Repeat (S n) Digit) pos (String c s) k)
        with (is_digit c && matches (Repeat n Digit) (S pos) s k).
      rewrite andb_true_iff, IH, is_digit_spec.
      replace (S pos + n)%nat with (pos + S n)%nat by lia.
      split.
      * intros (Hc & d & t & -> & [Hl Hd] & Hk).
        exists (String c d), t. repeat split; simpl; auto.
      * intros (d & t & Hs & [Hl Hd] & Hk).
        destruct d as [|c' d]; [discriminate |].
        simpl in Hs, Hl, Hd. injection Hs as -> ->. injection Hl as Hl.
        destruct Hd as [Hc Hd]. split; [done |].
        exists d, t. repeat split; auto.
Qed.

Lemma matches_eol (pos : nat) (s : string) :
  matches Eol pos s (fun _ _ => true) = true <-> s = "".
Proof. destruct s; cbn; split; congruence. Qed.

(** A pattern that begins with [^] matches at offset 0 or not at all. *)
Lemma search_bol_later (r : regex) (pos : nat) (s : string) :
  search (Seq Bol r) (S pos) s = false.
Proof.
  revert pos. induction s as [|c s IH]; intros pos; cbn; [reflexivity |].
  apply IH.
Qed.

Lemma test_anchored (r : regex) (s : string) :
  test (Seq Bol r) s = matches r 0 s (fun _ _ => true).
Proof.
  unfold test. destruct s as [|c s]; cbn -[matches].
  - change (matches (Seq Bol r) 0 "" (fun _ _ => true))
      with (matches r 0 "" (fun _ _ => true)).
    apply orb_false_r.
  - rewrite search_bol_later.
    change (matches (Seq Bol r) 0 (String c s) (fun _ _ => true))
      with (matches r 0 (String c s) (fun _ _ => true)).
    apply orb_false_r.
Qed.

(** [/^\d{n}$/] *)
Lemma test_digits (n : nat) (s : string) :
  test (Seq Bol (Seq (Repeat n Digit) Eol)) s = true <-> ZipSpec.digits n s.
Proof.
  rewrite test_anchored.
  change (matches (Seq (Repeat n Digit) Eol) 0 s (fun _ _ => true))
    with (matches (Repeat n Digit) 0 s
            (fun p t => matches Eol p t (fun _ _ => true))).
  rewrite matches_repeat_digit. split.
  - intros (d & t & -> & Hd & Ht). apply matches_eol in Ht as ->.
    by rewrite append_empty_r.
  - intros Hd. exists s, "". rewrite append_empty_r.
    split; [reflexivity | split; [exact Hd | reflexivity]].
Qed.

(** [/^\d{5}(-\d{4})?$/] *)
Lemma test_usZipPattern (s : string) :
  test Component.usZipPattern s = true <-> ZipSpec.us_zip s.
Proof.
  unfold Component.usZipPattern, ZipSpec.us_zip. rewrite test_anchored.
  set (dash4 := Seq (Char "-") (Repeat 4 Digit)).
  change (matches (Seq (Repeat 5 Digit) (Seq (Opt dash4) Eol)) 0 s (fun _ _ => true))
    with (matches (Repeat 5 Digit) 0 s
            (fun p t =>
               matches dash4 p t (fun p' t' => matches Eol p' t' (fun _ _ => true))
               || matches Eol p t (fun _ _ => true))).
  rewrite matches_repeat_digit. split.
  - intros (d & t & -> & Hd & Ht). apply orb_true_iff in Ht as [Ht | Ht].
    + right. destruct t as [|c t]; [discriminate |].
      change (Ascii.eqb c "-" &&
              matches (Repeat 4 Digit) (S (0 + 5)) t
                (fun p' t' => matches Eol p' t' (fun _ _ => true)) = true) in Ht.
      apply andb_true_iff in Ht as [Hc Ht].
      apply Ascii.eqb_eq in Hc as ->.
      apply matches_repeat_digit in Ht as (b & t' & -> & Hb & Ht').
      apply matches_eol in Ht' as ->. rewrite append_empty_r.
      exists d, b. split; [reflexivity | split; assumption].
    + left. apply matches_eol in Ht as ->. by rewrite append_empty_r.
  - intros [Hd | (a & b & -> & Ha & Hb)].
    + exists s, "". rewrite append_empty_r.
      split; [reflexivity | split; [exact Hd |]].
      apply orb_true_iff. right. reflexivity.
    + exists a, (String "-" b). split; [reflexivity | split; [exact Ha |]].
      apply orb_true_iff. left.
      change (Ascii.eqb "-" "-" &&
              matches (Repeat 4 Digit) (S (0 + 5)) b
                (fun p' t' => matches Eol p' t' (fun _ _ => true)) = true).
      apply andb_true_iff. split; [reflexivity |].
      apply matches_repeat_digit. exists b, "".
      rewrite append_empty_r.
      split; [reflexivity | split; [exact Hb | reflexivity]].
Qed.

Lemma test_indianPinPattern (s : string) :
  test Component.indianPinPattern s = true <-> ZipSpec.pin s.
Proof. apply test_digits. Qed.

End Matching.

(** C9 as stated fails for the component: its validator accepts the empty
    string, which matches neither pattern. *)
Lemma zipCodeValidator_accepts_empty :
  ~ (Component.zipCodeValidator (VString "") = None <-> ZipSpec.zip_or_pin "").
Proof.
  intros [Hempty _]. specialize (Hempty eq_refl).
  destruct Hempty as [[[Hl _] | (a & b & Hs & _)] | [Hl _]]; try discriminate.
  destruct a; discriminate.
Qed.

(** C9, amended. [validateLocation] of the service accepts exactly the
    strings that match the US 5-digit or 5+4-digit pattern or the 6-digit
    PIN pattern; [zipCodeValidator] of the component accepts exactly those
    strings and the empty string.  Both accept "12345", "12345-6789" and
    "560001" and reject "abc12" and "1234". *)
Theorem zip_pin_validators (s : string) :
  (Service.validateLocation s = Resolved true <-> ZipSpec.zip_or_pin s)
  /\ (Component.zipCodeValidator (VString s) = None <->
      s = "" \/ ZipSpec.zip_or_pin s)
  /\ Forall
       (fun code =>
          Service.validateLocation code = Resolved true
          /\ Component.zipCodeValidator (VString code) = None)
       ["12345"; "12345-6789"; "560001"]
  /\ Forall
       (fun code =>
          Service.validateLocation code = Resolved false
          /\ Component.zipCodeValidator (VString code) = Some ["pattern"])
       ["abc12"; "1234"].
Proof.
  assert (RegExp.test Component.usZipPattern s
          || RegExp.test Component.indianPinPattern s = true
          <-> ZipSpec.zip_or_pin s) as Htest.
  { unfold ZipSpec.zip_or_pin.
    rewrite orb_true_iff, test_usZipPattern, test_indianPinPattern. reflexivity. }
  split; [| split; [| split]].
  - rewrite <- Htest. unfold Service.validateLocation.
    fold Component.usZipPattern Component.indianPinPattern.
    split; [intros [= ->] | intros ->]; reflexivity.
  - rewrite <- Htest. unfold Component.zipCodeValidator.
    cbn [truthy to_string]. case_bool_decide as Hs; cbn [negb].
    + split; [intros _; by left | reflexivity].
    + clear Htest. destruct (_ || _).
      * split; [intros _; by right | reflexivity].
      * split; [discriminate | intros [? | ?]; [contradiction | discriminate]].
  - repeat constructor.
  - repeat constructor.
Qed.

Lemma zip_pin_validators_witness :
  Service.validateLocation "12345-6789" = Resolved true
  /\ Component.zipCodeValidator (VString "12345-6789") = None.
Proof.
  assert (ZipSpec.zip_or_pin "12345-6789") as Hzip.
  { left. right. exists "12345", "6789".
    split; [reflexivity |]. split; (split; [reflexivity |]); repeat split; evaluate. }
  split.
  - apply (proj1 (zip_pin_validators "12345-6789")). exact Hzip.
  - apply (proj1 (proj2 (zip_pin_validators "12345-6789"))). right. exact Hzip.
Defined.

(** ** C10 *)

Section StepperFacts.

Import Forms Component Stepper.

Lemma field_valid_touched (form : gmap string FormControl)
    (name : string) (control : FormControl) (fieldName : string) :
  form !! name = Some control ->
  field_valid (<[name := markAsTouched control]> form) fieldName
  = field_valid form fieldName.
Proof.
  intros Hname. unfold field_valid.
  destruct (decide (name = fieldName)) as [<- | Hne].
  - by rewrite lookup_insert_eq, Hname.
  - by rewrite lookup_insert_ne.
Qed.

Lemma forallb_pointwise {A : Type} (f g : A -> bool) (l : list A) :
  (forall x, f x = g x) -> forallb f l = forallb g l.
Proof. intros Hfg. induction l as [|x l IH]; cbn; [reflexivity | by rewrite Hfg, IH]. Qed.

(** The verdict of [validateCurrentStep]: marking the fields as touched on
    the way does not change what is valid. *)
Lemma validate_fields (fields : list string) (isValid : bool)
    (form : gmap string FormControl) :
  (foldl
     (fun '(isValid, form) fieldName =>
        match form !! fieldName with
        | Some control =>
            (if valid control then isValid else false,
             <[fieldName := markAsTouched control]> form)
        | None => (isValid, form)
        end)
     (isValid, form) fields).1
  = isValid && forallb (field_valid form) fields.
Proof.
  revert isValid form. induction fields as [|f fields IH]; intros isValid form.
  - cbn. by rewrite andb_true_r.
  - cbn [foldl forallb]. unfold field_valid at 1.
    destruct (form !! f) as [control |] eqn:Hf.
    + rewrite IH.
      rewrite (forallb_pointwise _ (field_valid form));
        [| intros; by apply field_valid_touched].
      destruct (valid control), isValid; reflexivity.
    + rewrite IH. reflexivity.
Qed.

Lemma validateCurrentStep_verdict (c : state) :
  (validateCurrentStep c).1 = step_fields_valid c.
Proof. unfold validateCurrentStep. by rewrite validate_fields. Qed.

Lemma nextStep_currentStep (c : state) :
  currentStep (nextStep c)
  = if step_fields_valid c then (currentStep c + 1)%Z else currentStep c.
Proof.
  unfold nextStep. rewrite <- validateCurrentStep_verdict.
  destruct (validateCurrentStep c) as [[] form]; reflexivity.
Qed.

Lemma previousStep_currentStep (c : state) :
  currentStep (previousStep c)
  = if (1 <? currentStep c)%Z then (currentStep c - 1)%Z else currentStep c.
Proof. unfold previousStep. destruct (1 <? currentStep c)%Z; reflexivity. Qed.

Lemma onSubmit_currentStep (c : state) :
  currentStep (onSubmit c) = currentStep c.
Proof.
  unfold onSubmit. rewrite generateMockCalculation_resolves.
  destruct (group_valid (calculatorForm c)); reflexivity.
Qed.

(** No event takes the step below 1. *)
Lemma handle_lower_bound (c : state) (e : event) :
  (1 <= currentStep c)%Z -> (1 <= currentStep (handle c e))%Z.
Proof.
  intros Hc. destruct e; cbn [handle].
  - rewrite nextStep_currentStep. destruct (step_fields_valid c); lia.
  - rewrite previousStep_currentStep.
    destruct (1 <? currentStep c)%Z eqn:E; [apply Z.ltb_lt in E |]; lia.
  - cbn. lia.
  - exact Hc.
  - by rewrite onSubmit_currentStep.
Qed.

(** Only [nextStep] raises the step, by one. *)
Lemma handle_upper_bound (c : state) (e : event) (n : Z) :
  (1 <= currentStep c <= n)%Z ->
  (currentStep (handle c e)
   <= match e with NextStep => currentStep c + 1 | _ => n end)%Z.
Proof.
  intros Hc. destruct e; cbn [handle].
  - rewrite nextStep_currentStep. destruct (step_fields_valid c); lia.
  - rewrite previousStep_currentStep. destruct (1 <? currentStep c)%Z; lia.
  - cbn. lia.
  - cbn. lia.
  - rewrite onSubmit_currentStep. lia.
Qed.

Lemma run_from_lower_bound (es : list event) (c : state) :
  (1 <= currentStep c)%Z -> (1 <= currentStep (foldl handle c es))%Z.
Proof.
  revert c. induction es as [|e es IH]; intros c Hc; [exact Hc |].
  cbn [foldl]. by apply IH, handle_lower_bound.
Qed.

Lemma run_from_guarded (es : list event) (c : state) :
  (1 <= currentStep c <= 3)%Z -> nextStep_guarded_from c es = true ->
  (currentStep (foldl handle c es) <= 3)%Z.
Proof.
  revert c. induction es as [|e es IH]; intros c Hc Hg; [cbn; lia |].
  cbn [foldl]. cbn [nextStep_guarded_from] in Hg. apply andb_true_iff in Hg as [He Hg].
  apply IH; [| exact Hg]. split; [apply handle_lower_bound; lia |].
  pose proof (handle_upper_bound c e 3 Hc) as Hup.
  destruct e; try exact Hup. apply Z.ltb_lt in He. lia.
Qed.

End StepperFacts.

(** C10 as stated fails: nothing in [nextStep] stops at step 3.  With the
    fields of each step valid, three calls from the initial state leave the
    component at step 4. *)
Lemma nextStep_leaves_the_range :
  ~ (1 <= Component.currentStep (Component.run past_the_last_step) <= 3)%Z.
Proof.
  assert (Component.currentStep (Component.run past_the_last_step) = 4%Z) as ->
    by (vm_compute; reflexivity).
  lia.
Qed.

(** C10, amended. The stepper starts at step 1; after any sequence of
    events [nextStep] advances by one exactly when every field of the
    current step is valid and leaves the step alone otherwise,
    [previousStep] goes back by one exactly when the step is greater than 1,
    [resetCalculator] returns to step 1, and the step is at least 1.  It is
    at most 3 as long as [nextStep] is only invoked below step 3. *)
Theorem stepper_range (es : list Component.event) :
  let c := Component.run es in
  Component.currentStep Component.initial = 1%Z
  /\ Component.currentStep (Component.nextStep c)
     = (if Stepper.step_fields_valid c
        then (Component.currentStep c + 1)%Z else Component.currentStep c)
  /\ Component.currentStep (Component.previousStep c)
     = (if (1 <? Component.currentStep c)%Z
        then (Component.currentStep c - 1)%Z else Component.currentStep c)
  /\ Component.currentStep (Component.resetCalculator c) = 1%Z
  /\ (1 <= Component.currentStep c)%Z
  /\ (Stepper.nextStep_guarded es = true -> (Component.currentStep c <= 3)%Z).
Proof.
  cbn zeta. split; [reflexivity |].
  split; [apply nextStep_currentStep |].
  split; [apply previousStep_currentStep |].
  split; [reflexivity |].
  split.
  - apply run_from_lower_bound. cbn. lia.
  - apply run_from_guarded. cbn. lia.
Qed.

Lemma stepper_range_witness :
  (Component.currentStep (Component.run back_and_forth) <= 3)%Z.
Proof.
  apply (stepper_range back_and_forth). vm_compute. reflexivity.
Defined.

(* ===================================================================== *)
(** * Further properties *)
(* ===================================================================== *)

(** ** The two copies of [formatSpecialty] *)

Lemma specialtyMap_agree (key : string) :
  key <> "other" -> Service.specialtyMap !! key = Component.specialtyMap !! key.
Proof.
  intros Hkey. unfold Service.specialtyMap, Component.specialtyMap.
  rewrite !list_to_map_cons, !list_to_map_nil, !lookup_insert.
  repeat (case_decide; [reflexivity |]).
  case_decide; [congruence | reflexivity].
Qed.

(** X1. The service and the component label a specialty alike unless its
    key is 'other', which the service calls 'General Practice' and the
    component 'Other Specialty'; neither ever returns an empty label. *)
Theorem formatSpecialty_copies (specialty : primitive) :
  (Service.formatSpecialty specialty = Component.formatSpecialty specialty
   <-> to_string specialty <> "other")
  /\ Service.formatSpecialty specialty <> ""
  /\ Component.formatSpecialty specialty <> "".
Proof.
  split; [| split].
  - unfold Service.formatSpecialty, Component.formatSpecialty.
    destruct (decide (to_string specialty = "other")) as [-> | Hkey].
    + split; [intros H; vm_compute in H; discriminate | congruence].
    + rewrite (specialtyMap_agree _ Hkey). split; [intros _; exact Hkey | reflexivity].
  - unfold Service.formatSpecialty.
    destruct (Service.specialtyMap !! _); [case_bool_decide |]; congruence.
  - unfold Component.formatSpecialty.
    destruct (Component.specialtyMap !! _); [case_bool_decide |]; congruence.
Qed.

(** ** The claim count and the cost per claim *)

Lemma num_of_Z (z : Z) : num (inject_Z z) = of_Z z.
Proof. unfold num, of_Z. f_equal. apply Qc_is_canon. to_Q. reflexivity. Qed.

Lemma mul_of_Z (a b : Z) : mul (of_Z a) (of_Z b) = of_Z (a * b).
Proof.
  unfold of_Z. cbn [mul]. f_equal. apply Qc_is_canon. to_Q.
  rewrite inject_Z_mult. reflexivity.
Qed.

Lemma Qfloor_plus_half (z : Z) : Qfloor (inject_Z z + (1 # 2)) = z.
Proof.
  pose proof (Qfloor_le (inject_Z z + (1 # 2))) as Hle.
  pose proof (Qlt_floor (inject_Z z + (1 # 2))) as Hlt.
  set (f := Qfloor (inject_Z z + (1 # 2))) in *. clearbody f.
  rewrite inject_Z_plus in Hlt. change (inject_Z 1) with 1%Q in Hlt.
  assert (f < z + 1 /\ z < f + 1)%Z as [Hup Hlo]; [| lia].
  rewrite !Zlt_Qlt, !inject_Z_plus. change (inject_Z 1) with 1%Q.
  set (x := inject_Z z) in *. set (y := inject_Z f) in *. clearbody x y.
  split; lra.
Qed.

(** Rounding leaves a whole number alone. *)
Lemma Math_round_of_Z (z : Z) : Math_round (of_Z z) = of_Z z.
Proof.
  unfold of_Z at 1. cbn [Math_round]. f_equal.
  rewrite <- (Qfloor_plus_half z) at 2. apply Qfloor_comp. to_Q. reflexivity.
Qed.

Lemma patientVolume_whole (formData : gmap string primitive) :
  exists z : Z, z <> 0%Z /\ Service.patientVolume formData = of_Z z.
Proof.
  unfold Service.patientVolume, or_number, parseInt.
  destruct (parseInt_string_cases (to_string (get formData "patientVolume")))
    as [-> | [z ->]].
  - exists 100%Z. split; [lia | apply (num_of_Z 100)].
  - unfold of_Z at 1. cbn [truthy_number]. case_bool_decide as Hz; cbn [negb].
    + exists 100%Z. split; [lia | apply (num_of_Z 100)].
    + exists z. split; [| reflexivity]. intros ->. apply Hz.
      apply Qc_is_canon. reflexivity.
Qed.

Lemma totalMonthlyClaims_whole (formData : gmap string primitive) :
  exists z : Z, z <> 0%Z /\ Service.totalMonthlyClaims formData = of_Z z.
Proof.
  unfold Service.totalMonthlyClaims, Service.monthlyPatients.
  destruct (patientVolume_whole formData) as (z & Hz & ->).
  repeat destruct (strict_eq_string _ _).
  - exists (z * 30)%Z. split; [lia |].
    rewrite <- mul_of_Z, <- (num_of_Z 30). reflexivity.
  - exists (z * 4)%Z. split; [lia |].
    rewrite <- mul_of_Z, <- (num_of_Z 4). reflexivity.
  - exists z. split; [exact Hz | reflexivity].
Qed.

Lemma of_Z_nonzero (z : Z) : z <> 0%Z -> Qc_of_Z z <> 0%Qc.
Proof.
  intros Hz H. apply Hz. apply (f_equal this) in H. cbn in H.
  injection H as H. lia.
Qed.

(** X2. For a patient volume written in at most 200 characters, the
    monthly claim count is a whole number other than zero, the result
    reports it unchanged, and the cost per claim is a finite number
    whenever the monthly processing cost is: the division by the claim
    count is never a division by zero.  (The bound keeps the volume that
    [parseInt] reads, and its thirtyfold, below the largest number of
    JavaScript, beyond which the code computes with Infinity and this
    model of numbers does not.) *)
Theorem claim_count_whole_and_nonzero
    (sorted : list Result.Provider -> list Result.Provider)
    (random : nat -> number) (formData : gmap string primitive) :
  (String.length (to_string (get formData "patientVolume")) <= 200)%nat ->
  exists z : Z,
    z <> 0%Z
    /\ Service.totalMonthlyClaims formData = of_Z z
    /\ Result.totalMonthlyClaims
         (Result.userMetrics (Service.generateMockCalculation sorted random formData))
       = of_Z z
    /\ (is_finite (Service.monthlyProcessingCost formData) = true ->
        is_finite (Service.costPerClaim formData) = true).
Proof.
  intros _.
  destruct (totalMonthlyClaims_whole formData) as (z & Hz & Hclaims).
  exists z. split; [exact Hz |]. split; [exact Hclaims |]. split.
  - cbn [Result.totalMonthlyClaims Result.userMetrics Service.generateMockCalculation].
    rewrite Hclaims. apply Math_round_of_Z.
  - unfold Service.costPerClaim. rewrite Hclaims.
    destruct (Service.monthlyProcessingCost formData) as [| | |cost]; try discriminate.
    intros _. unfold of_Z. rewrite div_finite by (by apply of_Z_nonzero). reflexivity.
Qed.

Lemma claim_count_whole_and_nonzero_witness :
  is_finite (Service.costPerClaim daily_example) = true.
Proof.
  destruct (claim_count_whole_and_nonzero no_shuffle one_half daily_example)
    as (z & _ & _ & _ & Hfinite); [evaluate |].
  apply Hfinite. vm_compute. reflexivity.
Defined.

Lemma div_mul_cancel (q : Qc) (x : number) :
  q <> 0%Qc -> x <> NaN -> div (mul (Finite q) x) (Finite q) = x.
Proof.
  intros Hq Hx. destruct x as [| | |v]; [congruence | | |].
  - cbn [mul sign]. destruct (q ?= 0)%Qc eqn:E.
    + apply Qceq_alt in E. contradiction.
    + cbn. rewrite decide_False by exact Hq. cbn [sign]. rewrite E. reflexivity.
    + cbn. rewrite decide_False by exact Hq. cbn [sign]. rewrite E. reflexivity.
  - cbn [mul sign]. destruct (q ?= 0)%Qc eqn:E.
    + apply Qceq_alt in E. contradiction.
    + cbn. rewrite decide_False by exact Hq. cbn [sign]. rewrite E. reflexivity.
    + cbn. rewrite decide_False by exact Hq. cbn [sign]. rewrite E. reflexivity.
  - cbn [mul]. rewrite div_finite by exact Hq. f_equal. field. exact Hq.
Qed.

(** Over the exact numbers of this model the claim count cancels. *)
Lemma costPerClaim_per_claim (formData : gmap string primitive) :
  get formData "processingType" = VString "outsource" ->
  get formData "outsourcePricing" = VString "perClaim" ->
  Service.costPerClaim formData
  = or_number (parseFloat (get formData "perClaimValue")) (num 0).
Proof.
  intros Hp Ho.
  destruct (totalMonthlyClaims_whole formData) as (z & Hz & Hclaims).
  unfold Service.costPerClaim, Service.monthlyProcessingCost,
    Service.pricingValue, Service.pricingType.
  rewrite Hp, Ho, Hclaims.
  change (to_string (VString "perClaim") +:+ "Value") with "perClaimValue".
  change (strict_eq_string (VString "outsource") "inhouse") with false.
  change (strict_eq_string (VString "outsource") "outsource") with true.
  change (strict_eq_string (VString "perClaim") "percentage") with false.
  change (strict_eq_string (VString "perClaim") "perClaim") with true.
  cbv iota. unfold of_Z. apply div_mul_cancel.
  - by apply of_Z_nonzero.
  - apply or_number_not_NaN. discriminate.
Qed.

(** A price in quarters is its own rounding to two decimals. *)
Lemma round2_quarters (k : Z) :
  Spec.round2 (Finite (Q2Qc (k # 4))) = Finite (Q2Qc (k # 4)).
Proof.
  unfold Spec.round2. cbn [mul num].
  assert (Math_round (Finite (Q2Qc (k # 4) * Q2Qc 100)) = of_Z (25 * k)) as ->.
  { rewrite <- Math_round_of_Z. f_equal. unfold of_Z. f_equal.
    apply Qc_is_canon. to_Q. rewrite inject_Z_mult, (Qmake_Qdiv k 4).
    change (inject_Z 25) with (25 # 1). change (inject_Z (Z.pos 4)) with (4 # 1).
    field. }
  unfold of_Z, num. rewrite div_finite by discriminate. f_equal.
  apply Qc_is_canon. to_Q. rewrite inject_Z_mult, (Qmake_Qdiv k 4).
  change (inject_Z 25) with (25 # 1). change (inject_Z (Z.pos 4)) with (4 # 1).
  field.
Qed.

(** X3. With the processing outsourced at a price per claim, a price that
    is a whole number of quarters, up to 25000, and a patient volume
    written in at most 9 characters, the result reports that price as the
    cost per claim, whatever the patient volume.  (Within these bounds the
    product of the claim count and the price is a number that JavaScript
    has exactly, so that the division gives the price back in the code as
    it does over the exact numbers of this model.) *)
Theorem per_claim_price_is_cost_per_claim
    (sorted : list Result.Provider -> list Result.Provider)
    (random : nat -> number) (formData : gmap string primitive) (quarters : Z) :
  get formData "processingType" = VString "outsource" ->
  get formData "outsourcePricing" = VString "perClaim" ->
  (String.length (to_string (get formData "patientVolume")) <= 9)%nat ->
  parseFloat (get formData "perClaimValue") = Finite (Q2Qc (quarters # 4)) ->
  (Z.abs quarters <= 100000)%Z ->
  Result.costPerClaim
    (Result.userMetrics (Service.generateMockCalculation sorted random formData))
  = Finite (Q2Qc (quarters # 4)).
Proof.
  intros Hp Ho _ Hprice _.
  cbn [Result.costPerClaim Result.userMetrics Service.generateMockCalculation].
  rewrite (costPerClaim_per_claim formData Hp Ho), Hprice.
  assert (or_number (Finite (Q2Qc (quarters # 4))) (num 0)
          = Finite (Q2Qc (quarters # 4))) as ->.
  { unfold or_number. cbn [truthy_number]. case_bool_decide as Hzero; [| reflexivity].
    cbn [negb]. unfold num. by rewrite Hzero. }
  apply round2_quarters.
Qed.

Lemma per_claim_price_is_cost_per_claim_witness :
  Result.costPerClaim
    (Result.userMetrics
       (Service.generateMockCalculation no_shuffle one_half
          (<["perClaimValue" := VString "4.75"]> outsource_example)))
  = Finite (Q2Qc (19 # 4)).
Proof.
  apply (per_claim_price_is_cost_per_claim no_shuffle one_half
           (<["perClaimValue" := VString "4.75"]> outsource_example) 19);
    evaluate.
Defined.

(** ** Fields that the calculation does not use *)

Lemma get_insert_ne (formData : gmap string primitive) (k k' : string) (v : primitive) :
  k <> k' -> get (<[k := v]> formData) k' = get formData k'.
Proof. intros Hk. unfold get. by rewrite lookup_insert_ne. Qed.

Lemma append_cons (c : ascii) (s t : string) : String c s +:+ t = String c (s +:+ t).
Proof. reflexivity. Qed.

(** The key of the pricing value ends in "Value", which none of the three
    fields does. *)
Lemma pricing_key_not_ignored (s field : string) :
  field ∈ ["paymentTime"; "address"; "pincode"] -> field <> s +:+ "Value".
Proof.
  intros Hin H. symmetry in H.
  repeat (apply elem_of_cons in Hin as [-> | Hin]);
    [| | | by apply elem_of_nil in Hin].
  all: repeat (destruct s as [|? s];
               [discriminate H | rewrite append_cons in H; injection H as _ H]).
  all: destruct s; discriminate H.
Qed.

(** X4. The payment time, the address and the ZIP/PIN code have no
    influence on the calculation: changing any of them in the form value
    changes nothing in the result of the service (the provider list
    included) nor in that of the component. *)
Theorem calculation_ignores_fields
    (sorted : list Result.Provider -> list Result.Provider)
    (random : nat -> number) (formData : gmap string primitive)
    (field : string) (v : primitive) :
  field ∈ ["paymentTime"; "address"; "pincode"] ->
  Service.generateMockCalculation sorted random (<[field := v]> formData)
  = Service.generateMockCalculation sorted random formData
  /\ Component.mockCalculation (<[field := v]> formData)
     = Component.mockCalculation formData.
Proof.
  intros Hin. pose proof (pricing_key_not_ignored) as Hkey.
  assert (forall k : string,
            k ∉ ["paymentTime"; "address"; "pincode"] ->
            get (<[field := v]> formData) k = get formData k) as Hget.
  { intros k Hk. apply get_insert_ne. intros ->. contradiction. }
  assert (forall s : string,
            get (<[field := v]> formData) (s +:+ "Value")
            = get formData (s +:+ "Value")) as Hvalue.
  { intros s. apply get_insert_ne. by apply Hkey. }
  split.
  - unfold Service.generateMockCalculation, Service.nearbyProviders,
      Service.averageClaimPercentage, Service.costPerClaim,
      Service.monthlyProcessingCost, Service.pricingValue, Service.pricingType,
      Service.staffWages, Service.staffCount, Service.totalMonthlyClaims,
      Service.monthlyRevenue, Service.monthlyPatients, Service.denialRate,
      Service.patientVolume, Service.billingAverage, Service.collectionRate.
    rewrite !Hvalue. rewrite !Hget by evaluate. reflexivity.
  - unfold Component.mockCalculation, Component.nearbyProviders,
      Component.averageClaimPercentage, Component.costPerClaim,
      Component.monthlyProcessingCost, Component.pricingValue, Component.pricingType,
      Component.staffWages, Component.staffCount, Component.totalMonthlyClaims,
      Component.monthlyRevenue, Component.monthlyPatients, Component.denialRate,
      Component.patientVolume, Component.billingAverage, Component.collectionRate.
    rewrite !Hvalue. rewrite !Hget by evaluate. reflexivity.
Qed.

Lemma calculation_ignores_fields_witness :
  Service.generateMockCalculation no_shuffle one_half
    (<["paymentTime" := VNumber (num 90)]> inhouse_example)
  = Service.generateMockCalculation no_shuffle one_half inhouse_example
  /\ Component.mockCalculation (<["paymentTime" := VNumber (num 90)]> inhouse_example)
     = Component.mockCalculation inhouse_example.
Proof.
  apply (calculation_ignores_fields no_shuffle one_half inhouse_example
           "paymentTime" (VNumber (num 90))).
  evaluate.
Defined.

(** ** An estimated denial rate *)

Lemma prototype_keys_not_rates :
  Forall (fun k => Service.denialRates !! k = None) Object_prototype.
Proof. repeat constructor. Qed.

(** The estimate is a constant of the table, or the inherited object. *)
Lemma estimateDenialRate_in_table (specialty : primitive) :
  (to_string specialty ∉ Object_prototype ->
   exists rate, Service.estimateDenialRate specialty = Own rate
                /\ rate ∈ Spec.denial_rates.*2)
  /\ (to_string specialty ∈ Object_prototype ->
      Service.estimateDenialRate specialty = Inherited (to_string specialty)).
Proof.
  unfold Service.estimateDenialRate, lookup_literal.
  destruct (Service.denialRates !! to_string specialty) as [r |] eqn:Hr.
  - split.
    + intros _. exists (or_number r (num 8.0)). split; [reflexivity |].
      unfold or_number. destruct (truthy_number r); [| evaluate].
      apply elem_of_list_to_map_2 in Hr.
      apply list_elem_of_fmap. exists (to_string specialty, r).
      split; [reflexivity | exact Hr].
    + intros Hin.
      rewrite (proj1 (Forall_forall _ _) prototype_keys_not_rates _ Hin) in Hr.
      discriminate.
  - case_bool_decide; split; try contradiction; try reflexivity.
    intros _. exists (num 8.0). split; [reflexivity | evaluate].
Qed.

(** X5. When the user does not state a denial rate and the specialty is
    not the name of a member of [Object.prototype], the reported denial
    rate is one of the ten constants of the table, unrounded, and the
    reported claim-success percentage is its complement to 100.  For such
    a name both are NaN. *)
Theorem estimated_rate_and_percentage
    (sorted : list Result.Provider -> list Result.Provider)
    (random : nat -> number) (formData : gmap string primitive) :
  get formData "knowDenialRate" <> VString "yes" ->
  let metrics :=
    Result.userMetrics (Service.generateMockCalculation sorted random formData) in
  (to_string (get formData "specialty") ∉ Object_prototype ->
   Result.claimDenialRate metrics ∈ Spec.denial_rates.*2
   /\ add (Result.averageClaimPercentage metrics) (Result.claimDenialRate metrics)
      = num 100)
  /\ (to_string (get formData "specialty") ∈ Object_prototype ->
      Result.claimDenialRate metrics = NaN
      /\ Result.averageClaimPercentage metrics = NaN).
Proof.
  intros Hflag.
  assert (Forall
            (fun r : number =>
               div (Math_round (mul r (num 10))) (num 10) ∈ Spec.denial_rates.*2
               /\ add (div (Math_round
                              (mul (Math_max (num 60)
                                      (Math_min (num 98) (sub (num 100) r)))
                                   (num 10)))
                           (num 10))
                      (div (Math_round (mul r (num 10))) (num 10))
                  = num 100)
            Spec.denial_rates.*2) as Hall
    by (repeat constructor; evaluate).
  cbn [Result.claimDenialRate Result.averageClaimPercentage Result.userMetrics
       Service.generateMockCalculation].
  unfold Service.averageClaimPercentage, Service.denialRate.
  rewrite strict_eq_string_decide, bool_decide_eq_false_2 by exact Hflag.
  destruct (estimateDenialRate_in_table (get formData "specialty")) as [Hown Hinherited].
  split.
  - intros Hkey. destruct (Hown Hkey) as (rate & -> & Hrate). cbn [ToNumber].
    exact (proj1 (Forall_forall _ _) Hall rate Hrate).
  - intros Hkey. rewrite (Hinherited Hkey). split; reflexivity.
Qed.

Lemma estimated_rate_and_percentage_witness :
  (let metrics :=
     Result.userMetrics
       (Service.generateMockCalculation no_shuffle one_half inhouse_example) in
   Result.claimDenialRate metrics ∈ Spec.denial_rates.*2
   /\ add (Result.averageClaimPercentage metrics) (Result.claimDenialRate metrics)
      = num 100)
  /\ (let metrics :=
        Result.userMetrics
          (Service.generateMockCalculation no_shuffle one_half
             (<["specialty" := VString "valueOf"]> inhouse_example)) in
      Result.claimDenialRate metrics = NaN
      /\ Result.averageClaimPercentage metrics = NaN).
Proof.
  split.
  - apply (estimated_rate_and_percentage no_shuffle one_half inhouse_example);
      evaluate.
  - apply (estimated_rate_and_percentage no_shuffle one_half
             (<["specialty" := VString "valueOf"]> inhouse_example));
      evaluate.
Defined.

(** ** The nearby providers of the service *)

Lemma floor_tenths_within (lo hi : Z) (x : Qc) :
  (inject_Z lo <= x * 10)%Q -> (x * 10 <= inject_Z hi)%Q ->
  (lo <= Qfloor (x * Q2Qc 10 + Q2Qc (1 # 2))%Qc <= hi)%Z.
Proof.
  intros Hlo Hhi. split.
  - rewrite <- (Qfloor_Z lo). apply Qfloor_resp_le. to_Q. lra.
  - rewrite <- (Qfloor_plus_half hi). apply Qfloor_resp_le. to_Q. lra.
Qed.

(** A ratio with one decimal, moved by [(random - 0.5) * 4] and rounded to
    one decimal, stays within 2 of where it started. *)
Lemma perturbed_within (tenths : Z) (base q : Qc) :
  (base * 10 == inject_Z tenths)%Q -> (0 <= q)%Qc -> (q < 1)%Qc ->
  let ratio :=
    Spec.round1 (add (Finite base) (mul (sub (Finite q) (num 0.5)) (num 4))) in
  le (sub (Finite base) (num 2)) ratio /\ le ratio (add (Finite base) (num 2)).
Proof.
  intros Hbase Hq0 Hq1. cbn [add mul sub neg num]. cbv zeta.
  rewrite round1_finite. cbn [le].
  match goal with |- context [Qfloor ?t] => set (x := t) end.
  assert (tenths + -20 <= Qfloor x <= tenths + 20)%Z as [Hlo Hhi].
  { subst x. apply floor_tenths_within.
    - rewrite inject_Z_plus. change (inject_Z (-20)) with (-20 # 1). to_Q.
      change (this (Q2Qc 0.5)) with (1 # 2). lra.
    - rewrite inject_Z_plus. change (inject_Z 20) with (20 # 1). to_Q.
      change (this (Q2Qc 0.5)) with (1 # 2). lra. }
  clearbody x. rewrite Zle_Qle, inject_Z_plus in Hlo, Hhi.
  change (inject_Z 20) with (20 # 1) in *.
  change (inject_Z (-20)) with (-20 # 1) in *. to_Q.
  change (/ 10)%Q with (1 # 10)%Q.
  set (f := inject_Z (Qfloor x)) in *. clearbody f. split; lra.
Qed.

Lemma imap_keeps {A B : Type} (f : nat -> A -> A) (g : A -> B) (l : list A) :
  (forall i x, g (f i x) = g x) -> g <$> imap f l = g <$> l.
Proof.
  intros Hfg. rewrite fmap_imap, <- imap_const. apply imap_ext.
  intros i x _. apply Hfg.
Qed.

(** X6. If sorting under the random comparator permutes the array and
    every draw of [Math.random()] lies in [0, 1), the service returns four
    providers with four different identifiers, each of them from its table,
    labelled with the formatted specialty, and with a success ratio within
    2 of the ratio of that provider in the table. *)
Theorem nearby_providers
    (sorted : list Result.Provider -> list Result.Provider)
    (random : nat -> number) (specialty pincode : primitive) :
  (forall l, sorted l ≡ₚ l) ->
  (forall i, exists q : Qc, random i = Finite q /\ (0 <= q)%Qc /\ (q < 1)%Qc) ->
  let providers := Service.generateNearbyProviders sorted random specialty pincode in
  length providers = 4
  /\ NoDup (Result.npiNumber <$> providers)
  /\ Forall
       (fun p =>
          Result.specialty p = Service.formatSpecialty specialty
          /\ exists base : number,
               (Result.npiNumber p, base) ∈ Tables.base_ratio
               /\ le (sub base (num 2)) (Result.claimSuccessRatio p)
               /\ le (Result.claimSuccessRatio p) (add base (num 2)))
       providers.
Proof.
  intros Hperm Hrandom. unfold Service.generateNearbyProviders. cbv zeta.
  match goal with |- context [sorted ?l] => set (table := l) end.
  assert (length table = 5) as Hlen by reflexivity.
  assert (NoDup (Result.npiNumber <$> table)) as Hnodup by (cbn; evaluate).
  assert (Forall
            (fun p =>
               Result.specialty p = Service.formatSpecialty specialty
               /\ (Result.npiNumber p, Result.claimSuccessRatio p) ∈ Tables.base_ratio)
            table) as Htable
    by (repeat constructor; evaluate).
  rewrite <- (Hperm table) in Hlen, Hnodup, Htable. clearbody table.
  set (kept := take 4 (sorted table)).
  assert (length kept = 4) as Hkept by (subst kept; rewrite length_take; lia).
  assert (NoDup (Result.npiNumber <$> kept)) as Hkept_nodup.
  { subst kept. rewrite fmap_take.
    apply (sublist_NoDup _ (Result.npiNumber <$> sorted table));
      [exact Hnodup | apply sublist_take]. }
  assert (Forall
            (fun p =>
               Result.specialty p = Service.formatSpecialty specialty
               /\ (Result.npiNumber p, Result.claimSuccessRatio p) ∈ Tables.base_ratio)
            kept) as Hkept_table by (subst kept; by apply Forall_take).
  clearbody kept. split; [by rewrite length_imap |]. split.
  - rewrite imap_keeps; [exact Hkept_nodup | reflexivity].
  - apply Forall_forall. intros p Hp.
    apply elem_of_lookup_imap in Hp as (i & x & -> & Hx).
    apply list_elem_of_lookup_2 in Hx.
    destruct (proj1 (Forall_forall _ _) Hkept_table x Hx) as [Hlabel Hbase].
    split; [exact Hlabel |]. cbn [Result.npiNumber Result.claimSuccessRatio].
    exists (Result.claimSuccessRatio x). split; [exact Hbase |].
    destruct (Hrandom i) as (q & -> & Hq0 & Hq1).
    unfold Tables.base_ratio in Hbase.
    repeat (apply elem_of_cons in Hbase as [Hbase | Hbase];
            [apply (f_equal snd) in Hbase; cbn [snd] in Hbase; rewrite Hbase |]).
    + by apply (perturbed_within 942).
    + by apply (perturbed_within 918).
    + by apply (perturbed_within 895).
    + by apply (perturbed_within 961).
    + by apply (perturbed_within 887).
    + by apply elem_of_nil in Hbase.
Qed.

Lemma nearby_providers_witness :
  length (Service.generateNearbyProviders no_shuffle one_half (VString "cardiology") null)
  = 4.
Proof.
  apply (nearby_providers no_shuffle one_half (VString "cardiology") null).
  - intros l. reflexivity.
  - intros i. exists (Q2Qc 0.5). split; [reflexivity | split; evaluate].
Defined.

Lemma nearby_providers_labels
    (sorted : list Result.Provider -> list Result.Provider)
    (random : nat -> number) (specialty pincode : primitive) :
  (forall l, sorted l ≡ₚ l) ->
  Forall (fun p => Result.specialty p = Service.formatSpecialty specialty)
         (Service.generateNearbyProviders sorted random specialty pincode).
Proof.
  intros Hperm. unfold Service.generateNearbyProviders. cbv zeta.
  match goal with |- context [sorted ?l] => set (table := l) end.
  assert (Forall (fun p => Result.specialty p = Service.formatSpecialty specialty)
                 table) as Htable by (repeat constructor).
  rewrite <- (Hperm table) in Htable. clearbody table.
  apply (Forall_take _ 4) in Htable.
  apply Forall_forall. intros p Hp.
  apply elem_of_lookup_imap in Hp as (i & x & -> & Hx).
  apply list_elem_of_lookup_2 in Hx.
  exact (proj1 (Forall_forall _ _) Htable x Hx).
Qed.

(** X7. [getProvidersByLocation] called without a specialty, or with an
    empty one, resolves with providers that are all labelled 'General
    Practice' (sorting being a permutation). *)
Theorem providers_without_specialty
    (sorted : list Result.Provider -> list Result.Provider)
    (random : nat -> number) (pincode specialty : primitive) :
  (forall l, sorted l ≡ₚ l) ->
  truthy specialty = false ->
  exists providers : list Result.Provider,
    Service.getProvidersByLocation sorted random pincode specialty
    = Resolved providers
    /\ Forall (fun p => Result.specialty p = "General Practice") providers.
Proof.
  intros Hperm Hfalsy. unfold Service.getProvidersByLocation. rewrite Hfalsy.
  eexists. split; [reflexivity |].
  apply (nearby_providers_labels sorted random (VString "other") pincode Hperm).
Qed.

Lemma providers_without_specialty_witness :
  exists providers : list Result.Provider,
    Service.getProvidersByLocation no_shuffle one_half (VString "12345") undefined
    = Resolved providers
    /\ Forall (fun p => Result.specialty p = "General Practice") providers.
Proof.
  apply (providers_without_specialty no_shuffle one_half (VString "12345") undefined).
  - intros l. reflexivity.
  - reflexivity.
Defined.

(** ** What the events do to the form *)

Section FormFacts.

Import Forms Component.

(** Altering a control in a way that keeps an attribute [g] of it keeps
    that attribute of every control. *)
Lemma attribute_alter {B : Type} (g : FormControl -> B) (h : FormControl -> FormControl)
    (name k : string) (form : gmap string FormControl) :
  (forall control, g (h control) = g control) ->
  g <$> (alter h name form !! k) = g <$> (form !! k).
Proof.
  intros Hgh. rewrite lookup_alter. case_decide as Hk; [| reflexivity].
  subst k. destruct (form !! name); cbn; [by rewrite Hgh | reflexivity].
Qed.

Lemma attribute_replace {B : Type} (g : FormControl -> B)
    (name k : string) (old new : FormControl) (form : gmap string FormControl) :
  form !! name = Some old -> g new = g old ->
  g <$> (<[name := new]> form !! k) = g <$> (form !! k).
Proof.
  intros Hold Hg. rewrite lookup_insert. case_decide as Hk; [| reflexivity].
  subst k. rewrite Hold. cbn. by rewrite Hg.
Qed.

(** The three subscriptions only replace validators. *)
Lemma updateProcessingValidators_attribute {B : Type} (g : FormControl -> B)
    (v : primitive) (form : gmap string FormControl) (k : string) :
  (forall vs control, g (setValidators vs control) = g control) ->
  g <$> (updateProcessingValidators v form !! k) = g <$> (form !! k).
Proof.
  intros Hg. unfold updateProcessingValidators, clearValidators.
  destruct (strict_eq_string v "inhouse"); by rewrite !attribute_alter.
Qed.

Lemma updateOutsourcePricingValidators_attribute {B : Type} (g : FormControl -> B)
    (v : primitive) (form : gmap string FormControl) (k : string) :
  (forall vs control, g (setValidators vs control) = g control) ->
  g <$> (updateOutsourcePricingValidators v form !! k) = g <$> (form !! k).
Proof.
  intros Hg. unfold updateOutsourcePricingValidators, clearValidators.
  cbn [foldl]. destruct (truthy v); by rewrite !attribute_alter.
Qed.

Lemma denialRateValidators_attribute {B : Type} (g : FormControl -> B)
    (v : primitive) (form : gmap string FormControl) (k : string) :
  (forall vs control, g (setValidators vs control) = g control) ->
  g <$> (denialRateValidators v form !! k) = g <$> (form !! k).
Proof.
  intros Hg. unfold denialRateValidators, clearValidators.
  destruct (strict_eq_string v "yes"); by rewrite !attribute_alter.
Qed.

(** A control taking a value: an attribute that neither the new value nor
    a change of validators affects is kept. *)
Lemma setValue_attribute {B : Type} (g : FormControl -> B)
    (name : string) (v : primitive) (form : gmap string FormControl) (k : string) :
  (forall vs control, g (setValidators vs control) = g control) ->
  (forall control, g (setControlValue v control) = g control) ->
  g <$> (setValue name v form !! k) = g <$> (form !! k).
Proof.
  intros Hg Hv. unfold setValue. destruct (form !! name) as [c |] eqn:Hc;
    [| reflexivity].
  repeat case_bool_decide;
    rewrite ?updateProcessingValidators_attribute,
      ?updateOutsourcePricingValidators_attribute,
      ?denialRateValidators_attribute by exact Hg;
    by apply (attribute_replace g name k c).
Qed.

Lemma setValue_touched (name : string) (v : primitive)
    (form : gmap string FormControl) (k : string) :
  touched <$> (setValue name v form !! k) = touched <$> (form !! k).
Proof. by apply setValue_attribute. Qed.

Lemma setValue_value (name : string) (v : primitive)
    (form : gmap string FormControl) (k : string) :
  value <$> (setValue name v form !! k)
  = if decide (name = k) then (fun _ => v) <$> (form !! k) else value <$> (form !! k).
Proof.
  unfold setValue. destruct (form !! name) as [c |] eqn:Hc.
  - assert (value <$> (<[name := setControlValue v c]> form !! k)
            = if decide (name = k) then (fun _ => v) <$> (form !! k)
              else value <$> (form !! k)) as Hinsert.
    { rewrite lookup_insert. case_decide as Hk; [| reflexivity].
      subst k. by rewrite Hc. }
    repeat case_bool_decide;
      rewrite ?updateProcessingValidators_attribute,
        ?updateOutsourcePricingValidators_attribute,
        ?denialRateValidators_attribute by reflexivity;
      exact Hinsert.
  - case_decide as Hk; [| reflexivity]. subst k. by rewrite Hc.
Qed.

(** None of the twelve static fields is the key of a pricing value. *)
Lemma static_not_pricing_key (s k : string) :
  k ∈ Tables.static_fields -> s +:+ "Value" <> k.
Proof.
  intros Hin H.
  repeat (apply elem_of_cons in Hin as [-> | Hin]);
    [| | | | | | | | | | | | by apply elem_of_nil in Hin].
  all: repeat (destruct s as [|? s];
               [discriminate H | rewrite append_cons in H; injection H as _ H]).
  all: destruct s; discriminate H.
Qed.

Lemma static_not_dynamic (k : string) :
  k ∈ Tables.static_fields ->
  k ∉ ["staffWages"; "staffCount"; "denialRate"; "percentageValue";
       "perClaimValue"; "monthlyValue"; "hourlyValue"].
Proof.
  intros Hin.
  repeat (apply elem_of_cons in Hin as [-> | Hin]);
    [| | | | | | | | | | | | by apply elem_of_nil in Hin].
  all: evaluate.
Qed.

(** The subscriptions leave the twelve static controls as they are. *)
Lemma subscriptions_static (v : primitive) (form : gmap string FormControl) (k : string) :
  k ∈ Tables.static_fields ->
  updateProcessingValidators v form !! k = form !! k
  /\ updateOutsourcePricingValidators v form !! k = form !! k
  /\ denialRateValidators v form !! k = form !! k.
Proof.
  intros Hin. pose proof (static_not_dynamic k Hin) as Hdyn.
  pose proof (static_not_pricing_key (to_string v) k Hin) as Hkey.
  assert (forall name h (m : gmap string FormControl),
            name ∈ ["staffWages"; "staffCount"; "denialRate"; "percentageValue";
                    "perClaimValue"; "monthlyValue"; "hourlyValue"] ->
            alter h name m !! k = m !! k) as Halter.
  { intros name h m Hname. apply lookup_alter_ne. intros ->. contradiction. }
  unfold updateProcessingValidators, updateOutsourcePricingValidators,
    denialRateValidators. cbn [foldl].
  split; [| split].
  - destruct (strict_eq_string v "inhouse"); rewrite !Halter by evaluate; reflexivity.
  - destruct (truthy v); rewrite ?(lookup_alter_ne _ _ _ _ Hkey);
      rewrite !Halter by evaluate; reflexivity.
  - destruct (strict_eq_string v "yes"); rewrite !Halter by evaluate; reflexivity.
Qed.

Lemma setValue_static (name : string) (v : primitive)
    (form : gmap string FormControl) (k : string) :
  k ∈ Tables.static_fields ->
  validators <$> (setValue name v form !! k) = validators <$> (form !! k).
Proof.
  intros Hin. unfold setValue. destruct (form !! name) as [c |] eqn:Hc;
    [| reflexivity].
  destruct (subscriptions_static v (<[name := setControlValue v c]> form) k Hin)
    as (Hp & Ho & Hd).
  repeat case_bool_decide; rewrite ?Hp, ?Ho, ?Hd;
    by apply (attribute_replace validators name k c).
Qed.

(** Two forms that agree on an attribute of every control have the same
    controls by name. *)
Lemma same_controls {B : Type} (g : FormControl -> B)
    (form form' : gmap string FormControl) :
  (forall k, g <$> (form' !! k) = g <$> (form !! k)) -> dom form' = dom form.
Proof.
  intros H. apply set_eq. intros k. rewrite !elem_of_dom.
  specialize (H k). destruct (form !! k), (form' !! k); cbn in H;
    try discriminate; split; intros [? ?]; eauto; discriminate.
Qed.

Lemma setValue_dom (name : string) (v : primitive) (form : gmap string FormControl) :
  dom (setValue name v form) = dom form.
Proof. apply (same_controls touched). intros k. apply setValue_touched. Qed.

(** [form.reset()] *)
Lemma reset_names (names : list string) (form : gmap string FormControl) (k : string) :
  let form' :=
    foldr (fun name form => setValue name null form) (resetControl <$> form) names in
  value <$> (form' !! k) = (fun _ => null) <$> (form !! k)
  /\ touched <$> (form' !! k) = (fun _ => false) <$> (form !! k)
  /\ (k ∈ Tables.static_fields ->
      validators <$> (form' !! k) = validators <$> (form !! k)).
Proof.
  induction names as [|name names IH]; cbn [foldr].
  - rewrite lookup_fmap. destruct (form !! k); cbn; auto.
  - cbv zeta in IH. destruct IH as (Hvalue & Htouched & Hstatic).
    rewrite setValue_value, setValue_touched. split; [| split].
    + case_decide; [| exact Hvalue].
      destruct (_ !! k), (form !! k); cbn in *; congruence.
    + exact Htouched.
    + intros Hin. rewrite setValue_static by exact Hin. by apply Hstatic.
Qed.

Lemma reset_dom (form : gmap string FormControl) : dom (reset form) = dom form.
Proof.
  apply (same_controls (fun _ => ())). intros k. unfold reset.
  destruct (reset_names (map_to_list form).*1 form k) as (Hvalue & _ & _).
  cbv zeta in Hvalue. destruct (_ !! k), (form !! k); cbn in *; congruence.
Qed.

(** [validateCurrentStep]: the form it leaves. *)
Lemma validate_fields_form (fields : list string) (isValid : bool)
    (form : gmap string FormControl) (k : string) :
  let form' :=
    (foldl
       (fun '(isValid, form) fieldName =>
          match form !! fieldName with
          | Some control =>
              (if valid control then isValid else false,
               <[fieldName := markAsTouched control]> form)
          | None => (isValid, form)
          end)
       (isValid, form) fields).2 in
  value <$> (form' !! k) = value <$> (form !! k)
  /\ validators <$> (form' !! k) = validators <$> (form !! k)
  /\ touched <$> (form' !! k)
     = if decide (k ∈ fields) then (fun _ => true) <$> (form !! k)
       else touched <$> (form !! k).
Proof.
  revert isValid form. induction fields as [|f fields IH]; intros isValid form.
  - cbn. rewrite decide_False by apply not_elem_of_nil. auto.
  - cbn [foldl]. destruct (form !! f) as [control |] eqn:Hf.
    + destruct (IH (if valid control then isValid else false)
                   (<[f := markAsTouched control]> form)) as (Hv & Hvs & Ht).
      cbv zeta. rewrite Hv, Hvs, Ht.
      rewrite (attribute_replace value f k control) by done.
      rewrite (attribute_replace validators f k control) by done.
      split; [reflexivity | split; [reflexivity |]].
      destruct (decide (f = k)) as [<- | Hfk].
      * rewrite lookup_insert_eq, Hf.
        rewrite (decide_True (P := f ∈ f :: fields)) by apply list_elem_of_here.
        case_decide; reflexivity.
      * rewrite lookup_insert_ne by exact Hfk.
        destruct (decide (k ∈ fields)) as [Hin | Hout].
        -- rewrite decide_True by (by apply list_elem_of_further). reflexivity.
        -- rewrite decide_False; [reflexivity |].
           intros [-> | ?]%elem_of_cons; contradiction.
    + destruct (IH isValid form) as (Hv & Hvs & Ht). cbv zeta.
      rewrite Hv, Hvs, Ht. split; [reflexivity | split; [reflexivity |]].
      destruct (decide (k ∈ fields)) as [Hin | Hout].
      * rewrite decide_True by (by apply list_elem_of_further). reflexivity.
      * destruct (decide (k = f)) as [-> | Hkf].
        -- rewrite decide_True by apply list_elem_of_here. by rewrite Hf.
        -- rewrite decide_False; [reflexivity |].
           intros [-> | ?]%elem_of_cons; contradiction.
Qed.

Lemma nextStep_form (c : state) :
  calculatorForm (nextStep c) = (validateCurrentStep c).2.
Proof. unfold nextStep. destruct (validateCurrentStep c) as [[] form]; reflexivity. Qed.

Lemma onSubmit_form (c : state) :
  calculatorForm (onSubmit c) = calculatorForm c
  \/ calculatorForm (onSubmit c) = markAsTouched <$> calculatorForm c.
Proof.
  unfold onSubmit. rewrite generateMockCalculation_resolves.
  destruct (group_valid (calculatorForm c)); cbn; auto.
Qed.

(** No event adds or removes a control. *)
Lemma handle_dom (c : state) (e : event) :
  dom (calculatorForm (handle c e)) = dom (calculatorForm c).
Proof.
  destruct e; cbn [handle].
  - rewrite nextStep_form. apply (same_controls value). intros k.
    apply validate_fields_form.
  - unfold previousStep. destruct (1 <? currentStep c)%Z; reflexivity.
  - cbn. by rewrite !setValue_dom, reset_dom.
  - cbn. apply setValue_dom.
  - destruct (onSubmit_form c) as [-> | ->]; [reflexivity | apply dom_fmap_L].
Qed.

(** No event replaces the validators of a static control. *)
Lemma handle_static (c : state) (e : event) (k : string) :
  k ∈ Tables.static_fields ->
  validators <$> (calculatorForm (handle c e) !! k)
  = validators <$> (calculatorForm c !! k).
Proof.
  intros Hin. destruct e; cbn [handle].
  - rewrite nextStep_form. apply validate_fields_form.
  - unfold previousStep. destruct (1 <? currentStep c)%Z; reflexivity.
  - cbn. rewrite !setValue_static by exact Hin. by apply reset_names.
  - cbn. by apply setValue_static.
  - destruct (onSubmit_form c) as [-> | ->]; [reflexivity |].
    rewrite lookup_fmap. by destruct (_ !! k).
Qed.

Lemma run_snoc (es : list event) (e : event) : run (es ++ [e]) = handle (run es) e.
Proof. unfold run. by rewrite foldl_app. Qed.

Lemma run_dom (es : list event) : dom (calculatorForm (run es)) = dom createForm.
Proof.
  induction es as [|e es IH] using rev_ind; [reflexivity |].
  by rewrite run_snoc, handle_dom.
Qed.

Lemma run_static (es : list event) (k : string) :
  k ∈ Tables.static_fields ->
  validators <$> (calculatorForm (run es) !! k) = validators <$> (createForm !! k).
Proof.
  intros Hin. induction es as [|e es IH] using rev_ind; [reflexivity |].
  by rewrite run_snoc, handle_static.
Qed.

End FormFacts.

(** X8. After any sequence of events the form has the nineteen controls it
    was created with, and the twelve controls outside the staff fields, the
    pricing values and the denial rate still have the validators that
    [createForm] gave them: the subscriptions of [setupFormValidation]
    never reach them. *)
Theorem controls_and_static_validators (es : list Component.event) :
  dom (Component.calculatorForm (Component.run es)) = dom Component.createForm
  /\ size (Component.calculatorForm (Component.run es)) = 19
  /\ Forall
       (fun k =>
          Forms.validators <$> (Component.calculatorForm (Component.run es) !! k)
          = Forms.validators <$> (Component.createForm !! k))
       Tables.static_fields.
Proof.
  split; [apply run_dom | split].
  - rewrite <- size_dom, run_dom. vm_compute. reflexivity.
  - apply Forall_forall. intros k Hk. by apply run_static.
Qed.

(** X9. [nextStep] changes no value and no validator of the form; it marks
    as touched exactly the fields of the current step, whether it advances
    or not. *)
Theorem nextStep_touches_step_fields (c : Component.state) (k : string) :
  let form := Component.calculatorForm c in
  let form' := Component.calculatorForm (Component.nextStep c) in
  Forms.value <$> (form' !! k) = Forms.value <$> (form !! k)
  /\ Forms.validators <$> (form' !! k) = Forms.validators <$> (form !! k)
  /\ Forms.touched <$> (form' !! k)
     = if decide (k ∈ Component.getStepFields (Component.currentStep c))
       then (fun _ => true) <$> (form !! k)
       else Forms.touched <$> (form !! k).
Proof. cbv zeta. rewrite nextStep_form. apply validate_fields_form. Qed.

(** ** The validity of the controls in a running component *)

Section ValidityFacts.

Import Forms Component Stepper.

Lemma group_valid_lookup (form : gmap string FormControl) (k : string)
    (control : FormControl) :
  group_valid form = true -> form !! k = Some control -> valid control = true.
Proof.
  unfold group_valid. rewrite forallb_forall. intros Hall Hk.
  apply (Hall (k, control)). apply list_elem_of_In. by apply elem_of_map_to_list.
Qed.

(** Validity is a matter of the value and the validators. *)
Lemma valid_by_value_and_validators (control : FormControl)
    (v : primitive) (vs : list ValidatorFn) :
  value control = v -> validators control = vs ->
  valid control = valid (Component.control v vs).
Proof. intros <- <-. reflexivity. Qed.

(** A control of the form as created is there after any events. *)
Lemma run_control (es : list event) (k : string) :
  k ∈ dom createForm -> exists control, calculatorForm (run es) !! k = Some control.
Proof. rewrite <- (run_dom es), elem_of_dom. intros [control Hk]. eauto. Qed.

(** A static control has the validators it was created with. *)
Lemma run_static_control (es : list event) (k : string) (vs : list ValidatorFn) :
  k ∈ Tables.static_fields ->
  validators <$> (createForm !! k) = Some vs ->
  exists control,
    calculatorForm (run es) !! k = Some control /\ validators control = vs.
Proof.
  intros Hin Hvs. rewrite <- (run_static es k Hin) in Hvs.
  destruct (calculatorForm (run es) !! k) as [control |]; [| discriminate].
  exists control. split; [reflexivity | by injection Hvs].
Qed.

Lemma valid_or_false_field_valid (form : gmap string FormControl) (k : string) :
  is_Some (form !! k) -> valid_or_false form k = field_valid form k.
Proof. intros [control Hk]. unfold valid_or_false, field_valid. by rewrite Hk. Qed.

Lemma zip_tests (s : string) :
  RegExp.test usZipPattern s || RegExp.test indianPinPattern s = true
  <-> ZipSpec.zip_or_pin s.
Proof.
  unfold ZipSpec.zip_or_pin.
  rewrite orb_true_iff, test_usZipPattern, test_indianPinPattern. reflexivity.
Qed.

Lemma empty_not_zip_or_pin : ~ ZipSpec.zip_or_pin "".
Proof.
  intros [[[Hl _] | (a & b & Hs & _)] | [Hl _]]; try discriminate.
  destruct a; discriminate.
Qed.

End ValidityFacts.

(** X10. In a running component the ZIP/PIN control, holding a string, is
    valid exactly when the string has one of the three formats, which is
    when [validateLocation] of the service accepts it: with
    [Validators.required] beside it, the empty string that
    [zipCodeValidator] lets through is rejected. *)
Theorem pincode_control_validity (es : list Component.event) (s : string) :
  let form := Component.calculatorForm (Component.run es) in
  Component.value_of form "pincode" = VString s ->
  (Component.valid_or_false form "pincode" = true <-> ZipSpec.zip_or_pin s)
  /\ (Component.valid_or_false form "pincode" = true
      <-> Service.validateLocation s = Resolved true).
Proof.
  cbv zeta. intros Hvalue.
  destruct (run_static_control es "pincode"
              [Forms.Validators.required; Component.zipCodeValidator])
    as (control & Hcontrol & Hvalidators); [evaluate | reflexivity |].
  unfold Component.value_of, Component.valid_or_false in *.
  rewrite Hcontrol in *.
  rewrite (valid_by_value_and_validators control _ _ Hvalue Hvalidators).
  assert (Forms.valid
            (Component.control (VString s)
               [Forms.Validators.required; Component.zipCodeValidator])
          = RegExp.test Component.usZipPattern s
            || RegExp.test Component.indianPinPattern s) as ->.
  { unfold Forms.valid, Forms.errors, Component.control, Forms.Validators.required,
      Component.zipCodeValidator.
    cbn [Forms.value Forms.validators flat_map Forms.Validators.isEmptyInputValue
         truthy to_string].
    case_bool_decide as Hs; cbn [negb].
    - subst s. reflexivity.
    - destruct (_ || _); reflexivity. }
  split; [apply zip_tests |].
  unfold Service.validateLocation.
  fold Component.usZipPattern Component.indianPinPattern.
  split; [intros -> | intros [= ->]]; reflexivity.
Qed.

Lemma pincode_control_validity_witness :
  (Component.valid_or_false
     (Component.calculatorForm
        (Component.run [Component.SetValue "pincode" (VString "560001")]))
     "pincode" = true
   <-> ZipSpec.zip_or_pin "560001").
Proof.
  apply (pincode_control_validity
           [Component.SetValue "pincode" (VString "560001")] "560001").
  vm_compute. reflexivity.
Defined.

Section StepChecks.

Import Forms Component Stepper.

Lemma run_valid_or_false (es : list event) (k : string) :
  k ∈ dom createForm ->
  valid_or_false (calculatorForm (run es)) k = field_valid (calculatorForm (run es)) k.
Proof.
  intros Hk. apply valid_or_false_field_valid.
  destruct (run_control es k Hk) as [control ->]. eauto.
Qed.

(** A control that never has validators is valid. *)
Lemma run_unvalidated (es : list event) (k : string) :
  k ∈ ["volumePeriod"; "knowDenialRate"; "wageType"; "outsourcePricing"] ->
  valid_or_false (calculatorForm (run es)) k = true.
Proof.
  intros Hk.
  assert (exists control,
            calculatorForm (run es) !! k = Some control /\ validators control = [])
    as (control & Hcontrol & Hvalidators).
  { repeat (apply elem_of_cons in Hk as [-> | Hk]);
      [| | | | by apply elem_of_nil in Hk];
      (apply run_static_control; [evaluate | reflexivity]). }
  unfold valid_or_false. rewrite Hcontrol.
  by rewrite (valid_by_value_and_validators control _ _ eq_refl Hvalidators).
Qed.

End StepChecks.

(** X11. In a running component [isStep1Valid] is the verdict of
    [validateCurrentStep] on step 1, while [isStep2Valid] and [isStep3Valid]
    ask for more than the verdict on steps 2 and 3: a valid denial rate
    when the user knows it, and valid staff wages and staff count when the
    processing is in house.  [nextStep] does not look at those. *)
Theorem step_checks_and_verdicts (es : list Component.event) :
  let c := Component.run es in
  let form := Component.calculatorForm c in
  Component.isStep1Valid c
  = forallb (Stepper.field_valid form) (Component.getStepFields 1)
  /\ Component.isStep2Valid c
     = forallb (Stepper.field_valid form) (Component.getStepFields 2)
       && (if strict_eq_string (Component.value_of form "knowDenialRate") "yes"
           then Component.valid_or_false form "denialRate" else true)
  /\ Component.isStep3Valid c
     = forallb (Stepper.field_valid form) (Component.getStepFields 3)
       && (if strict_eq_string (Component.value_of form "processingType") "inhouse"
           then Component.valid_or_false form "staffWages"
                && Component.valid_or_false form "staffCount"
           else true).
Proof.
  cbv zeta.
  unfold Component.isStep1Valid, Component.isStep2Valid, Component.isStep3Valid.
  cbn [forallb Component.getStepFields].
  rewrite (run_unvalidated es "volumePeriod"), (run_unvalidated es "knowDenialRate"),
    (run_unvalidated es "wageType"), (run_unvalidated es "outsourcePricing")
    by evaluate.
  rewrite <- !(run_valid_or_false es) by evaluate.
  split; [| split].
  - repeat match goal with
           | |- context [Component.valid_or_false ?f ?k] =>
               destruct (Component.valid_or_false f k)
           end; reflexivity.
  - destruct (strict_eq_string _ _);
      repeat match goal with
             | |- context [Component.valid_or_false ?f ?k] =>
                 destruct (Component.valid_or_false f k)
             end; reflexivity.
  - repeat destruct (strict_eq_string _ _);
      repeat match goal with
             | |- context [Component.valid_or_false ?f ?k] =>
                 destruct (Component.valid_or_false f k)
             end; reflexivity.
Qed.

(** X12. In a running component a form that [onSubmit] accepts as valid
    passes the three step checks. *)
Theorem valid_form_passes_step_checks (es : list Component.event) :
  let c := Component.run es in
  Forms.group_valid (Component.calculatorForm c) = true ->
  Component.isStep1Valid c = true
  /\ Component.isStep2Valid c = true
  /\ Component.isStep3Valid c = true.
Proof.
  cbv zeta. intros Hvalid.
  assert (forall k, k ∈ dom Component.createForm ->
            Component.valid_or_false
              (Component.calculatorForm (Component.run es)) k = true) as Hall.
  { intros k Hk. destruct (run_control es k Hk) as [control Hcontrol].
    unfold Component.valid_or_false. rewrite Hcontrol.
    exact (group_valid_lookup _ k control Hvalid Hcontrol). }
  unfold Component.isStep1Valid, Component.isStep2Valid, Component.isStep3Valid.
  cbn [forallb]. rewrite !Hall by evaluate.
  repeat destruct (strict_eq_string _ _); auto.
Qed.

Lemma valid_form_passes_step_checks_witness :
  Component.isStep1Valid (Component.run filled_in) = true
  /\ Component.isStep2Valid (Component.run filled_in) = true
  /\ Component.isStep3Valid (Component.run filled_in) = true.
Proof.
  apply (valid_form_passes_step_checks filled_in). vm_compute. reflexivity.
Defined.

(** ** After a reset *)

Section ResetFacts.

Import Forms Component Stepper.

Lemma resetCalculator_run (es : list event) :
  resetCalculator (run es) = run (es ++ [ResetCalculator]).
Proof. by rewrite run_snoc. Qed.

Lemma resetCalculator_lookup (c : state) (k : string) :
  let form' := calculatorForm (resetCalculator c) in
  value <$> (form' !! k)
  = (fun _ => if bool_decide (k ∈ ["volumePeriod"; "wageType"])
              then VString "monthly" else null) <$> (calculatorForm c !! k)
  /\ touched <$> (form' !! k) = (fun _ => false) <$> (calculatorForm c !! k).
Proof.
  cbv zeta. cbn [resetCalculator calculatorForm patchValue foldl fst snd].
  destruct (reset_names (map_to_list (calculatorForm c)).*1 (calculatorForm c) k)
    as (Hvalue & Htouched & _).
  cbv zeta in Hvalue, Htouched. fold (reset (calculatorForm c)) in Hvalue, Htouched.
  rewrite !setValue_touched. split; [| exact Htouched].
  rewrite setValue_value.
  rewrite (setValue_attribute (fun _ => VString "monthly")) by reflexivity.
  rewrite setValue_value.
  destruct (reset (calculatorForm c) !! k), (calculatorForm c !! k);
    cbn in Hvalue; try discriminate.
  - assert (value f = null) as Hnull by congruence.
    destruct (decide ("wageType" = k)) as [<- | Hw]; [reflexivity |].
    destruct (decide ("volumePeriod" = k)) as [<- | Hv]; [reflexivity |].
    cbn. rewrite Hnull, bool_decide_eq_false_2; [reflexivity |].
    intros Hin. repeat (apply elem_of_cons in Hin as [-> | Hin]); try congruence.
    by apply elem_of_nil in Hin.
  - repeat case_decide; reflexivity.
Qed.

(** After a reset the specialty is empty, hence not valid. *)
Lemma reset_specialty_invalid (es : list event) :
  exists control,
    calculatorForm (resetCalculator (run es)) !! "specialty" = Some control
    /\ valid control = false.
Proof.
  rewrite resetCalculator_run.
  destruct (run_static_control (es ++ [ResetCalculator]) "specialty"
              [Validators.required])
    as (control & Hcontrol & Hvalidators); [evaluate | reflexivity |].
  exists control. split; [exact Hcontrol |].
  rewrite <- resetCalculator_run in Hcontrol.
  destruct (resetCalculator_lookup (run es) "specialty") as [Hvalue _].
  cbv zeta in Hvalue. rewrite Hcontrol in Hvalue.
  destruct (calculatorForm (run es) !! "specialty"); [| discriminate].
  injection Hvalue as Hvalue.
  by rewrite (valid_by_value_and_validators control _ _ Hvalue Hvalidators).
Qed.

End ResetFacts.

(** X13. [resetCalculator], in a running component, goes back to step 1,
    drops the result, and leaves every control untouched and holding
    [null], except for the volume period and the wage type, which hold
    'monthly': the patient volume, the collection rate, the payment time and
    the denial rate do not get back the values the form was created with.
    The form is then not valid, so a submission right after computes
    nothing and [nextStep] stays on step 1. *)
Theorem reset_empties_the_form (es : list Component.event) :
  let c := Component.resetCalculator (Component.run es) in
  let form := Component.calculatorForm c in
  Component.currentStep c = 1%Z
  /\ Component.calculationResult c = None
  /\ (forall k, k ∈ dom Component.createForm ->
        Component.value_of form k
        = if bool_decide (k ∈ ["volumePeriod"; "wageType"])
          then VString "monthly" else null)
  /\ (forall k control, form !! k = Some control -> Forms.touched control = false)
  /\ Component.calculationResult (Component.onSubmit c) = None
  /\ Component.currentStep (Component.nextStep c) = 1%Z.
Proof.
  cbv zeta. split; [reflexivity | split; [reflexivity |]].
  destruct (reset_specialty_invalid es) as (specialty & Hspecialty & Hinvalid).
  split; [| split; [| split]].
  - intros k Hk. destruct (run_control es k Hk) as [old Hold].
    destruct (resetCalculator_lookup (Component.run es) k) as [Hvalue _].
    cbv zeta in Hvalue. rewrite Hold in Hvalue. unfold Component.value_of.
    destruct (Component.calculatorForm (Component.resetCalculator _) !! k);
      [by inversion Hvalue | discriminate].
  - intros k control Hcontrol.
    destruct (resetCalculator_lookup (Component.run es) k) as [_ Htouched].
    cbv zeta in Htouched. rewrite Hcontrol in Htouched.
    destruct (Component.calculatorForm (Component.run es) !! k);
      [by inversion Htouched | discriminate].
  - unfold Component.onSubmit.
    destruct (Forms.group_valid _) eqn:Hvalid; [| reflexivity].
    rewrite (group_valid_lookup _ _ _ Hvalid Hspecialty) in Hinvalid. discriminate.
  - rewrite nextStep_currentStep.
    assert (Stepper.step_fields_valid
              (Component.resetCalculator (Component.run es)) = false) as ->;
      [| reflexivity].
    unfold Stepper.step_fields_valid.
    cbn [Component.currentStep Component.resetCalculator Component.getStepFields
         forallb].
    unfold Stepper.field_valid at 3. rewrite Hspecialty, Hinvalid.
    by rewrite !andb_false_r.
Qed.

(** ** The conditional validators *)

Section ConditionalValidators.

Import Forms Component Assigned.

Lemma alter_setValidators (vs : list ValidatorFn) (name k : string)
    (form : gmap string FormControl) :
  validators <$> (alter (setValidators vs) name form !! k)
  = if decide (name = k) then (fun _ => vs) <$> (form !! k)
    else validators <$> (form !! k).
Proof.
  rewrite lookup_alter. case_decide as Hk; [| reflexivity].
  subst k. by destruct (form !! name).
Qed.

(** Whether there is a control is not a matter of its validators. *)
Lemma alter_const {B : Type} (b : B) (h : FormControl -> FormControl)
    (name k : string) (form : gmap string FormControl) :
  (fun _ => b) <$> (alter h name form !! k) = (fun _ => b) <$> (form !! k).
Proof. by apply attribute_alter. Qed.

Lemma updateProcessingValidators_validators (v : primitive)
    (form : gmap string FormControl) (k : string) :
  validators <$> (updateProcessingValidators v form !! k)
  = assign (by_processingType v k) (form !! k).
Proof.
  unfold updateProcessingValidators, by_processingType, clearValidators.
  destruct (strict_eq_string v "inhouse");
    rewrite alter_setValidators;
    (destruct (decide ("staffCount" = k)) as [<- | Hcount];
     [cbn; apply alter_const |]);
    rewrite bool_decide_eq_false_2 by congruence;
    rewrite alter_setValidators;
    (destruct (decide ("staffWages" = k)) as [<- | Hwages]; [reflexivity |]);
    by rewrite bool_decide_eq_false_2 by congruence.
Qed.

Lemma clear_pricing_validators (form : gmap string FormControl) (k : string) :
  validators <$>
    (foldl (fun form field => alter clearValidators field form) form
       ["percentageValue"; "perClaimValue"; "monthlyValue"; "hourlyValue"] !! k)
  = assign
      (if bool_decide
            (k ∈ ["hourlyValue"; "monthlyValue"; "perClaimValue"; "percentageValue"])
       then Some [] else None)
      (form !! k).
Proof.
  cbn [foldl]. unfold clearValidators.
  repeat (rewrite alter_setValidators;
          case_decide;
          [subst k; rewrite ?alter_const;
           by rewrite bool_decide_eq_true_2 by evaluate |]).
  rewrite bool_decide_eq_false_2; [reflexivity |].
  intros Hin. repeat (apply elem_of_cons in Hin as [-> | Hin]); try congruence.
  by apply elem_of_nil in Hin.
Qed.

Lemma clear_pricing_const {B : Type} (b : B) (form : gmap string FormControl)
    (k : string) :
  (fun _ => b) <$>
    (foldl (fun form field => alter clearValidators field form) form
       ["percentageValue"; "perClaimValue"; "monthlyValue"; "hourlyValue"] !! k)
  = (fun _ => b) <$> (form !! k).
Proof. cbn [foldl]. by rewrite !alter_const. Qed.

Lemma updateOutsourcePricingValidators_validators (v : primitive)
    (form : gmap string FormControl) (k : string) :
  validators <$> (updateOutsourcePricingValidators v form !! k)
  = assign (by_outsourcePricing v k) (form !! k).
Proof.
  unfold updateOutsourcePricingValidators, by_outsourcePricing. cbv zeta.
  destruct (truthy v); cbn [andb]; [| apply clear_pricing_validators].
  rewrite alter_setValidators. case_decide as Hk.
  - rewrite bool_decide_eq_true_2 by exact Hk. cbn [assign].
    apply clear_pricing_const.
  - rewrite bool_decide_eq_false_2 by exact Hk. apply clear_pricing_validators.
Qed.

Lemma denialRateValidators_validators (v : primitive)
    (form : gmap string FormControl) (k : string) :
  validators <$> (denialRateValidators v form !! k)
  = assign (by_knowDenialRate v k) (form !! k).
Proof.
  unfold denialRateValidators, by_knowDenialRate, clearValidators.
  destruct (strict_eq_string v "yes");
    rewrite alter_setValidators;
    (destruct (decide ("denialRate" = k)) as [<- | Hk]; [reflexivity |]);
    by rewrite bool_decide_eq_false_2 by congruence.
Qed.

(** The validators after a control has taken a value. *)
Lemma setValue_validators (name : string) (v : primitive)
    (form : gmap string FormControl) (k : string) :
  validators <$> (setValue name v form !! k)
  = if form !! name is Some _ then assign (assigned name v k) (form !! k)
    else validators <$> (form !! k).
Proof.
  unfold setValue, assigned. destruct (form !! name) as [c |] eqn:Hc;
    [| reflexivity].
  assert (forall o,
            assign o (<[name := setControlValue v c]> form !! k)
            = assign o (form !! k)) as Hassign.
  { intros [vs |]; cbn [assign];
      by apply (attribute_replace _ name k c). }
  repeat case_bool_decide;
    rewrite ?updateProcessingValidators_validators,
      ?updateOutsourcePricingValidators_validators,
      ?denialRateValidators_validators;
    apply (Hassign _) || apply (Hassign None).
Qed.

Lemma value_of_lookup (form : gmap string FormControl) (name : string) :
  value_of form name = default undefined (value <$> (form !! name)).
Proof. unfold value_of. by destruct (form !! name). Qed.

(** The names on which no validator depends. *)
Lemma assigned_none (name : string) (v : primitive) (k : string) :
  name ∉ ["processingType"; "outsourcePricing"; "knowDenialRate"] ->
  assigned name v k = None.
Proof.
  intros Hname. unfold assigned.
  repeat (case_bool_decide; [subst name; exfalso; apply Hname; evaluate |]).
  reflexivity.
Qed.

Lemma in_step_others (name : string) (form : gmap string FormControl) :
  name ∉ ["processingType"; "outsourcePricing"; "knowDenialRate"] ->
  in_step name form.
Proof. intros Hname k vs. by rewrite assigned_none. Qed.

(** No key of a pricing value is a staff field or the denial rate. *)
Lemma dynamic_not_pricing_key (s k : string) :
  k ∈ ["staffCount"; "staffWages"; "denialRate"] -> s +:+ "Value" <> k.
Proof.
  intros Hin H.
  repeat (apply elem_of_cons in Hin as [-> | Hin]);
    [| | | by apply elem_of_nil in Hin].
  all: repeat (destruct s as [|? s];
               [discriminate H | rewrite append_cons in H; injection H as _ H]).
  all: destruct s; discriminate H.
Qed.

Lemma by_processingType_keys (v : primitive) (k : string) (vs : list ValidatorFn) :
  by_processingType v k = Some vs -> k ∈ ["staffCount"; "staffWages"; "denialRate"].
Proof.
  unfold by_processingType. repeat case_bool_decide; try discriminate;
    subst k; intros _; evaluate.
Qed.

Lemma by_knowDenialRate_keys (v : primitive) (k : string) (vs : list ValidatorFn) :
  by_knowDenialRate v k = Some vs -> k ∈ ["staffCount"; "staffWages"; "denialRate"].
Proof.
  unfold by_knowDenialRate. repeat case_bool_decide; try discriminate;
    subst k; intros _; evaluate.
Qed.

Lemma by_outsourcePricing_keys (v : primitive) (k : string) :
  k ∈ ["staffCount"; "staffWages"; "denialRate"] -> by_outsourcePricing v k = None.
Proof.
  intros Hin. pose proof (dynamic_not_pricing_key (to_string v) k Hin) as Hkey.
  unfold by_outsourcePricing.
  rewrite (bool_decide_eq_false_2 _ Hkey), andb_false_r.
  repeat (apply elem_of_cons in Hin as [-> | Hin]);
    [| | | by apply elem_of_nil in Hin]; reflexivity.
Qed.

(** The three subscriptions assign validators to different controls. *)
Lemma assigned_apart (name name' : string) (v v' : primitive) (k : string)
    (vs : list ValidatorFn) :
  name <> name' -> assigned name v k = Some vs -> assigned name' v' k = None.
Proof.
  intros Hne. unfold assigned.
  repeat (case_bool_decide; [subst name |]);
    repeat (case_bool_decide; [subst name' |]);
    try congruence; intros Hk.
  - destruct (by_outsourcePricing v' k) eqn:Ho; [| reflexivity].
    rewrite by_outsourcePricing_keys in Ho; [discriminate |].
    by apply by_processingType_keys in Hk.
  - unfold by_processingType, by_knowDenialRate in *.
    repeat case_bool_decide; congruence.
  - destruct (by_processingType v' k) eqn:Hp; [| reflexivity].
    apply by_processingType_keys in Hp.
    by rewrite by_outsourcePricing_keys in Hk.
  - destruct (by_knowDenialRate v' k) eqn:Hd; [| reflexivity].
    apply by_knowDenialRate_keys in Hd.
    by rewrite by_outsourcePricing_keys in Hk.
  - unfold by_processingType, by_knowDenialRate in *.
    repeat case_bool_decide; congruence.
  - destruct (by_outsourcePricing v' k) eqn:Ho; [| reflexivity].
    rewrite by_outsourcePricing_keys in Ho; [discriminate |].
    by apply by_knowDenialRate_keys in Hk.
Qed.

(** A control that takes a value is in step with the validators that
    depend on it. *)
Lemma setValue_in_step_same (name : string) (v : primitive)
    (form : gmap string FormControl) :
  is_Some (form !! name) -> in_step name (setValue name v form).
Proof.
  intros [c Hc] k vs. rewrite value_of_lookup, setValue_value, Hc.
  rewrite decide_True by reflexivity.
  change (default undefined ((fun _ => v) <$> Some c)) with v.
  intros Hassigned.
  rewrite setValue_validators, Hc, Hassigned. cbn [assign].
  symmetry. by apply setValue_attribute.
Qed.

(** Another control that takes a value leaves it in step. *)
Lemma setValue_in_step_other (name name' : string) (v : primitive)
    (form : gmap string FormControl) :
  name <> name' -> in_step name form -> in_step name (setValue name' v form).
Proof.
  intros Hne Hstep k vs. rewrite value_of_lookup, setValue_value.
  rewrite decide_False by congruence. rewrite <- value_of_lookup.
  intros Hassigned.
  rewrite setValue_validators, (setValue_attribute (fun _ => vs)) by reflexivity.
  destruct (form !! name'); [| by apply Hstep].
  rewrite (assigned_apart name name' _ v k vs Hne Hassigned). by apply Hstep.
Qed.

Lemma setValue_in_step (name name' : string) (v : primitive)
    (form : gmap string FormControl) :
  in_step name form -> in_step name (setValue name' v form).
Proof.
  intros Hstep. destruct (decide (name = name')) as [<- | Hne];
    [| by apply setValue_in_step_other].
  destruct (form !! name) as [c |] eqn:Hc; [by apply setValue_in_step_same |].
  unfold setValue. by rewrite Hc.
Qed.

(** Being in step is a matter of the values and the validators. *)
Lemma in_step_ext (name : string) (form form' : gmap string FormControl) :
  (forall k, value <$> (form' !! k) = value <$> (form !! k)) ->
  (forall k, validators <$> (form' !! k) = validators <$> (form !! k)) ->
  in_step name form -> in_step name form'.
Proof.
  intros Hvalue Hvalidators Hstep k vs.
  rewrite value_of_lookup, Hvalue, <- value_of_lookup. intros Hassigned.
  rewrite Hvalidators, (Hstep k vs Hassigned).
  specialize (Hvalue k). destruct (form !! k), (form' !! k); cbn in *; congruence.
Qed.

(** [form.reset()] sets every control, so it brings into step every
    control that the form has. *)
Lemma reset_names_in_step (names : list string) (form : gmap string FormControl)
    (name : string) :
  name ∈ names -> is_Some (form !! name) ->
  in_step name
    (foldr (fun name form => setValue name null form) (resetControl <$> form) names).
Proof.
  intros Hin Hname. induction names as [|name' names IH]; cbn [foldr].
  - by apply elem_of_nil in Hin.
  - destruct (decide (name = name')) as [<- | Hne].
    + apply setValue_in_step_same.
      destruct (reset_names names form name) as (Hvalue & _ & _).
      cbv zeta in Hvalue. destruct Hname as [c Hc]. rewrite Hc in Hvalue.
      destruct (foldr _ _ _ !! name); [eauto | discriminate].
    + apply setValue_in_step_other; [exact Hne |]. apply IH.
      apply elem_of_cons in Hin as [-> | Hin]; [contradiction | exact Hin].
Qed.

Lemma reset_in_step (form : gmap string FormControl) (name : string) :
  is_Some (form !! name) -> in_step name (reset form).
Proof.
  intros Hname. apply reset_names_in_step; [| exact Hname].
  destruct Hname as [c Hc]. apply list_elem_of_fmap. exists (name, c).
  split; [reflexivity | by apply elem_of_map_to_list].
Qed.

Lemma createForm_in_step (name : string) : in_step name createForm.
Proof.
  destruct (decide (name ∈ ["processingType"; "outsourcePricing"; "knowDenialRate"]))
    as [Hin | Hout]; [| by apply in_step_others].
  intros k vs.
  repeat (apply elem_of_cons in Hin as [-> | Hin]);
    [| | | by apply elem_of_nil in Hin].
  - change (by_processingType (VString "") k = Some vs ->
            validators <$> (createForm !! k) = (fun _ => vs) <$> (createForm !! k)).
    unfold by_processingType. repeat case_bool_decide; try discriminate;
      subst k; intros [= <-]; reflexivity.
  - change (by_outsourcePricing (VString "") k = Some vs ->
            validators <$> (createForm !! k) = (fun _ => vs) <$> (createForm !! k)).
    unfold by_outsourcePricing.
    change (truthy (VString "")) with false. cbn [andb].
    case_bool_decide as Hk; [| discriminate]. intros [= <-].
    repeat (apply elem_of_cons in Hk as [-> | Hk]);
      [| | | | by apply elem_of_nil in Hk]; reflexivity.
  - change (by_knowDenialRate (VString "") k = Some vs ->
            validators <$> (createForm !! k) = (fun _ => vs) <$> (createForm !! k)).
    unfold by_knowDenialRate. repeat case_bool_decide; try discriminate;
      subst k; intros [= <-]; reflexivity.
Qed.

Lemma handle_in_step (c : state) (e : event) (name : string) :
  dom (calculatorForm c) = dom createForm ->
  in_step name (calculatorForm c) -> in_step name (calculatorForm (handle c e)).
Proof.
  intros Hdom Hstep. destruct e; cbn [handle].
  - rewrite nextStep_form.
    apply (in_step_ext name (calculatorForm c)); [| | exact Hstep];
      intros k; apply validate_fields_form.
  - unfold previousStep. by destruct (1 <? currentStep c)%Z.
  - cbn. do 2 apply setValue_in_step.
    destruct (decide (name ∈ ["processingType"; "outsourcePricing"; "knowDenialRate"]))
      as [Hin | Hout]; [| by apply in_step_others].
    apply reset_in_step. apply elem_of_dom. rewrite Hdom.
    repeat (apply elem_of_cons in Hin as [-> | Hin]);
      [| | | by apply elem_of_nil in Hin]; evaluate.
  - cbn. by apply setValue_in_step.
  - destruct (onSubmit_form c) as [-> | ->]; [exact Hstep |].
    apply (in_step_ext name (calculatorForm c)); [| | exact Hstep];
      intros k; rewrite lookup_fmap; by destruct (_ !! k).
Qed.

Lemma run_in_step (es : list event) (name : string) :
  in_step name (calculatorForm (run es)).
Proof.
  induction es as [|e es IH] using rev_ind; [apply createForm_in_step |].
  rewrite run_snoc. apply handle_in_step; [apply run_dom | exact IH].
Qed.

(** Two controls with the same value, validators and touched flag are one
    control. *)
Lemma control_ext (x y : option FormControl) :
  value <$> x = value <$> y -> validators <$> x = validators <$> y ->
  touched <$> x = touched <$> y -> x = y.
Proof.
  destruct x as [[]|], y as [[]|]; cbn; intros; congruence.
Qed.

(** In step, a subscription called again changes nothing. *)
Lemma in_step_assign (name : string) (form : gmap string FormControl) (k : string) :
  in_step name form ->
  assign (assigned name (value_of form name) k) (form !! k)
  = validators <$> (form !! k).
Proof.
  intros Hstep. destruct (assigned _ _ k) as [vs |] eqn:Hassigned; [| reflexivity].
  symmetry. by apply Hstep.
Qed.

End ConditionalValidators.

(** X14. In a running component the conditional validators always follow
    the present selection: calling [updateProcessingValidators] with the
    value of [processingType], [updateOutsourcePricingValidators] with the
    value of [outsourcePricing], or the denial-rate subscription with the
    value of [knowDenialRate] would change nothing in the form.  No
    validator of an earlier selection is left behind, also after
    [resetCalculator]. *)
Theorem conditional_validators_follow_selection (es : list Component.event) :
  let form := Component.calculatorForm (Component.run es) in
  Component.updateProcessingValidators
    (Component.value_of form "processingType") form = form
  /\ Component.updateOutsourcePricingValidators
       (Component.value_of form "outsourcePricing") form = form
  /\ Component.denialRateValidators
       (Component.value_of form "knowDenialRate") form = form.
Proof.
  cbv zeta. split; [| split]; apply map_eq; intros k; apply control_ext.
  - by apply updateProcessingValidators_attribute.
  - rewrite updateProcessingValidators_validators.
    apply (in_step_assign "processingType"), run_in_step.
  - by apply updateProcessingValidators_attribute.
  - by apply updateOutsourcePricingValidators_attribute.
  - rewrite updateOutsourcePricingValidators_validators.
    apply (in_step_assign "outsourcePricing"), run_in_step.
  - by apply updateOutsourcePricingValidators_attribute.
  - by apply denialRateValidators_attribute.
  - rewrite denialRateValidators_validators.
    apply (in_step_assign "knowDenialRate"), run_in_step.
  - by apply denialRateValidators_attribute.
Qed.

(** ** The validity of the whole form *)

Section FormValidity.

Import Forms Component Assigned.

Lemma no_validators_valid (control : FormControl) :
  validators control = [] -> valid control = true.
Proof. unfold valid, errors. by intros ->. Qed.

(** In a running component a control has the validators that the present
    selection assigns to it. *)
Lemma run_assigned (es : list event) (name k : string) (vs : list ValidatorFn) :
  k ∈ dom createForm ->
  assigned name (value_of (calculatorForm (run es)) name) k = Some vs ->
  exists control,
    calculatorForm (run es) !! k = Some control /\ validators control = vs.
Proof.
  intros Hk Hassigned. destruct (run_control es k Hk) as [control Hcontrol].
  pose proof (run_in_step es name k vs Hassigned) as Hstep.
  rewrite Hcontrol in Hstep. exists control.
  split; [exact Hcontrol | cbn in Hstep; congruence].
Qed.

Lemma run_cleared (es : list event) (name k : string) :
  k ∈ dom createForm ->
  assigned name (value_of (calculatorForm (run es)) name) k = Some [] ->
  valid_or_false (calculatorForm (run es)) k = true.
Proof.
  intros Hk Hassigned.
  destruct (run_assigned es name k [] Hk Hassigned) as (control & Hcontrol & Hvs).
  unfold valid_or_false. rewrite Hcontrol. by apply no_validators_valid.
Qed.

Lemma run_staff_valid (es : list event) (k : string) :
  k ∈ ["staffWages"; "staffCount"] ->
  strict_eq_string (value_of (calculatorForm (run es)) "processingType") "inhouse"
  = false ->
  valid_or_false (calculatorForm (run es)) k = true.
Proof.
  intros Hk Hother.
  repeat (apply elem_of_cons in Hk as [-> | Hk]); [| | by apply elem_of_nil in Hk];
    (apply (run_cleared es "processingType"); [evaluate |]);
    change (assigned "processingType" ?v ?k) with (by_processingType v k);
    unfold by_processingType; by rewrite Hother.
Qed.

Lemma run_denialRate_valid (es : list event) :
  strict_eq_string (value_of (calculatorForm (run es)) "knowDenialRate") "yes"
  = false ->
  valid_or_false (calculatorForm (run es)) "denialRate" = true.
Proof.
  intros Hother. apply (run_cleared es "knowDenialRate"); [evaluate |].
  change (assigned "knowDenialRate" ?v ?k) with (by_knowDenialRate v k).
  unfold by_knowDenialRate. by rewrite Hother.
Qed.

Lemma run_pricing_value_valid (es : list event) (k : string) :
  k ∈ Tables.pricing_values ->
  to_string (value_of (calculatorForm (run es)) "outsourcePricing") +:+ "Value" <> k ->
  valid_or_false (calculatorForm (run es)) k = true.
Proof.
  intros Hk Hother. apply (run_cleared es "outsourcePricing").
  - repeat (apply elem_of_cons in Hk as [-> | Hk]);
      [| | | | by apply elem_of_nil in Hk]; evaluate.
  - change (assigned "outsourcePricing" ?v ?k) with (by_outsourcePricing v k).
    unfold by_outsourcePricing.
    rewrite (bool_decide_eq_false_2 _ Hother), andb_false_r.
    rewrite bool_decide_eq_true_2; [reflexivity |].
    repeat (apply elem_of_cons in Hk as [-> | Hk]);
      [| | | | by apply elem_of_nil in Hk]; evaluate.
Qed.

(** [form.valid] asks every control of the form. *)
Lemma group_valid_controls (form : gmap string FormControl) :
  dom form = dom createForm ->
  group_valid form = forallb (valid_or_false form) Tables.controls.
Proof.
  intros Hdom.
  assert (forall k, k ∈ dom form <-> In k Tables.controls) as Hkeys.
  { intros k. rewrite Hdom, <- list_elem_of_In.
    replace (dom createForm) with (list_to_set (C := gset string) Tables.controls)
      by evaluate.
    apply elem_of_list_to_set. }
  apply eq_true_iff_eq. unfold group_valid. rewrite !forallb_forall.
  split.
  - intros Hall k Hk. apply Hkeys, elem_of_dom in Hk as [control Hcontrol].
    unfold valid_or_false. rewrite Hcontrol.
    apply (Hall (k, control)), list_elem_of_In. by apply elem_of_map_to_list.
  - intros Hall [k control] Hin.
    apply list_elem_of_In, elem_of_map_to_list in Hin. cbn in Hin.
    assert (In k Tables.controls) as Hk by (apply Hkeys, elem_of_dom; eauto).
    specialize (Hall k Hk). unfold valid_or_false in Hall.
    by rewrite Hin in Hall.
Qed.

End FormValidity.

(** X15. In a running component the conditional fields that the present
    selection does not concern are valid whatever they hold: the staff
    wages and the staff count unless the processing is in house, the
    denial rate unless the user knows it, and each pricing value unless
    its pricing type is the one selected. *)
Theorem unselected_fields_are_valid (es : list Component.event) :
  let form := Component.calculatorForm (Component.run es) in
  (strict_eq_string (Component.value_of form "processingType") "inhouse" = false ->
   Component.valid_or_false form "staffWages" = true
   /\ Component.valid_or_false form "staffCount" = true)
  /\ (strict_eq_string (Component.value_of form "knowDenialRate") "yes" = false ->
      Component.valid_or_false form "denialRate" = true)
  /\ (forall k,
        k ∈ Tables.pricing_values ->
        to_string (Component.value_of form "outsourcePricing") +:+ "Value" <> k ->
        Component.valid_or_false form k = true).
Proof.
  cbv zeta. split; [| split].
  - intros Hother. split; (apply run_staff_valid; [evaluate | exact Hother]).
  - apply run_denialRate_valid.
  - apply run_pricing_value_valid.
Qed.

(** X16. In a running component the form is valid exactly when the three
    step checks hold and the four pricing values are valid.  The step
    checks never look at a pricing value, so with the processing
    outsourced they can all hold while [onSubmit] finds the form not
    valid. *)
Theorem form_validity_by_steps (es : list Component.event) :
  let c := Component.run es in
  let form := Component.calculatorForm c in
  Forms.group_valid form
  = Component.isStep1Valid c && Component.isStep2Valid c && Component.isStep3Valid c
    && forallb (Component.valid_or_false form) Tables.pricing_values.
Proof.
  cbv zeta. rewrite group_valid_controls by apply run_dom.
  unfold Component.isStep1Valid, Component.isStep2Valid, Component.isStep3Valid,
    Tables.controls, Tables.pricing_values.
  cbn [forallb].
  rewrite (run_unvalidated es "volumePeriod"), (run_unvalidated es "knowDenialRate"),
    (run_unvalidated es "wageType"), (run_unvalidated es "outsourcePricing")
    by evaluate.
  pose proof (run_staff_valid es "staffWages") as Hwages.
  pose proof (run_staff_valid es "staffCount") as Hcount.
  pose proof (run_denialRate_valid es) as Hrate.
  destruct (strict_eq_string _ "yes");
    destruct (strict_eq_string _ "inhouse");
    try destruct (strict_eq_string _ "outsource");
    rewrite ?Hwages, ?Hcount, ?Hrate by (reflexivity || evaluate);
    btauto.
Qed.

(** ** The error messages *)

Section FormErrors.

Import Forms Component.

(** Each validator reports under one key. *)
Lemma required_reports (v : primitive) :
  Validators.required v = None \/ Validators.required v = Some ["required"].
Proof. unfold Validators.required. destruct (Validators.isEmptyInputValue v); auto. Qed.

Lemma min_reports (m : number) (v : primitive) :
  Validators.min m v = None \/ Validators.min m v = Some ["min"].
Proof.
  unfold Validators.min. destruct (Validators.isEmptyInputValue v); auto.
  destruct (_ && _); auto.
Qed.

Lemma max_reports (m : number) (v : primitive) :
  Validators.max m v = None \/ Validators.max m v = Some ["max"].
Proof.
  unfold Validators.max. destruct (Validators.isEmptyInputValue v); auto.
  destruct (_ && _); auto.
Qed.

Lemma minLength_reports (n : nat) (v : primitive) :
  Validators.minLength n v = None \/ Validators.minLength n v = Some ["minlength"].
Proof.
  unfold Validators.minLength. destruct v; auto.
  destruct (Validators.isEmptyInputValue _); auto. destruct (_ <? _)%nat; auto.
Qed.

Lemma zipCodeValidator_reports (v : primitive) :
  zipCodeValidator v = None \/ zipCodeValidator v = Some ["pattern"].
Proof.
  unfold zipCodeValidator. destruct (negb (truthy v)); auto.
  destruct (_ || _); auto.
Qed.

Lemma errors_reported (vs : list ValidatorFn) (keys : list string) (v : primitive) :
  Forall2 (fun f key => f v = None \/ f v = Some [key]) vs keys ->
  Forall (fun key => key ∈ keys) (flat_map (fun f => default [] (f v)) vs).
Proof.
  induction 1 as [|f key vs keys Hf _ IH]; cbn [flat_map]; [constructor |].
  apply Forall_app. split.
  - destruct Hf as [-> | ->]; cbn; repeat constructor.
  - eapply Forall_impl; [exact IH |]. intros key' Hin. by apply list_elem_of_further.
Qed.

(** The message of a control that is not valid, when every key that its
    validators report under has a message. *)
Lemma invalid_control_message (k : string) (control : FormControl)
    (keys : list string) :
  Forall2 (fun f key => f (value control) = None \/ f (value control) = Some [key])
          (validators control) keys ->
  forallb
    (fun key =>
       match validationMessages !! k ≫= (fun messages => messages !! key) with
       | Some message => negb (bool_decide (message = ""))
       | None => false
       end) keys = true ->
  valid control = false ->
  exists message,
    validationMessages !! k
      ≫= (fun messages => first_message messages (default [] (errors control)))
    = Some message
    /\ message <> "".
Proof.
  intros Hreports Hmessages Hinvalid.
  apply errors_reported in Hreports. unfold valid, errors in *.
  destruct (flat_map _ _) as [|errorKey rest]; [discriminate |].
  apply Forall_cons in Hreports as [Hin _].
  rewrite forallb_forall in Hmessages.
  specialize (Hmessages errorKey). rewrite <- list_elem_of_In in Hmessages.
  specialize (Hmessages Hin).
  destruct (validationMessages !! k) as [messages |]; [| discriminate].
  cbn in *. destruct (messages !! errorKey) as [message |]; [| discriminate].
  apply negb_true_iff in Hmessages. rewrite Hmessages.
  exists message. split; [reflexivity |]. by apply bool_decide_eq_false in Hmessages.
Qed.

(** The controls that have messages are those of the three steps. *)
Lemma validationMessages_keys (k : string) :
  k ∉ Tables.step_fields -> validationMessages !! k = None.
Proof.
  intros Hk. apply not_elem_of_dom.
  replace (dom validationMessages)
    with (list_to_set (C := gset string) Tables.step_fields) by evaluate.
  by rewrite elem_of_list_to_set.
Qed.

Lemma step_field_message (es : list event) (k : string) (control : FormControl) :
  k ∈ Tables.step_fields ->
  calculatorForm (run es) !! k = Some control ->
  valid control = false ->
  exists message,
    validationMessages !! k
      ≫= (fun messages => first_message messages (default [] (errors control)))
    = Some message
    /\ message <> "".
Proof.
  intros Hk Hcontrol Hinvalid.
  assert (exists vs keys,
            validators <$> (createForm !! k) = Some vs
            /\ (forall v, Forall2 (fun f key => f v = None \/ f v = Some [key]) vs keys)
            /\ forallb
                 (fun key =>
                    match validationMessages !! k
                            ≫= (fun messages => messages !! key) with
                    | Some message => negb (bool_decide (message = ""))
                    | None => false
                    end) keys = true)
    as (vs & keys & Hvs & Hreports & Hmessages).
  { repeat (apply elem_of_cons in Hk as [-> | Hk]);
      [| | | | | | | | by apply elem_of_nil in Hk].
    - exists [Validators.required; Validators.minLength 10], ["required"; "minlength"].
      split; [reflexivity | split; [| reflexivity]]. intros v.
      repeat (constructor; [solve [auto using required_reports, minLength_reports] |]); constructor.
    - exists [Validators.required; zipCodeValidator], ["required"; "pattern"].
      split; [reflexivity | split; [| reflexivity]]. intros v.
      repeat (constructor; [solve [auto using required_reports, zipCodeValidator_reports] |]); constructor.
    - exists [Validators.required], ["required"].
      split; [reflexivity | split; [| reflexivity]]. intros v.
      repeat (constructor; [solve [auto using required_reports] |]); constructor.
    - exists [Validators.required; Validators.min (num 1)], ["required"; "min"].
      split; [reflexivity | split; [| reflexivity]]. intros v.
      repeat (constructor; [solve [auto using required_reports, min_reports] |]); constructor.
    - exists [Validators.required; Validators.min (num 0.01)], ["required"; "min"].
      split; [reflexivity | split; [| reflexivity]]. intros v.
      repeat (constructor; [solve [auto using required_reports, min_reports] |]); constructor.
    - exists [Validators.required; Validators.min (num 1); Validators.max (num 100)],
        ["required"; "min"; "max"].
      split; [reflexivity | split; [| reflexivity]]. intros v.
      repeat (constructor; [solve [auto using required_reports, min_reports, max_reports] |]); constructor.
    - exists [Validators.required; Validators.min (num 1)], ["required"; "min"].
      split; [reflexivity | split; [| reflexivity]]. intros v.
      repeat (constructor; [solve [auto using required_reports, min_reports] |]); constructor.
    - exists [Validators.required], ["required"].
      split; [reflexivity | split; [| reflexivity]]. intros v.
      repeat (constructor; [solve [auto using required_reports] |]); constructor. }
  destruct (run_static_control es k vs) as (control' & Hcontrol' & Hvalidators);
    [apply elem_of_app; by left | exact Hvs |].
  rewrite Hcontrol in Hcontrol'. injection Hcontrol' as <-.
  apply (invalid_control_message k control keys); [| exact Hmessages | exact Hinvalid].
  rewrite Hvalidators. apply Hreports.
Qed.

(** An empty value of a step field is reported as missing, and as nothing
    else. *)
Lemma step_field_required (es : list event) (k : string) (control : FormControl) :
  k ∈ Tables.step_fields ->
  calculatorForm (run es) !! k = Some control ->
  Validators.isEmptyInputValue (value control) = true ->
  errors control = Some ["required"].
Proof.
  intros Hk Hcontrol Hempty.
  assert (exists vs,
            validators <$> (createForm !! k) = Some vs
            /\ forall v, Validators.isEmptyInputValue v = true ->
                 flat_map (fun f => default [] (f v)) vs = ["required"])
    as (vs & Hvs & Hrequired).
  { assert (forall v, Validators.isEmptyInputValue v = true ->
              v = undefined \/ v = null \/ v = VString "") as Hcases.
    { intros [| | b | x | s]; cbn; auto; try discriminate.
      intros ->%bool_decide_eq_true_1. auto. }
    repeat (apply elem_of_cons in Hk as [-> | Hk]);
      [| | | | | | | | by apply elem_of_nil in Hk];
      (eexists; split; [reflexivity |]);
      intros v [-> | [-> | ->]]%Hcases; reflexivity. }
  destruct (run_static_control es k vs) as (control' & Hcontrol' & Hvalidators);
    [apply elem_of_app; by left | exact Hvs |].
  rewrite Hcontrol in Hcontrol'. injection Hcontrol' as <-.
  unfold errors. by rewrite Hvalidators, (Hrequired _ Hempty).
Qed.

End FormErrors.

(** No control of a running component is named like a member of
    [Object.prototype]. *)
Lemma run_prototype_keys (es : list Component.event) (k : string) :
  k ∈ Object_prototype ->
  Component.calculatorForm (Component.run es) !! k = None.
Proof.
  intros Hin. apply not_elem_of_dom. rewrite run_dom.
  assert (Forall (fun k => k ∉ dom Component.createForm) Object_prototype) as Hall
    by (repeat constructor; evaluate).
  exact (proj1 (Forall_forall _ _) Hall k Hin).
Qed.

(** [getFieldError] returns a message when [formErrors] has one that is
    not empty. *)
Lemma getFieldError_message (formErrors : gmap string string) (k message : string) :
  Component.getFieldError formErrors k = Own message
  <-> formErrors !! k = Some message /\ message <> "".
Proof.
  unfold Component.getFieldError, lookup_literal.
  destruct (formErrors !! k) as [m |].
  - case_bool_decide as Hm.
    + split; [discriminate | intros [[= ->] ?]; contradiction].
    + split; [intros [= ->]; auto | intros [[= ->] _]; reflexivity].
  - case_bool_decide; split; try discriminate; intros [[=] _].
Qed.

(** What [updateFormErrors] records for a control. *)
Lemma updateFormErrors_lookup (form : gmap string Forms.FormControl) (k : string) :
  Component.updateFormErrors form !! k
  = form !! k ≫= fun control =>
      if negb (Forms.valid control) && Forms.touched control then
        Component.validationMessages !! k ≫= fun messages =>
          Component.first_message messages (default [] (Forms.errors control))
      else None.
Proof.
  unfold Component.updateFormErrors. rewrite map_lookup_imap.
  destruct (form !! k) as [control |]; [| reflexivity]. cbn [mbind option_bind].
  destruct (_ && _); [| reflexivity].
  by destruct (Component.validationMessages !! k).
Qed.

(** X17. When [updateFormErrors] runs in a running component,
    [getFieldError] then returns a message for a field exactly when it is
    one of the eight fields of the three steps and is touched and not
    valid: every error of those fields has a message, and the staff fields,
    the pricing values and the denial rate never get one, also when they
    are touched and not valid.  A touched step field whose value is empty
    gets its 'required' message.  For the name of a member of
    [Object.prototype], which no field has, [getFieldError] returns
    neither a message nor [null] but the inherited object. *)
Theorem error_messages_of_step_fields (es : list Component.event) (k : string) :
  let c := Component.run es in
  let formErrors := Component.updateFormErrors (Component.calculatorForm c) in
  ((exists message, Component.getFieldError formErrors k = Own message)
   <-> k ∈ Tables.step_fields /\ Component.isFieldInvalid c k = true)
  /\ (k ∈ Object_prototype -> Component.getFieldError formErrors k = Inherited k)
  /\ (forall control,
        k ∈ Tables.step_fields ->
        Component.calculatorForm c !! k = Some control ->
        Forms.touched control = true ->
        Forms.Validators.isEmptyInputValue (Forms.value control) = true ->
        Component.getFieldError formErrors k
        = from_option Own Absent
            (Component.validationMessages !! k
               ≫= (fun messages => messages !! "required"))).
Proof.
  cbv zeta. split; [| split].
  - assert ((exists message,
               Component.getFieldError
                 (Component.updateFormErrors
                    (Component.calculatorForm (Component.run es))) k
               = Own message)
            <-> exists message,
                  Component.updateFormErrors
                    (Component.calculatorForm (Component.run es)) !! k
                  = Some message /\ message <> "") as ->.
    { split; intros [message H]; exists message; by apply getFieldError_message. }
    rewrite updateFormErrors_lookup. unfold Component.isFieldInvalid.
    destruct (Component.calculatorForm (Component.run es) !! k) as [control |]
      eqn:Hcontrol; cbn [mbind option_bind].
    2: { split; [intros [? [[=] _]] | intros [_ [=]]]. }
    destruct (Forms.valid control) eqn:Hvalid; cbn [negb andb].
    { split; [intros [? [[=] _]] | intros [_ [=]]]. }
    destruct (Forms.touched control); cbn [negb andb].
    2: { split; [intros [? [[=] _]] | intros [_ [=]]]. }
    destruct (decide (k ∈ Tables.step_fields)) as [Hk | Hk].
    + destruct (step_field_message es k control Hk Hcontrol Hvalid)
        as (message & Hmessage & Hnonempty).
      split; eauto.
    + rewrite validationMessages_keys by exact Hk.
      split; [intros [? [[=] _]] | intros [? _]; contradiction].
  - intros Hin. unfold Component.getFieldError, lookup_literal.
    rewrite updateFormErrors_lookup, (run_prototype_keys es k Hin).
    cbn [mbind option_bind]. by rewrite bool_decide_eq_true_2.
  - intros control Hk Hcontrol Htouched Hempty.
    unfold Component.getFieldError, lookup_literal.
    rewrite updateFormErrors_lookup, Hcontrol. cbn [mbind option_bind].
    pose proof (step_field_required es k control Hk Hcontrol Hempty) as Herrors.
    unfold Forms.valid. rewrite Herrors, Htouched. cbn [negb andb default].
    repeat (apply elem_of_cons in Hk as [-> | Hk]);
      [| | | | | | | | by apply elem_of_nil in Hk]; reflexivity.
Qed.

(** ** Selecting a processing model *)

Section Selection.

Import Forms Component Assigned.

(** A control of a running component takes a value: the validators that
    follow. *)
Lemma run_setValue_validators (es : list event) (name k : string) (v : primitive) :
  name ∈ dom createForm -> k ∈ dom createForm ->
  validators <$> (setValue name v (calculatorForm (run es)) !! k)
  = match assigned name v k with
    | Some vs => Some vs
    | None => validators <$> (calculatorForm (run es) !! k)
    end.
Proof.
  intros Hname Hk. rewrite setValue_validators.
  destruct (run_control es name Hname) as [c ->].
  destruct (run_control es k Hk) as [control ->].
  by destruct (assigned name v k).
Qed.

Lemma run_setValue_value (es : list event) (name : string) (v : primitive) :
  name ∈ dom createForm ->
  value_of (setValue name v (calculatorForm (run es))) name = v.
Proof.
  intros Hname. rewrite value_of_lookup, setValue_value.
  rewrite decide_True by reflexivity.
  by destruct (run_control es name Hname) as [c ->].
Qed.

Lemma strict_eq_string_of_string (s lit : string) :
  strict_eq_string (VString s) lit = bool_decide (s = lit).
Proof. reflexivity. Qed.

End Selection.

(** X18. In a running component [setProcessingType] stores the type and
    gives the staff wages and the staff count their validators for
    'inhouse' and none for any other type; [setOutsourcePricing] stores the
    type and gives validators to the pricing value of that type, with an
    upper bound of 100 only for 'percentage', and none to the other three
    pricing values. *)
Theorem selection_installs_validators (es : list Component.event) (type : string) :
  let c := Component.run es in
  let staffed := Component.calculatorForm (Component.setProcessingType type c) in
  let priced := Component.calculatorForm (Component.setOutsourcePricing type c) in
  Component.value_of staffed "processingType" = VString type
  /\ Forms.validators <$> (staffed !! "staffWages")
     = Some (if bool_decide (type = "inhouse")
             then [Forms.Validators.required; Forms.Validators.min (num 0.01)]
             else [])
  /\ Forms.validators <$> (staffed !! "staffCount")
     = Some (if bool_decide (type = "inhouse")
             then [Forms.Validators.required; Forms.Validators.min (num 1)]
             else [])
  /\ Component.value_of priced "outsourcePricing" = VString type
  /\ Forall
       (fun k =>
          Forms.validators <$> (priced !! k)
          = Some (if bool_decide (type +:+ "Value" = k)
                  then Forms.Validators.required
                       :: Forms.Validators.min (num 0.01)
                       :: (if bool_decide (type = "percentage")
                           then [Forms.Validators.max (num 100)] else [])
                  else []))
       Tables.pricing_values.
Proof.
  cbv zeta. unfold Component.setProcessingType, Component.setOutsourcePricing.
  cbn [Component.calculatorForm Component.with_form].
  split; [by apply run_setValue_value; evaluate |].
  split; [by rewrite run_setValue_validators by evaluate |].
  split; [by rewrite run_setValue_validators by evaluate |].
  split; [by apply run_setValue_value; evaluate |].
  assert (type +:+ "Value" ∈ Tables.pricing_values -> truthy (VString type) = true)
    as Htruthy.
  { destruct type; [| reflexivity]. intros Hin. exfalso. revert Hin. evaluate. }
  repeat (apply Forall_cons; split); [| | | | by constructor];
    rewrite run_setValue_validators by evaluate;
    change (Assigned.assigned "outsourcePricing" ?v ?k)
      with (Assigned.by_outsourcePricing v k);
    unfold Assigned.by_outsourcePricing; cbn [to_string];
    rewrite strict_eq_string_of_string;
    (case_bool_decide as Hkey;
     [rewrite Htruthy by (rewrite Hkey; evaluate); reflexivity |]);
    rewrite andb_false_r; reflexivity.
Qed.

(** ** The performance bands *)

(** X19. When the denial rate is estimated for a specialty that is not the
    name of a member of [Object.prototype], the claim-success percentage of
    the result is rated 'excellent', or 'good' for orthopedics and for no
    other specialty; [getPerformanceClass] and [getPerformanceLabel] name
    the same band.  For such a name the percentage is NaN and the rating is
    'needs-improvement'. *)
Theorem estimated_rate_performance (formData : gmap string primitive) :
  get formData "knowDenialRate" <> VString "yes" ->
  let percentage :=
    Result.averageClaimPercentage
      (Result.userMetrics (Component.mockCalculation formData)) in
  let key := to_string (get formData "specialty") in
  (key ∉ Object_prototype ->
   (Component.getPerformanceClass percentage, Component.getPerformanceLabel percentage)
     ∈ [("excellent", "Excellent"); ("good", "Good")]
   /\ (Component.getPerformanceClass percentage = "good" <-> key = "orthopedics"))
  /\ (key ∈ Object_prototype ->
      percentage = NaN
      /\ Component.getPerformanceClass percentage = "needs-improvement"
      /\ Component.getPerformanceLabel percentage = "Needs Improvement").
Proof.
  intros Hflag. cbv zeta.
  cbn [Result.averageClaimPercentage Result.userMetrics Component.mockCalculation].
  unfold Component.averageClaimPercentage, Component.denialRate.
  rewrite strict_eq_string_decide, bool_decide_eq_false_2 by exact Hflag.
  unfold Component.estimateDenialRate, lookup_literal.
  generalize (to_string (get formData "specialty")). intros key.
  destruct (Component.denialRates !! key) as [rate |] eqn:Hrate.
  - apply elem_of_list_to_map_2 in Hrate.
    repeat (apply elem_of_cons in Hrate as [[= -> ->] | Hrate]);
      [| | | | | | | | | | by apply elem_of_nil in Hrate].
    all: split; [intros _ | intros Hin; exfalso; revert Hin; evaluate].
    all: split; [evaluate |].
    all: split; intros H; first [reflexivity | evaluate | exfalso; revert H; evaluate].
  - case_bool_decide as Hin; cbn [or_default ToNumber].
    + split; [intros Hout; contradiction | intros _].
      split; [| split]; evaluate.
    + split; [intros _ | intros ?; contradiction].
      split; [evaluate |]. split; intros H.
      * exfalso. revert H. evaluate.
      * rewrite H in Hrate. exfalso. revert Hrate. evaluate.
Qed.

Lemma estimated_rate_performance_witness :
  (Component.getPerformanceClass
     (Result.averageClaimPercentage
        (Result.userMetrics
           (Component.mockCalculation
              (<["specialty" := VString "orthopedics"]> inhouse_example))))
   = "good"
   <-> "orthopedics" = "orthopedics")
  /\ Component.getPerformanceClass
       (Result.averageClaimPercentage
          (Result.userMetrics
             (Component.mockCalculation
                (<["specialty" := VString "hasOwnProperty"]> inhouse_example))))
     = "needs-improvement".
Proof.
  split.
  - refine (proj2 (proj1 (estimated_rate_performance
                            (<["specialty" := VString "orthopedics"]> inhouse_example)
                            _) _)); evaluate.
  - refine (proj1 (proj2 (proj2 (estimated_rate_performance
                                   (<["specialty" := VString "hasOwnProperty"]>
                                      inhouse_example) _) _))); evaluate.
Defined.

(** ** The field helpers *)

Lemma append_inj_l (k a b : string) : k +:+ a = k +:+ b -> a = b.
Proof.
  induction k as [|c k IH]; [intros H; exact H |].
  rewrite !append_cons. intros [= H]. by apply IH.
Qed.

Lemma append_nonempty (k a : string) : a <> "" -> "" <> k +:+ a.
Proof.
  intros Ha. destruct k as [|c k]; [intros H; by apply Ha |].
  rewrite append_cons. discriminate.
Qed.

(** X20. The four field helpers tell the same three cases apart.  A field
    is never reported both as valid and as invalid, and it is reported as
    one of the two exactly when the form has the control and it is touched;
    [getAriaLabel] says 'has errors' and [getAriaDescribedBy] names the
    error element exactly when [isFieldInvalid] holds; they say 'is valid'
    and name the success element exactly when [isFieldValid] holds. *)
Theorem field_helpers_agree (c : Component.state) (fieldName : string) :
  Component.isFieldValid c fieldName && Component.isFieldInvalid c fieldName = false
  /\ Component.isFieldValid c fieldName || Component.isFieldInvalid c fieldName
     = from_option Forms.touched false (Component.calculatorForm c !! fieldName)
  /\ (Component.getAriaLabel c fieldName = fieldName +:+ " field has errors"
      <-> Component.isFieldInvalid c fieldName = true)
  /\ (Component.getAriaDescribedBy c fieldName = fieldName +:+ "-error"
      <-> Component.isFieldInvalid c fieldName = true)
  /\ (Component.getAriaLabel c fieldName = fieldName +:+ " field is valid"
      <-> Component.isFieldValid c fieldName = true)
  /\ (Component.getAriaDescribedBy c fieldName = fieldName +:+ "-success"
      <-> Component.isFieldValid c fieldName = true).
Proof.
  unfold Component.getAriaDescribedBy, Component.getAriaLabel,
    Component.isFieldValid, Component.isFieldInvalid.
  destruct (Component.calculatorForm c !! fieldName) as [control |].
  - cbn [from_option].
    destruct (Forms.valid control), (Forms.touched control); cbn [negb andb orb];
      (split; [reflexivity |]); (split; [reflexivity |]);
      repeat split; try reflexivity; try discriminate;
      intros H; exfalso;
      solve [ apply append_inj_l in H; discriminate H
            | by apply append_nonempty in H ].
  - split; [reflexivity |]. split; [reflexivity |].
    repeat split; try discriminate; intros H; exfalso;
      by apply append_nonempty in H.
Qed.

(** ** The feedback on the ZIP/PIN code *)

Lemma run_pincode_valid (es : list Component.event) (s : string) :
  Component.value_of (Component.calculatorForm (Component.run es)) "pincode"
  = VString s ->
  Component.valid_or_false (Component.calculatorForm (Component.run es)) "pincode"
  = negb (bool_decide (s = ""))
    && (RegExp.test Component.usZipPattern s
        || RegExp.test Component.indianPinPattern s).
Proof.
  intros Hvalue.
  destruct (run_static_control es "pincode"
              [Forms.Validators.required; Component.zipCodeValidator])
    as (control & Hcontrol & Hvalidators); [evaluate | reflexivity |].
  unfold Component.value_of, Component.valid_or_false in *.
  rewrite Hcontrol in *.
  rewrite (valid_by_value_and_validators control _ _ Hvalue Hvalidators).
  unfold Forms.valid, Forms.errors, Component.control, Forms.Validators.required,
    Component.zipCodeValidator.
  cbn [Forms.value Forms.validators flat_map Forms.Validators.isEmptyInputValue
       truthy to_string].
  case_bool_decide as Hs; cbn [negb andb]; [reflexivity |].
  destruct (_ || _); reflexivity.
Qed.

(** X21. In a running component whose ZIP/PIN control holds a string,
    [onPincodeChange] gives its success feedback exactly when that control
    is valid. *)
Theorem pincode_feedback_is_validity (es : list Component.event) (s : string) :
  let c := Component.run es in
  Component.value_of (Component.calculatorForm c) "pincode" = VString s ->
  Component.onPincodeChange c
  = Component.valid_or_false (Component.calculatorForm c) "pincode".
Proof.
  cbv zeta. intros Hvalue. rewrite (run_pincode_valid es s Hvalue).
  unfold Component.onPincodeChange. rewrite Hvalue.
  unfold Component.zipCodeValidator. cbn [truthy to_string].
  destruct (negb (bool_decide (s = ""))); cbn [negb andb]; [| reflexivity].
  destruct (_ || _); reflexivity.
Qed.

Lemma pincode_feedback_is_validity_witness :
  Component.onPincodeChange
    (Component.run [Component.SetValue "pincode" (VString "12345-6789")])
  = Component.valid_or_false
      (Component.calculatorForm
         (Component.run [Component.SetValue "pincode" (VString "12345-6789")]))
      "pincode".
Proof.
  apply (pincode_feedback_is_validity
           [Component.SetValue "pincode" (VString "12345-6789")] "12345-6789").
  vm_compute. reflexivity.
Defined.
